(** * NeoStats retrieval core: chunker, response cache, index builder,
      retriever and completion boundary

    A shallow embedding of the Python sources
      - [utils/common_utils.py]  ([TextProcessor.chunk_text], [Cache]),
      - [build_faiss_index.py]   ([build_index]),
      - [utils/rag_utils.py]     ([retrieve_similar_documents]),
      - [models/llm.py]          ([generate_llm]),
    followed by the properties of the retrieval specification that can be
    stated over them.

    Conventions.  A Python [str] is a list of Unicode code points; a Python
    [int] is a [Z]; a call that may raise returns a [result]; the [while]
    loop of the chunker is run with fuel, [None] meaning that the fuel was
    used up before the loop was left. *)

From Stdlib Require Import ZArith NArith List Lia Bool Ascii String DecimalString.
From Stdlib Require Import Sorted.
From stdpp Require Import gmap strings.
Import ListNotations.
Local Open Scope Z_scope.

(** ** Python values shared by all modules *)

Module Py.

(** A [str]: the sequence of its code points. *)
Definition str := list N.

(** A string literal of the source, as code points. *)
Definition lit (s : string) : str :=
  List.map N_of_ascii (list_ascii_of_string s).

(** An exception object: its class name and [str(e)]. *)
Record exn := Exn { exn_class : string; exn_msg : str }.

(** The outcome of a call: a value, or a raised exception. *)
Inductive result (A : Type) : Type :=
| Ok (a : A)
| Raise (e : exn).
Arguments Ok {A} a.
Arguments Raise {A} e.

Definition bind {A B} (r : result A) (k : A -> result B) : result B :=
  match r with
  | Ok a => k a
  | Raise e => Raise e
  end.

(** [try: body  except Exception as e: handler e]. *)
Definition try_except {A} (body : result A) (handler : exn -> result A)
  : result A :=
  match body with
  | Ok a => Ok a
  | Raise e => handler e
  end.

(** [len(x)] as a Python integer. *)
Definition len {A} (l : list A) : Z := Z.of_nat (List.length l).

(** [l[i]] for a list and an integer index: a negative index counts from
    the end, an index out of range raises [IndexError]. *)
Definition index_error : exn :=
  Exn "IndexError" (lit "list index out of range").

Definition getitem {A} (l : list A) (i : Z) : result A :=
  let j := if i <? 0 then i + len l else i in
  if (j <? 0) || (len l <=? j) then Raise index_error
  else match nth_error l (Z.to_nat j) with
       | Some a => Ok a
       | None => Raise index_error
       end.

(** [str.isspace] on one code point (the table of [Py_UNICODE_ISSPACE]). *)
Definition isspace (c : N) : bool :=
  (((9 <=? c) && (c <=? 13)) || ((28 <=? c) && (c <=? 32))
   || (c =? 133) || (c =? 160) || (c =? 5760)
   || ((8192 <=? c) && (c <=? 8202))
   || (c =? 8232) || (c =? 8233) || (c =? 8239) || (c =? 8287)
   || (c =? 12288))%N.

(** [s.lstrip()], [s.rstrip()] and [s.strip()] without argument. *)
Fixpoint lstrip (s : str) : str :=
  match s with
  | c :: s' => if isspace c then lstrip s' else s
  | [] => []
  end.

Fixpoint rstrip (s : str) : str :=
  match s with
  | [] => []
  | c :: s' =>
      match rstrip s' with
      | [] => if isspace c then [] else [c]
      | t => c :: t
      end
  end.

Definition strip (s : str) : str := rstrip (lstrip s).

(** The index adjustment the interpreter applies to the bounds of a slice
    and of [find]/[rfind]: a negative bound counts from the end, and the
    result is clipped to [0, len]. *)
Definition adjust (n i : Z) : Z :=
  if i <? 0 then Z.max 0 (i + n) else Z.min i n.

(** [s[start:stop]]. *)
Definition slice {A} (s : list A) (start stop : Z) : list A :=
  let a := adjust (len s) start in
  let b := adjust (len s) stop in
  firstn (Z.to_nat (b - a)) (skipn (Z.to_nat a) s).

(** The greatest position [i] with [a <= i < a + length s] and
    [s[i - a] = c], or [-1]; [a] is the position of the head of [s]. *)
Fixpoint rfind_from (c : N) (s : str) (a : Z) : Z :=
  match s with
  | [] => -1
  | x :: s' =>
      let r := rfind_from c s' (a + 1) in
      if 0 <=? r then r else if (x =? c)%N then a else -1
  end.

(** [s.rfind(c, start, stop)] for a one-character needle [c]. *)
Definition rfind (s : str) (c : N) (start stop : Z) : Z :=
  let a := adjust (len s) start in
  let b := adjust (len s) stop in
  if b - a <? 1 then -1
  else rfind_from c (firstn (Z.to_nat (b - a)) (skipn (Z.to_nat a) s)) a.

End Py.

(** ** [utils/common_utils.py]: [TextProcessor] *)

Module TextProcessor.
Import Py.

(** The code point of the sentence-terminating period ['.']. *)
Definition period : N := 46%N.

Section ChunkText.

Variable text : str.
Variable chunk_size overlap : Z.

(** The end of the window that starts at [start]: [start + chunk_size],
    moved back to just after the last period of the window when that
    period lies beyond the middle of the window. *)
Definition window_end (start : Z) : Z :=
  let end_ := start + chunk_size in
  if end_ <? len text then
    let sentence_end := rfind text period start end_ in
    if start + chunk_size / 2 <? sentence_end then sentence_end + 1
    else end_
  else end_.

(** The [while start < len(text)] loop, one iteration per unit of fuel. *)
Fixpoint chunk_loop (fuel : nat) (start : Z) (chunks : list str)
  : option (list str) :=
  match fuel with
  | O => None
  | S fuel' =>
      if start <? len text then
        let end_ := window_end start in
        let chunk := strip (slice text start end_) in
        let chunks' :=
          match chunk with
          | [] => chunks
          | _ :: _ => chunks ++ [chunk]
          end in
        let start' := end_ - overlap in
        if len text <=? start' then Some chunks'
        else chunk_loop fuel' start' chunks'
      else Some chunks
  end.

(** [TextProcessor.chunk_text(text, chunk_size, overlap)]. *)
Definition chunk_text (fuel : nat) : option (list str) :=
  if len text <=? chunk_size then Some [text]
  else chunk_loop fuel 0 [].

End ChunkText.

End TextProcessor.

(** ** [utils/common_utils.py]: [Cache] *)

Module Cache.
Import Py.

(** A Python [dict] with [str] keys: its items in insertion order, every
    key at most once. *)
Definition dict (A : Type) := list (str * A).

Section Dict.

Context {A : Type}.

Definition keys (d : dict A) : list str := List.map fst d.

(** [key in d]. *)
Fixpoint contains (key : str) (d : dict A) : bool :=
  match d with
  | [] => false
  | (k, _) :: d' => if decide (k = key) then true else contains key d'
  end.

Definition key_error (key : str) : exn := Exn "KeyError" key.

(** [d[key]]. *)
Fixpoint getitem (d : dict A) (key : str) : result A :=
  match d with
  | [] => Raise (key_error key)
  | (k, a) :: d' => if decide (k = key) then Ok a else getitem d' key
  end.

(** [d[key] = a]: a present key keeps its place, a new key goes last. *)
Fixpoint setitem (key : str) (a : A) (d : dict A) : dict A :=
  match d with
  | [] => [(key, a)]
  | (k, b) :: d' =>
      if decide (k = key) then (k, a) :: d' else (k, b) :: setitem key a d'
  end.

(** [del d[key]]. *)
Fixpoint delitem (key : str) (d : dict A) : result (dict A) :=
  match d with
  | [] => Raise (key_error key)
  | (k, b) :: d' =>
      if decide (k = key) then Ok d'
      else bind (delitem key d') (fun r => Ok ((k, b) :: r))
  end.

End Dict.

(** [min(iterable, key=f)]: the first item whose key is the least. *)
Fixpoint min_loop (f : str -> result Z) (best : str) (best_key : Z)
  (l : list str) : result str :=
  match l with
  | [] => Ok best
  | k :: l' =>
      bind (f k) (fun v =>
        if v <? best_key then min_loop f k v l'
        else min_loop f best best_key l')
  end.

Definition py_min (l : list str) (f : str -> result Z) : result str :=
  match l with
  | [] => Raise (Exn "ValueError" (lit "min() arg is an empty sequence"))
  | k :: l' => bind (f k) (fun v => min_loop f k v l')
  end.

Section Cache.

(** The cached values ([Any] in the source). *)
Variable V : Type.

(** The fields of a [Cache] object; [access_times] holds the value of
    [datetime.now()] at the last access, as a number of clock ticks. *)
Record t := Build {
  max_size : Z;
  cache : dict V;
  access_times : dict Z
}.

(** [Cache(max_size)]. *)
Definition init (max_size : Z) : t := Build max_size [] [].

(** [c.get(key)], [now] being what [datetime.now()] returns in the call.
    The result is the new state and the returned value ([None] when the
    key is absent). *)
Definition get (now : Z) (key : str) (c : t) : t * option V :=
  if contains key (cache c) then
    let c' := Build (max_size c) (cache c) (setitem key now (access_times c)) in
    (c', match getitem (cache c) key with Ok v => Some v | Raise _ => None end)
  else (c, None).

(** The eviction step of [set]: removes the entry with the oldest access
    time from both dictionaries. *)
Definition evict (c : t) : result t :=
  bind (py_min (keys (access_times c)) (getitem (access_times c)))
    (fun oldest_key =>
  bind (delitem oldest_key (cache c)) (fun cache' =>
  bind (delitem oldest_key (access_times c)) (fun access_times' =>
  Ok (Build (max_size c) cache' access_times')))).

(** [c.set(key, value)].  Every exception the body can raise is raised
    before the object is changed, so a raised call leaves [c] as it was. *)
Definition set (now : Z) (key : str) (value : V) (c : t) : result t :=
  bind (if max_size c <=? len (cache c) then evict c else Ok c) (fun c1 =>
  Ok (Build (max_size c1) (setitem key value (cache c1))
        (setitem key now (access_times c1)))).

(** [c.clear()]. *)
Definition clear (c : t) : t := Build (max_size c) [] [].

(** [c.size()]. *)
Definition size (c : t) : Z := len (cache c).

(** A call on the cache, with the clock reading it observes. *)
Inductive op :=
| Get_ (now : Z) (key : str)
| Set_ (now : Z) (key : str) (value : V)
| Clear_.

Definition step (c : t) (o : op) : result t :=
  match o with
  | Get_ now key => Ok (fst (get now key c))
  | Set_ now key value => set now key value c
  | Clear_ => Ok (clear c)
  end.

(** A sequence of calls, stopped by the first one that raises. *)
Fixpoint run (ops : list op) (c : t) : result t :=
  match ops with
  | [] => Ok c
  | o :: ops' => bind (step c o) (run ops')
  end.

End Cache.

Arguments max_size {V} _.
Arguments cache {V} _.
Arguments access_times {V} _.
Arguments Get_ {V} now key.
Arguments Set_ {V} now key value.
Arguments Clear_ {V}.

End Cache.


(** ** [json.dumps] on the one shape the builder writes *)

Module Json.
Import Py.

Definition hex_digit (d : N) : N :=
  if (d <? 10)%N then (48 + d)%N else (87 + d)%N.

(** [format(n, '04x')] for [n < 65536]. *)
Definition hex4 (n : N) : str :=
  [hex_digit ((n / 4096) mod 16); hex_digit ((n / 256) mod 16);
   hex_digit ((n / 16) mod 16); hex_digit (n mod 16)]%N.

Definition u_escape (n : N) : str := lit "\u" ++ hex4 n.

(** The replacement of one code point under [ensure_ascii=True]: the
    short escapes, the printable ASCII characters as they are, every other
    code point as [\uXXXX] (a surrogate pair above the basic plane). *)
Definition escape_char (c : N) : str :=
  if (c =? 92)%N then [92; 92]%N
  else if (c =? 34)%N then [92; 34]%N
  else if (c =? 8)%N then lit "\b"
  else if (c =? 12)%N then lit "\f"
  else if (c =? 10)%N then lit "\n"
  else if (c =? 13)%N then lit "\r"
  else if (c =? 9)%N then lit "\t"
  else if ((32 <=? c) && (c <=? 126))%N then [c]
  else if (c <? 65536)%N then u_escape c
  else
    let n := (c - 65536)%N in
    u_escape (N.lor 55296 (N.land (N.shiftr n 10) 1023))
    ++ u_escape (N.lor 56320 (N.land n 1023)).

(** [json.dumps(s)] for a string [s]. *)
Definition dumps_str (s : str) : str :=
  [34%N] ++ flat_map escape_char s ++ [34%N].

(** [json.dumps({"text": chunk})]. *)
Definition dumps_text (chunk : str) : str :=
  lit "{" ++ dumps_str (lit "text") ++ lit ": " ++ dumps_str chunk ++ lit "}".

End Json.

(** ** [build_faiss_index.py] *)

Module BuildFaissIndex.
Import Py.

Definition INDEX_PATH : string := "faiss_index".
Definition CHUNK_SIZE : Z := 300.
Definition CHUNK_OVERLAP : Z := 50.

(** [os.path.join(a, b)] for a relative [b]. *)
Definition path_join (a b : string) : string := (a ++ "/" ++ b)%string.

(** The storage the builder writes to: the directories that exist and the
    contents of the files. *)
Record fs := Fs { dirs : gset string; files : gmap string (list N) }.

(** [os.makedirs(path, exist_ok=True)]. *)
Definition makedirs (path : string) (s : fs) : fs :=
  Fs ({[ path ]} ∪ dirs s) (files s).

(** Opening [path] with mode ["w"] and writing [content]. *)
Definition write_file (path : string) (content : list N) (s : fs) : fs :=
  Fs (dirs s) (<[ path := content ]> (files s)).

(** The module-level [chunk_text], a pass-through to the text processor. *)
Definition chunk_text (text : str) (chunk_size overlap : Z) (fuel : nat)
  : option (list str) :=
  TextProcessor.chunk_text text chunk_size overlap fuel.

(** [str(n)] of an integer. *)
Definition str_of_int (n : Z) : str :=
  lit (DecimalString.NilZero.string_of_int (Z.to_int n)).

(** The lines of [chunks.jsonl]. *)
Definition chunks_jsonl (chunks : list str) : list N :=
  flat_map (fun chunk => Json.dumps_text chunk ++ [10%N]) chunks.

Section BuildIndex.

(** A [float32] and the vector-index library, both external: the
    constructor of a flat L2 index of dimension [dim], its [add] of the
    stacked rows (either of which the library may refuse), and the bytes
    [faiss.write_index] writes for an index. *)
Variable F : Type.
Variable faiss_index : Type.
Variable IndexFlatL2 : Z -> result faiss_index.
Variable index_add : faiss_index -> list (list F) -> result faiss_index.
Variable write_index : faiss_index -> list N.

(** [np.vstack(embeddings)]: the rows must all have the same length. *)
Definition vstack (embeddings : list (list F)) : result (list (list F)) :=
  match embeddings with
  | [] => Raise (Exn "ValueError" (lit "need at least one array to concatenate"))
  | e0 :: rest =>
      if forallb (fun e => len e =? len e0) rest then Ok embeddings
      else Raise (Exn "ValueError"
             (lit "all the input array dimensions except for the concatenation axis must match exactly"))
  end.

(** [index = faiss.IndexFlatL2(dim); index.add(np.vstack(embeddings))]. *)
Definition make_index (dim : Z) (embeddings : list (list F))
  : result faiss_index :=
  bind (IndexFlatL2 dim) (fun index =>
  bind (vstack embeddings) (fun rows => index_add index rows)).

(** [build_index(chunks, embeddings)] run on the storage [s]: the outcome
    of the call and the storage it leaves. *)
Definition build_index (chunks : list str) (embeddings : list (list F))
  (s : fs) : result unit * fs :=
  match chunks, embeddings with
  | [], _ | _, [] =>
      (Raise (Exn "ValueError"
         (lit "No chunks or embeddings provided for indexing")), s)
  | _ :: _, e0 :: _ =>
      if negb (len chunks =? len embeddings) then
        (Raise (Exn "ValueError"
           (lit "Mismatch: " ++ str_of_int (len chunks) ++ lit " chunks vs "
            ++ str_of_int (len embeddings) ++ lit " embeddings")), s)
      else
        let dim := len e0 in
        match make_index dim embeddings with
        | Raise e => (Raise e, s)
        | Ok index =>
            let s1 := makedirs INDEX_PATH s in
            let s2 := write_file (path_join INDEX_PATH "faiss.index")
                        (write_index index) s1 in
            let s3 := write_file (path_join INDEX_PATH "chunks.jsonl")
                        (chunks_jsonl chunks) s2 in
            (Ok tt, s3)
        end
  end.

End BuildIndex.

End BuildFaissIndex.

(** ** [config/config.py] *)

Module Config.
Import Py.

Definition required_var_names : list string :=
  ["AZURE_CHAT_COMPLETION_API_KEY"; "AZURE_CHAT_COMPLETION_ENDPOINT";
   "AZURE_CHAT_COMPLETION_VERSION"; "AZURE_CHAT_COMPLETION_DEPLOYMENT_GPT";
   "AZURE_EMBEDDING"; "AZURE_EMBEDDING_ENDPOINT"; "AZURE_EMBEDDING_API_KEY";
   "AZURE_EMBEDDING_VERSION"]%string.

(** [', '.join(names)]. *)
Fixpoint join_comma (names : list string) : string :=
  match names with
  | [] => EmptyString
  | [n] => n
  | n :: rest => (n ++ ", " ++ join_comma rest)%string
  end.

(** [validate_config()] under the process environment [env]: raises when
    one of the required variables is not set. *)
Definition validate_config (env : gmap string string) : result unit :=
  let missing_vars :=
    List.filter (fun var => negb (bool_decide (is_Some (env !! var))))
      required_var_names in
  match missing_vars with
  | [] => Ok tt
  | _ :: _ =>
      Raise (Exn "ValueError"
        (lit ("The following environment variables are not set: "
              ++ join_comma missing_vars
              ++ ". Please check your .env file or environment variables.")))
  end.

End Config.

(** ** [utils/rag_utils.py] *)

Module RagUtils.
Import Py.

Section Retrieve.

(** The external collaborators: the process environment, the embedding
    client (its constructor and its [embeddings.create] call, which
    returns the query vector) and the search of the loaded index, which
    returns the row [indices[0]]. *)
Variable env : gmap string string.
Variable client vector faiss_index : Type.
Variable AzureOpenAI : result client.
Variable embeddings_create : client -> str -> result vector.
Variable search : faiss_index -> vector -> Z -> result (list Z).

(** The module-level globals [index] and [chunks]; [None] is Python's
    [None]. *)
Record globals := Globals {
  index : option faiss_index;
  chunks : option (list str)
}.

(** [get_azure_client()]: the client, or [None] when the configuration is
    invalid or the constructor raises. *)
Definition get_azure_client : option client :=
  match bind (Config.validate_config env) (fun _ => AzureOpenAI) with
  | Ok c => Some c
  | Raise _ => None
  end.

(** [embed_query(query)]. *)
Definition embed_query (query : str) : result vector :=
  match get_azure_client with
  | None =>
      Raise (Exn "ValueError"
        (lit "Azure OpenAI client not available. Please check your configuration."))
  | Some c => try_except (embeddings_create c query) (fun e => Raise e)
  end.

(** [[chunks[idx] for idx in indices if idx < len(chunks)]]. *)
Fixpoint select (chunks : list str) (indices : list Z) : result (list str) :=
  match indices with
  | [] => Ok []
  | idx :: rest =>
      if idx <? len chunks then
        bind (getitem chunks idx) (fun c =>
        bind (select chunks rest) (fun cs => Ok (c :: cs)))
      else select chunks rest
  end.

Definition not_loaded : str :=
  lit "Error: FAISS index not loaded. Please run build_faiss_index.py first.".

Definition no_documents : str := lit "No relevant documents found.".

(** [retrieve_similar_documents(query, top_k)]. *)
Definition retrieve_similar_documents (g : globals) (query : str) (top_k : Z)
  : result (list str) :=
  match index g, chunks g with
  | Some index, Some chunks =>
      try_except
        (bind (embed_query query) (fun query_embedding =>
         bind (search index query_embedding top_k) (fun indices =>
         bind (select chunks indices) (fun results =>
         Ok (match results with
             | [] => [no_documents]
             | _ :: _ => results
             end)))))
        (fun e => Ok [lit "Error retrieving documents: " ++ exn_msg e])
  | _, _ => Ok [not_loaded]
  end.

End Retrieve.

Arguments Globals {faiss_index} index chunks.
Arguments index {faiss_index} g.
Arguments chunks {faiss_index} g.

End RagUtils.

(** ** [models/llm.py] *)

Module Llm.
Import Py.

(** What [client.chat.completions.create] returns: a completion with the
    [message.content] of each choice, or a stream whose every event is
    either a chunk, with the [delta.content] of each of its choices, or an
    exception raised while iterating. *)
Inductive response :=
| ChatCompletion (choices : list (option str))
| ChatStream (events : list (result (list (option str)))).

Section Generate.

Variable env : gmap string string.
Variable client : Type.
Variable AzureOpenAI : result client.
Variable create : client -> str -> str -> bool -> result response.

Definition get_azure_client : option client :=
  match bind (Config.validate_config env) (fun _ => AzureOpenAI) with
  | Ok c => Some c
  | Raise _ => None
  end.

Definition concise_prompt : str :=
  lit "You are a helpful AI assistant specializing in Indian banking, finance, and regulations. Respond concisely and clearly.".

Definition detailed_prompt : str :=
  lit "You are a helpful AI assistant specializing in Indian banking, finance, and regulations. Provide detailed and comprehensive answers including examples and context where appropriate.".

Definition invalid_configuration : str :=
  lit "Error: Azure OpenAI configuration is invalid. Please check your .env file and ensure all required variables are set.".

(** The [for chunk in response] loop of the streaming branch. *)
Fixpoint consume (events : list (result (list (option str))))
  (full_response : str) : result str :=
  match events with
  | [] => Ok full_response
  | Raise e :: _ => Raise e
  | Ok choices :: rest =>
      bind (getitem choices 0) (fun delta =>
      consume rest
        match delta with
        | Some (c :: d) => full_response ++ c :: d
        | Some [] | None => full_response
        end)
  end.

Definition none_has_no_strip : exn :=
  Exn "AttributeError" (lit "'NoneType' object has no attribute 'strip'").

(** [generate_llm(prompt, mode, stream)]. *)
Definition generate_llm (prompt mode : str) (stream : bool) : result str :=
  match get_azure_client with
  | None => Ok invalid_configuration
  | Some c =>
      try_except
        (let system_prompt :=
           if decide (mode = lit "concise") then concise_prompt
           else detailed_prompt in
         bind (create c system_prompt prompt stream) (fun response =>
         if stream then
           match response with
           | ChatStream events =>
               bind (consume events []) (fun full_response =>
               Ok (strip full_response))
           | ChatCompletion _ =>
               Raise (Exn "TypeError"
                 (lit "'ChatCompletion' object is not iterable"))
           end
         else
           match response with
           | ChatCompletion choices =>
               bind (getitem choices 0) (fun content =>
               match content with
               | Some s => Ok (strip s)
               | None => Raise none_has_no_strip
               end)
           | ChatStream _ =>
               Raise (Exn "AttributeError"
                 (lit "'Stream' object has no attribute 'choices'"))
           end))
        (fun e => Ok (lit "Error from LLM: " ++ exn_msg e))
  end.

End Generate.

End Llm.

(** ** More of the Python library *)

Module PyLib.
Import Py.

(** [range(start, stop, step)] for a positive [step]. *)
Fixpoint range_from (count : nat) (start step : Z) : list Z :=
  match count with
  | O => []
  | S count' => start :: range_from count' (start + step) step
  end.

Definition range (start stop step : Z) : list Z :=
  range_from (Z.to_nat ((stop - start + step - 1) / step)) start step.

(** Reading a text file with universal newlines: [\r\n] and a lone [\r]
    become [\n]. *)
Fixpoint translate_newlines (s : str) : str :=
  match s with
  | [] => []
  | c :: rest =>
      if (c =? 13)%N then
        10%N :: match rest with
                | [] => []
                | c' :: rest' =>
                    if (c' =? 10)%N then translate_newlines rest'
                    else translate_newlines rest
                end
      else c :: translate_newlines rest
  end.

(** The lines of a text, each with its line feed; [cur] is the line being
    read, last character first. *)
Fixpoint lines_keepends (cur : str) (s : str) : list str :=
  match s with
  | [] => match cur with [] => [] | _ :: _ => [rev cur] end
  | c :: rest =>
      if (c =? 10)%N then rev (c :: cur) :: lines_keepends [] rest
      else lines_keepends (c :: cur) rest
  end.

(** [for line in file] on a file opened in text mode. *)
Definition readlines (content : str) : list str :=
  lines_keepends [] (translate_newlines content).

(** The part of a path up to and including its last ['/'], if any. *)
Fixpoint head_with_sep (p : string) : option string :=
  match p with
  | EmptyString => None
  | String c rest =>
      match head_with_sep rest with
      | Some h => Some (String c h)
      | None => if Ascii.eqb c "/" then Some (String c EmptyString) else None
      end
  end.

(** [head.rstrip('/')]. *)
Fixpoint rstrip_sep (p : string) : string :=
  match p with
  | EmptyString => EmptyString
  | String c rest =>
      match rstrip_sep rest with
      | EmptyString => if Ascii.eqb c "/" then EmptyString
                       else String c EmptyString
      | t => String c t
      end
  end.

(** [os.path.dirname(p)] of [posixpath]: a head made of slashes only is
    kept as it is. *)
Definition dirname (p : string) : string :=
  match head_with_sep p with
  | None => EmptyString
  | Some head =>
      match rstrip_sep head with
      | EmptyString => head
      | stripped => stripped
      end
  end.

(** A code point that UTF-8 cannot encode: a surrogate. *)
Definition is_surrogate (c : N) : bool := ((55296 <=? c) && (c <=? 57343))%N.

End PyLib.

(** ** The Python values a JSON document decodes to *)

Module Value.
Import Py.

#[warnings="-register-all"]
Inductive value :=
| VNone
| VBool (b : bool)
| VInt (n : Z)
| VFloat (literal : str)
| VStr (s : str)
| VList (items : list value)
| VDict (members : list (str * value)).

(** [type(v).__name__]. *)
Definition type_name (v : value) : string :=
  match v with
  | VNone => "NoneType"
  | VBool _ => "bool"
  | VInt _ => "int"
  | VFloat _ => "float"
  | VStr _ => "str"
  | VList _ => "list"
  | VDict _ => "dict"
  end.

Definition no_attribute (v : value) (attr : string) : exn :=
  Exn "AttributeError"
    (lit ("'" ++ type_name v ++ "' object has no attribute '" ++ attr ++ "'")).

(** [v.get(key, default)]: only a [dict] has the method. *)
Definition get (v : value) (key : str) (default : value) : result value :=
  match v with
  | VDict members =>
      match Cache.getitem members key with
      | Ok x => Ok x
      | Raise _ => Ok default
      end
  | _ => Raise (no_attribute v "get")
  end.

(** [v.strip()]: only a [str] has the method. *)
Definition strip (v : value) : result str :=
  match v with
  | VStr s => Ok (Py.strip s)
  | _ => Raise (no_attribute v "strip")
  end.

End Value.

(** ** [utils/common_utils.py]: [DataProcessor] *)

Module DataProcessor.
Import Py Value.

(** [os.path.exists(path)]. *)
Definition path_exists (path : string) (s : BuildFaissIndex.fs) : bool :=
  bool_decide (is_Some (BuildFaissIndex.files s !! path))
  || bool_decide (path ∈ BuildFaissIndex.dirs s).

(** The text of the file at [path], as [open(path, 'r')] gives it. *)
Definition read_text (path : string) (s : BuildFaissIndex.fs) : result str :=
  match BuildFaissIndex.files s !! path with
  | Some content => Ok content
  | None =>
      if bool_decide (path ∈ BuildFaissIndex.dirs s) then
        Raise (Exn "IsADirectoryError"
                 (lit ("[Errno 21] Is a directory: '" ++ path ++ "'")))
      else
        Raise (Exn "FileNotFoundError"
                 (lit ("[Errno 2] No such file or directory: '" ++ path ++ "'")))
  end.

(** [os.makedirs(path, exist_ok=True)]: the empty path cannot be created,
    and neither can a path that is a file.  Ancestors of [path] are not
    tracked by the storage. *)
Definition makedirs_exist_ok (path : string) (s : BuildFaissIndex.fs)
  : result BuildFaissIndex.fs :=
  match path with
  | EmptyString =>
      Raise (Exn "FileNotFoundError"
               (lit "[Errno 2] No such file or directory: ''"))
  | _ =>
      match BuildFaissIndex.files s !! path with
      | Some _ =>
          Raise (Exn "FileExistsError"
                   (lit ("[Errno 17] File exists: '" ++ path ++ "'")))
      | None => Ok (BuildFaissIndex.makedirs path s)
      end
  end.

Section Jsonl.

(** The JSON library, external: [json.loads(line)] and
    [json.dumps(item, ensure_ascii=False)]. *)
Variable loads : str -> result value.
Variable dumps : value -> result str.

(** The body of the [for line_num, line in enumerate(file, 1)] loop of
    [load_jsonl]: blank lines are skipped, and so are the lines on which
    [json.loads] raises [JSONDecodeError]; any other exception ends the
    call. *)
Fixpoint load_lines (lines : list str) (data : list value)
  : result (list value) :=
  match lines with
  | [] => Ok data
  | line :: rest =>
      match Py.strip line with
      | [] => load_lines rest data
      | stripped =>
          match loads stripped with
          | Ok v => load_lines rest (data ++ [v])
          | Raise e =>
              if String.eqb (exn_class e) "JSONDecodeError"
              then load_lines rest data
              else Raise e
          end
      end
  end.

(** [DataProcessor.load_jsonl(file_path)]. *)
Definition load_jsonl (file_path : string) (s : BuildFaissIndex.fs)
  : result (list value) :=
  if negb (path_exists file_path s) then
    Raise (Exn "FileNotFoundError" (lit ("File not found: " ++ file_path)))
  else
    bind (read_text file_path s) (fun content =>
    load_lines (PyLib.readlines content) []).

(** The [for item in data] loop of [save_jsonl]; [written] is the text
    written so far.  A raise of [json.dumps] or of the encoder stops the
    loop with the earlier lines in the file. *)
Fixpoint write_items (data : list value) (written : str) : result unit * str :=
  match data with
  | [] => (Ok tt, written)
  | item :: rest =>
      match dumps item with
      | Raise e => (Raise e, written)
      | Ok line =>
          if existsb PyLib.is_surrogate line then
            (Raise (Exn "UnicodeEncodeError"
                      (lit "'utf-8' codec can't encode character: surrogates not allowed")),
             written)
          else write_items rest (written ++ line ++ [10%N])
      end
  end.

(** [DataProcessor.save_jsonl(data, file_path)] run on the storage [s]. *)
Definition save_jsonl (data : list value) (file_path : string)
  (s : BuildFaissIndex.fs) : result unit * BuildFaissIndex.fs :=
  match makedirs_exist_ok (PyLib.dirname file_path) s with
  | Raise e => (Raise e, s)
  | Ok s1 =>
      if bool_decide (file_path ∈ BuildFaissIndex.dirs s1) then
        (Raise (Exn "IsADirectoryError"
                  (lit ("[Errno 21] Is a directory: '" ++ file_path ++ "'"))),
         s1)
      else
        let (outcome, written) := write_items data [] in
        (outcome, BuildFaissIndex.write_file file_path written s1)
  end.

End Jsonl.

(** The dictionary [validate_banking_data] returns. *)
Record report := Report {
  total_documents : Z;
  valid_documents : Z;
  invalid_documents : Z;
  missing_title : Z;
  missing_content : Z;
  empty_content : Z;
  errors : list str
}.

Definition document (i : Z) (what : string) : str :=
  lit "Document " ++ BuildFaissIndex.str_of_int i ++ lit what.

(** The body of the loop of [validate_banking_data] on document [i]. *)
Definition validate_document (i : Z) (doc : value) (r : report)
  : result report :=
  match doc with
  | VDict members =>
      let has_title := Cache.contains (lit "title") members in
      let has_content := Cache.contains (lit "content") members in
      let r1 :=
        if has_title then r
        else Report (total_documents r) (valid_documents r)
               (invalid_documents r) (missing_title r + 1)
               (missing_content r) (empty_content r)
               (errors r ++ [document i ": Missing title"]) in
      let r2 :=
        if has_content then r1
        else Report (total_documents r1) (valid_documents r1)
               (invalid_documents r1) (missing_title r1)
               (missing_content r1 + 1) (empty_content r1)
               (errors r1 ++ [document i ": Missing content"]) in
      bind (if has_content then
              bind (Cache.getitem members (lit "content")) (fun content =>
              bind (Value.strip content) (fun stripped =>
              Ok match stripped with
                 | [] =>
                     Report (total_documents r2) (valid_documents r2)
                       (invalid_documents r2) (missing_title r2)
                       (missing_content r2) (empty_content r2 + 1)
                       (errors r2 ++ [document i ": Empty content"])
                 | _ :: _ => r2
                 end))
            else Ok r2) (fun r3 =>
      if has_title && has_content then
        bind (Cache.getitem members (lit "content")) (fun content =>
        bind (Value.strip content) (fun stripped =>
        Ok match stripped with
           | [] => r3
           | _ :: _ =>
               Report (total_documents r3) (valid_documents r3 + 1)
                 (invalid_documents r3) (missing_title r3)
                 (missing_content r3) (empty_content r3) (errors r3)
           end))
      else Ok r3)
  | _ =>
      Ok (Report (total_documents r) (valid_documents r)
            (invalid_documents r + 1) (missing_title r) (missing_content r)
            (empty_content r)
            (errors r ++ [document i ": Not a dictionary"]))
  end.

Fixpoint validate_loop (i : Z) (data : list value) (r : report)
  : result report :=
  match data with
  | [] => Ok r
  | doc :: rest =>
      bind (validate_document i doc r) (validate_loop (i + 1) rest)
  end.

(** [DataProcessor.validate_banking_data(data)]. *)
Definition validate_banking_data (data : list value) : result report :=
  validate_loop 0 data (Report (len data) 0 0 0 0 0 []).

End DataProcessor.

(** ** [utils/common_utils.py]: [TextProcessor.clean_text] *)

Module TextCleaning.
Import Py.

Section CleanText.

(** The class [\w] of the regular-expression engine, external. *)
Variable is_word : N -> bool.

(** [re.sub(r'\s+', ' ', s)]: every maximal run of whitespace becomes one
    space; [in_run] tells that the previous character was whitespace. *)
Fixpoint collapse_spaces (in_run : bool) (s : str) : str :=
  match s with
  | [] => []
  | c :: rest =>
      if isspace c then
        if in_run then collapse_spaces true rest
        else 32%N :: collapse_spaces true rest
      else c :: collapse_spaces false rest
  end.

(** The punctuation the second pattern keeps. *)
Definition punctuation : str := lit ".,!?-:;()[]{}".

Definition kept (c : N) : bool :=
  is_word c || isspace c || existsb (N.eqb c) punctuation.

(** [TextProcessor.clean_text(text)]. *)
Definition clean_text (text : str) : str :=
  match text with
  | [] => []
  | _ :: _ => List.filter kept (collapse_spaces false (strip text))
  end.

End CleanText.

End TextCleaning.

(** ** [build_faiss_index.py]: loading, embedding and the main program *)

Module BuildPipeline.
Import Py Value.

Definition INPUT_JSONL : string := "data/banking_documents.jsonl".

Section Pipeline.

(** External: the environment, the embedding client with its
    [embeddings.create] call, which returns the embeddings of
    [response.data], the JSON decoder, [str(v)] of a value that is not a
    string, and the vector-index library. *)
Variable env : gmap string string.
Variable client : Type.
Variable AzureOpenAI : result client.
Variable F : Type.
Variable embeddings_create : client -> list str -> result (list (list F)).
Variable loads : str -> result value.
Variable str_other : value -> str.
Variable faiss_index : Type.
Variable IndexFlatL2 : Z -> result faiss_index.
Variable index_add : faiss_index -> list (list F) -> result faiss_index.
Variable write_index : faiss_index -> list N.

Definition get_azure_client : option client :=
  match bind (Config.validate_config env) (fun _ => AzureOpenAI) with
  | Ok c => Some c
  | Raise _ => None
  end.

(** [f"{v}"]. *)
Definition format_value (v : value) : str :=
  match v with
  | VStr s => s
  | _ => str_other v
  end.

(** [text_processor.chunk_text(full_text, CHUNK_SIZE, CHUNK_OVERLAP)], run
    with fuel for [len(full_text) + 1] iterations. *)
Definition chunk_document (full_text : str) : list str :=
  match TextProcessor.chunk_text full_text BuildFaissIndex.CHUNK_SIZE
          BuildFaissIndex.CHUNK_OVERLAP (S (List.length full_text)) with
  | Some chunks => chunks
  | None => []
  end.

(** The [for doc in documents] loop of [load_documents]. *)
Fixpoint chunk_documents (documents : list value) (all_chunks : list str)
  : result (list str) :=
  match documents with
  | [] => Ok all_chunks
  | doc :: rest =>
      bind (Value.get doc (lit "title") (VStr [])) (fun title =>
      bind (Value.get doc (lit "content") (VStr [])) (fun content =>
      let full_text := format_value title ++ [10%N] ++ format_value content in
      chunk_documents rest (all_chunks ++ chunk_document full_text)))
  end.

(** [load_documents(jsonl_path)]. *)
Definition load_documents (jsonl_path : string) (s : BuildFaissIndex.fs)
  : result (list str) :=
  bind (DataProcessor.load_jsonl loads jsonl_path s) (fun documents =>
  chunk_documents documents []).

(** The [for i in range(0, len(chunks), batch_size)] loop of
    [embed_chunks], over the values [starts] of [i]. *)
Fixpoint embed_batches (c : client) (chunks : list str) (starts : list Z)
  (embeddings : list (list F)) : result (list (list F)) :=
  match starts with
  | [] => Ok embeddings
  | i :: rest =>
      let batch := slice chunks i (i + 10) in
      bind (try_except (embeddings_create c batch) (fun e => Raise e))
        (fun batch_embeddings =>
      embed_batches c chunks rest (embeddings ++ batch_embeddings))
  end.

(** [embed_chunks(chunks)]. *)
Definition embed_chunks (chunks : list str) : result (list (list F)) :=
  match chunks with
  | [] => Raise (Exn "ValueError" (lit "No chunks provided for embedding"))
  | _ :: _ =>
      match get_azure_client with
      | None =>
          Raise (Exn "ValueError"
            (lit "Azure OpenAI client not available. Please check your configuration."))
      | Some c => embed_batches c chunks (PyLib.range 0 (len chunks) 10) []
      end
  end.

(** The main program: the exit status and the storage it leaves. *)
Definition main (s : BuildFaissIndex.fs) : Z * BuildFaissIndex.fs :=
  match load_documents INPUT_JSONL s with
  | Raise _ => (1, s)
  | Ok [] => (0, s)
  | Ok chunks =>
      match embed_chunks chunks with
      | Raise _ => (1, s)
      | Ok embeddings =>
          match BuildFaissIndex.build_index F faiss_index IndexFlatL2
                  index_add write_index chunks embeddings s with
          | (Ok _, s') => (0, s')
          | (Raise _, s') => (1, s')
          end
      end
  end.

End Pipeline.

End BuildPipeline.

(** ** [utils/rag_utils.py]: loading the index at import time *)

Module RagLoad.
Import Py.

Definition INDEX_FILE : string :=
  BuildFaissIndex.path_join "faiss_index" "faiss.index".
Definition CHUNKS_FILE : string :=
  BuildFaissIndex.path_join "faiss_index" "chunks.jsonl".

Section Load.

(** External: [faiss.read_index] on the bytes of the index file ([None]
    when the path is not a regular file), and [json.loads(line)["text"]]
    on a line of the chunk store, whose text members are strings. *)
Variable faiss_index : Type.
Variable read_index : option (list N) -> result faiss_index.
Variable loads_text : str -> result str.

(** [[json.loads(line)["text"] for line in f]]. *)
Fixpoint load_texts (lines : list str) : result (list str) :=
  match lines with
  | [] => Ok []
  | line :: rest =>
      bind (loads_text line) (fun text =>
      bind (load_texts rest) (fun texts => Ok (text :: texts)))
  end.

(** [load_index_and_chunks()]. *)
Definition load_index_and_chunks (s : BuildFaissIndex.fs)
  : result (faiss_index * list str) :=
  if negb (DataProcessor.path_exists INDEX_FILE s)
     || negb (DataProcessor.path_exists CHUNKS_FILE s) then
    Raise (Exn "FileNotFoundError"
      (lit "FAISS index or chunks.jsonl not found. Please run build_faiss_index.py first."))
  else
    try_except
      (bind (read_index (BuildFaissIndex.files s !! INDEX_FILE)) (fun index =>
       bind (DataProcessor.read_text CHUNKS_FILE s) (fun content =>
       bind (load_texts (PyLib.readlines content)) (fun chunks =>
       Ok (index, chunks)))))
      (fun e => Raise e).

(** The module-level [index, chunks], set when the module is imported. *)
Definition module_globals (s : BuildFaissIndex.fs)
  : RagUtils.globals faiss_index :=
  match load_index_and_chunks s with
  | Ok (index, chunks) => RagUtils.Globals (Some index) (Some chunks)
  | Raise _ => RagUtils.Globals None (Some [])
  end.

End Load.

End RagLoad.

(** ** [data/met_scraper.py]: saving and merging the scraped documents *)

Module MetScraper.
Import Py Value.

Section Merge.

(** External: the JSON library, and the key under which a [set] files a
    title, its hash and equality taken together; the key of an unhashable
    value is a raised [TypeError]. *)
Variable loads : str -> result value.
Variable dumps : value -> result str.
Variable K : Type.
Context `{EqDecision K}.
Variable key_of : value -> result K.

(** [item.get('title', '')] as a member of a set. *)
Definition title_of (item : value) : result K :=
  bind (Value.get item (lit "title") (VStr [])) key_of.

(** [{item.get('title', '') for item in existing_data}]. *)
Fixpoint titles (existing_data : list value) : result (list K) :=
  match existing_data with
  | [] => Ok []
  | item :: rest =>
      bind (title_of item) (fun k =>
      bind (titles rest) (fun ks => Ok (k :: ks)))
  end.

(** [[item for item in new_data
      if item.get('title', '') not in existing_titles]]. *)
Fixpoint unique_new (existing_titles : list K) (new_data : list value)
  : result (list value) :=
  match new_data with
  | [] => Ok []
  | item :: rest =>
      bind (title_of item) (fun k =>
      bind (unique_new existing_titles rest) (fun unique =>
      Ok (if decide (k ∈ existing_titles) then unique else item :: unique)))
  end.

(** The body of the [try] of [merge_with_existing_data], for a relative
    file name. *)
Definition merge_body (new_data : list value) (existing_file : string)
  (s : BuildFaissIndex.fs) : result unit * BuildFaissIndex.fs :=
  let existing_filepath := BuildFaissIndex.path_join "data" existing_file in
  match (if DataProcessor.path_exists existing_filepath s
         then DataProcessor.load_jsonl loads existing_filepath s
         else Ok []) with
  | Raise e => (Raise e, s)
  | Ok existing_data =>
      match titles existing_data with
      | Raise e => (Raise e, s)
      | Ok existing_titles =>
          match unique_new existing_titles new_data with
          | Raise e => (Raise e, s)
          | Ok unique_new_data =>
              DataProcessor.save_jsonl dumps
                (existing_data ++ unique_new_data) existing_filepath s
          end
      end
  end.

(** [merge_with_existing_data(new_data, existing_file)]: every exception
    is logged and dropped; the storage is what the body left. *)
Definition merge_with_existing_data (new_data : list value)
  (existing_file : string) (s : BuildFaissIndex.fs) : BuildFaissIndex.fs :=
  snd (merge_body new_data existing_file s).

(** [save_to_jsonl(data, filename)], which drops every exception too. *)
Definition save_to_jsonl (data : list value) (filename : string)
  (s : BuildFaissIndex.fs) : BuildFaissIndex.fs :=
  snd (DataProcessor.save_jsonl dumps data
         (BuildFaissIndex.path_join "data" filename) s).

End Merge.

End MetScraper.

(** ** Vocabulary of the properties *)

(** A string without leading and without trailing whitespace. *)
Definition trimmed (s : Py.str) : Prop :=
  (forall c t, s = c :: t -> Py.isspace c = false)
  /\ (forall c t, s = t ++ [c] -> Py.isspace c = false).

(** The text of the non-terminating run: a period at position 7 of 20
    characters. *)
Definition snap_text : Py.str := Py.lit "aaaaaaa.aaaaaaaaaaaa".

(** The two dictionaries list the same keys in the same order, no key
    twice, and the cache holds at most [max_size] entries. *)
Definition cache_inv {V : Type} (c : Cache.t V) : Prop :=
  Cache.keys (Cache.cache c) = Cache.keys (Cache.access_times c)
  /\ NoDup (Cache.keys (Cache.cache c))
  /\ Py.len (Cache.cache c) <= Cache.max_size c.

(** The lines of a file, as the loader iterates over them: the bytes
    between line feeds, the line feeds left out. *)
Fixpoint lines_from (cur : list N) (bytes : list N) : list (list N) :=
  match bytes with
  | [] => match cur with [] => [] | _ :: _ => [rev cur] end
  | b :: rest =>
      if (b =? 10)%N then rev cur :: lines_from [] rest
      else lines_from (b :: cur) rest
  end.

Definition file_lines (bytes : list N) : list (list N) := lines_from [] bytes.

Definition chunks_path : string :=
  BuildFaissIndex.path_join BuildFaissIndex.INDEX_PATH "chunks.jsonl".

(** An environment in which every required variable is set. *)
Definition full_env : gmap string string :=
  list_to_map (List.map (fun var => (var, "set"%string))
                 Config.required_var_names).

(** A loaded index of two rows over the chunks [alpha] and [beta]. *)
Definition two_chunks : RagUtils.globals unit :=
  RagUtils.Globals (Some tt) (Some [Py.lit "alpha"; Py.lit "beta"]).

(** A search of that index for three neighbours: the two rows, and the
    label [-1] the index library pads the missing third neighbour with. *)
Definition padded_search (_ _ : unit) (top_k : Z) : Py.result (list Z) :=
  Py.Ok [0; 1; -1].

(** The calls [set(key, value)] at clock readings [now], in order. *)
Definition sets {V : Type} (entries : list (Z * Py.str * V))
  : list (Cache.op V) :=
  List.map (fun e => Cache.Set_ (fst (fst e)) (snd (fst e)) (snd e)) entries.

Definition stored {V : Type} (entries : list (Z * Py.str * V))
  : Cache.dict V :=
  List.map (fun e => (snd (fst e), snd e)) entries.

Definition stamped {V : Type} (entries : list (Z * Py.str * V))
  : Cache.dict Z :=
  List.map (fun e => (snd (fst e), fst (fst e))) entries.

(** A printable ASCII character. *)
Definition printable (b : N) : Prop := (32 <= b <= 126)%N.

(** The text a streamed event adds to the answer: the [delta.content] of
    its first choice, nothing when that is [None] or empty. *)
Definition first_delta (event : Py.result (list (option Py.str))) : Py.str :=
  match event with
  | Py.Ok (Some d :: _) => d
  | _ => []
  end.

(** A streamed event that arrives and has at least one choice. *)
Definition has_choice (event : Py.result (list (option Py.str))) : Prop :=
  exists delta rest, event = Py.Ok (delta :: rest).

(** A document whose ["content"], if it is a dictionary that has one, is a
    string. *)
Definition content_is_text (doc : Value.value) : bool :=
  match doc with
  | Value.VDict members =>
      match Cache.getitem members (Py.lit "content") with
      | Py.Ok (Value.VStr _) => true
      | Py.Ok _ => false
      | Py.Raise _ => true
      end
  | _ => true
  end.

(** An item the JSON library writes on one line of encodable characters
    and reads back from that line. *)
Definition one_line_json
  (loads : Py.str -> Py.result Value.value)
  (dumps : Value.value -> Py.result Py.str) (item : Value.value) : Prop :=
  exists line,
    dumps item = Py.Ok line
    /\ Forall (fun b => b <> 10%N /\ b <> 13%N
                        /\ PyLib.is_surrogate b = false) line
    /\ Py.strip line <> []
    /\ loads (Py.strip line) = Py.Ok item.

(** The sum of the four failure counters of a report. *)
Definition problems (r : DataProcessor.report) : Z :=
  DataProcessor.invalid_documents r + DataProcessor.missing_title r
  + DataProcessor.missing_content r + DataProcessor.empty_content r.

(** The new documents whose title, under the key [key] of the title set,
    is not among those of [known]. *)
Definition unknown_titles {K : Type} `{EqDecision K}
  (key : Value.value -> K) (known new_data : list Value.value)
  : list Value.value :=
  List.filter
    (fun item => negb (bool_decide (key item ∈ List.map key known)))
    new_data.

(** The key of a title that is a text, and the key under which a document
    is filed when every title in sight is a text. *)
Definition text_key_of (v : Value.value) : Py.result Py.str :=
  match v with
  | Value.VStr t => Py.Ok t
  | _ => Py.Raise (Py.Exn "TypeError" (Py.lit "unhashable type"))
  end.

Definition text_key (item : Value.value) : Py.str :=
  match Value.get item (Py.lit "title") (Value.VStr []) with
  | Py.Ok (Value.VStr t) => t
  | _ => []
  end.

(** Two documents and a JSON library defined on them alone. *)
Definition untitled : Value.value := Value.VDict [].

Definition titled : Value.value :=
  Value.VDict [(Py.lit "title", Value.VStr (Py.lit "EMI"))].

Definition two_dumps (v : Value.value) : Py.result Py.str :=
  match v with
  | Value.VDict [] => Py.Ok (Py.lit "{}")
  | _ => Py.Ok (Py.lit "{EMI}")
  end.

Definition two_loads (line : Py.str) : Py.result Value.value :=
  if decide (line = Py.lit "{}") then Py.Ok untitled else Py.Ok titled.

(** A storage whose document file holds the untitled document. *)
Definition one_document : BuildFaissIndex.fs :=
  BuildFaissIndex.Fs {[ "data"%string ]}
    {[ "data/banking_documents.jsonl"%string := Py.lit "{}" ++ [10%N] ]}.

(** * Properties *)

(** ** The models on concrete inputs *)

Example chunk_text_short :
  TextProcessor.chunk_text (Py.lit "EMI is a loan.") 300 50 1
  = Some [Py.lit "EMI is a loan."].
Proof. reflexivity. Qed.

Example chunk_text_two_windows :
  TextProcessor.chunk_text (Py.lit "Savings earn interest. EMI is fixed.") 24 4 10
  = Some [Py.lit "Savings earn interest."; Py.lit "est. EMI is fixed."].
Proof. vm_compute. reflexivity. Qed.

Example cache_lru_three :
  option_map (fun c => Cache.keys (Cache.cache c))
    (match Cache.run nat
       [Cache.Set_ 1 (Py.lit "a") 10%nat; Cache.Set_ 2 (Py.lit "b") 20%nat;
        Cache.Get_ 3 (Py.lit "a"); Cache.Set_ 4 (Py.lit "c") 30%nat]
       (Cache.init nat 2) with Py.Ok c => Some c | Py.Raise _ => None end)
  = Some [Py.lit "a"; Py.lit "c"].
Proof. vm_compute. reflexivity. Qed.


Example dumps_str_escapes :
  Json.dumps_str [127%N; 128512%N; 34%N; 92%N]
  = [34%N] ++ Py.lit "\u007f\ud83d\ude00\" ++ [34%N] ++ Py.lit "\\" ++ [34%N].
Proof. vm_compute. reflexivity. Qed.

Example rfind_negative_start :
  Py.rfind (Py.lit "a.c") 46%N (-5) 2 = 1
  /\ Py.rfind (Py.lit "abc") 46%N (-1) 2 = -1
  /\ Py.rfind (Py.lit "a.c") 46%N 5 2 = -1.
Proof. repeat split. Qed.

Example getitem_last :
  Py.getitem [Py.lit "alpha"; Py.lit "beta"] (-1) = Py.Ok (Py.lit "beta")
  /\ Py.getitem [Py.lit "alpha"; Py.lit "beta"] 2 = Py.Raise Py.index_error
  /\ Py.getitem [Py.lit "alpha"; Py.lit "beta"] (-3) = Py.Raise Py.index_error.
Proof. repeat split. Qed.

(** ** The text chunker *)

Section ChunkerFacts.
Import Py TextProcessor.

Lemma len_nonneg {A} (l : list A) : 0 <= len l.
Proof. unfold len. lia. Qed.

Lemma adjust_range (n i : Z) : 0 <= n -> 0 <= adjust n i <= n.
Proof. intros Hn. unfold adjust. destruct (i <? 0) eqn:E; lia. Qed.

Lemma rfind_from_range (c : N) (s : str) :
  forall a, 0 <= a ->
    rfind_from c s a = -1 \/ a <= rfind_from c s a < a + len s.
Proof.
  induction s as [|x s IH]; intros a Ha; cbn [rfind_from].
  - now left.
  - destruct (IH (a + 1) ltac:(lia)) as [E | R].
    + rewrite E. cbn. destruct (x =? c)%N; [right | now left].
      unfold len. cbn [List.length]. lia.
    + assert (G : (0 <=? rfind_from c s (a + 1)) = true) by lia.
      rewrite G. right. unfold len in *. cbn [List.length]. lia.
Qed.

(** A position returned by [rfind] lies inside the adjusted bounds. *)
Lemma rfind_range (s : str) (c : N) (start stop : Z) :
  rfind s c start stop = -1
  \/ adjust (len s) start <= rfind s c start stop < adjust (len s) stop.
Proof.
  unfold rfind.
  destruct (adjust_range (len s) start (len_nonneg s)) as [Ha _].
  set (a := adjust (len s) start) in *.
  set (b := adjust (len s) stop).
  destruct (b - a <? 1) eqn:E; [now left |].
  set (w := firstn (Z.to_nat (b - a)) (skipn (Z.to_nat a) s)).
  destruct (rfind_from_range c w a Ha) as [R | R]; [now left | right].
  pose proof (firstn_le_length (Z.to_nat (b - a)) (skipn (Z.to_nat a) s)) as L.
  fold w in L. unfold len in R. lia.
Qed.

Lemma rfind_lt_len (s : str) (c : N) (start stop : Z) :
  rfind s c start stop < len s.
Proof.
  pose proof (len_nonneg s).
  destruct (adjust_range (len s) stop (len_nonneg s)).
  destruct (rfind_range s c start stop); lia.
Qed.

Variable text : str.
Variable chunk_size overlap : Z.

(** The window end is the provisional end, or the position after a period
    that lies beyond the middle of the window. *)
Lemma window_end_cases (start : Z) :
  window_end text chunk_size start = start + chunk_size
  \/ (start + chunk_size / 2
        < rfind text period start (start + chunk_size)
      /\ window_end text chunk_size start
         = rfind text period start (start + chunk_size) + 1).
Proof.
  unfold window_end.
  destruct (start + chunk_size <? len text); [| now left].
  destruct (start + chunk_size / 2
              <? rfind text period start (start + chunk_size)) eqn:E;
    [right; split; [lia | reflexivity] | now left].
Qed.

Lemma chunk_loop_unfold (fuel : nat) (start : Z) (chunks : list str) :
  chunk_loop text chunk_size overlap (S fuel) start chunks =
  if start <? len text then
    if len text <=? window_end text chunk_size start - overlap then
      Some match strip (slice text start (window_end text chunk_size start)) with
           | [] => chunks
           | _ :: _ =>
               chunks ++ [strip (slice text start
                                   (window_end text chunk_size start))]
           end
    else
      chunk_loop text chunk_size overlap fuel
        (window_end text chunk_size start - overlap)
        match strip (slice text start (window_end text chunk_size start)) with
        | [] => chunks
        | _ :: _ =>
            chunks ++ [strip (slice text start
                                (window_end text chunk_size start))]
        end
  else Some chunks.
Proof. reflexivity. Qed.

(** With [overlap >= chunk_size >= 1] the next window never starts at or
    after the end of the text. *)
Lemma next_start_small (start : Z) :
  1 <= chunk_size <= overlap -> start < len text ->
  window_end text chunk_size start - overlap < len text.
Proof.
  intros H Hs.
  pose proof (rfind_lt_len text period start (start + chunk_size)).
  destruct (window_end_cases start) as [E | [_ E]]; rewrite E; lia.
Qed.

Lemma chunk_loop_stuck :
  1 <= chunk_size <= overlap ->
  forall fuel start chunks,
    start < len text ->
    chunk_loop text chunk_size overlap fuel start chunks = None.
Proof.
  intros H fuel. induction fuel as [|fuel IH]; intros start chunks Hs;
    [reflexivity |].
  rewrite chunk_loop_unfold.
  pose proof (next_start_small start H Hs) as Hn.
  replace (start <? len text) with true by lia.
  replace (len text <=? window_end text chunk_size start - overlap)
    with false by lia.
  now apply IH.
Qed.

(** With [overlap <= chunk_size / 2 + 1] and [overlap < chunk_size] every
    iteration moves the window start forward, snapped or not. *)
Lemma next_start_progress (start : Z) :
  overlap < chunk_size -> overlap <= chunk_size / 2 + 1 ->
  start < window_end text chunk_size start - overlap.
Proof.
  intros H1 H2.
  destruct (window_end_cases start) as [E | [L E]]; rewrite E; lia.
Qed.

Lemma chunk_loop_terminates :
  overlap < chunk_size -> overlap <= chunk_size / 2 + 1 ->
  forall fuel start chunks,
    Z.max 0 (len text - start) < Z.of_nat fuel ->
    exists out, chunk_loop text chunk_size overlap fuel start chunks = Some out.
Proof.
  intros H1 H2 fuel. induction fuel as [|fuel IH]; intros start chunks Hf;
    [lia |].
  - rewrite chunk_loop_unfold.
    destruct (start <? len text) eqn:Es; [| now eexists].
    destruct (len text <=? window_end text chunk_size start - overlap) eqn:En;
      [now eexists |].
    apply IH.
    pose proof (next_start_progress start H1 H2). lia.
Qed.

End ChunkerFacts.

(** *** Trimming *)

Section StripFacts.
Import Py.

Lemma lstrip_head (s : str) (c : N) (t : str) :
  lstrip s = c :: t -> isspace c = false.
Proof.
  induction s as [|x s IH]; cbn [lstrip]; [discriminate |].
  destruct (isspace x) eqn:E; [exact IH |].
  intros H. injection H as -> _. exact E.
Qed.

Lemma rstrip_head (s : str) (c : N) (t : str) :
  rstrip s = c :: t -> exists t', s = c :: t'.
Proof.
  destruct s as [|x s]; cbn [rstrip]; [discriminate |].
  destruct (rstrip s); [destruct (isspace x) |];
    intros H; try discriminate; injection H as -> _; now eexists.
Qed.

Lemma rstrip_last (s : str) :
  rstrip s = [] \/ exists t c, rstrip s = t ++ [c] /\ isspace c = false.
Proof.
  induction s as [|x s IH]; cbn [rstrip]; [now left |].
  destruct IH as [-> | (t & c & -> & Hc)].
  - destruct (isspace x) eqn:E; [now left | right].
    exists [], x. now split.
  - right. destruct (t ++ [c]) eqn:Et.
    + now destruct t.
    + rewrite <- Et. exists (x :: t), c. now split.
Qed.

Lemma strip_trimmed (s : str) : trimmed (strip s).
Proof.
  unfold trimmed, strip. split.
  - intros c t H. destruct (rstrip_head _ _ _ H) as [t' H'].
    exact (lstrip_head _ _ _ H').
  - intros c t H. destruct (rstrip_last (lstrip s)) as [E | (t' & c' & E & Hc)].
    + rewrite E in H. now destruct t.
    + rewrite E in H. apply app_inj_tail in H as [_ <-]. exact Hc.
Qed.

End StripFacts.

Section ChunkerLoopChunks.
Import Py TextProcessor.

Variable text : str.
Variable chunk_size overlap : Z.

(** Every chunk the loop appends is trimmed and non-empty. *)
Lemma chunk_loop_chunks (fuel : nat) :
  forall start chunks out,
    Forall (fun c => c <> [] /\ trimmed c) chunks ->
    chunk_loop text chunk_size overlap fuel start chunks = Some out ->
    Forall (fun c => c <> [] /\ trimmed c) out.
Proof.
  induction fuel as [|fuel IH]; intros start chunks out Hc; [discriminate |].
  rewrite chunk_loop_unfold.
  set (chunk := strip (slice text start (window_end text chunk_size start))).
  assert (Hc' : Forall (fun c => c <> [] /\ trimmed c)
                  match chunk with [] => chunks | _ :: _ => chunks ++ [chunk] end).
  { pose proof (strip_trimmed (slice text start (window_end text chunk_size start)))
      as Ht. fold chunk in Ht.
    destruct chunk as [|x chunk]; [exact Hc |].
    apply Forall_app. split; [exact Hc |].
    constructor; [now split | constructor]. }
  destruct (start <? len text).
  - destruct (len text <=? window_end text chunk_size start - overlap).
    + intros H. injection H as <-. exact Hc'.
    + apply IH. exact Hc'.
  - intros H. injection H as <-. exact Hc.
Qed.

(** A text longer than [chunk_size] goes through the loop, so every chunk
    of the result is trimmed and non-empty. *)
Lemma chunk_text_long_chunks (fuel : nat) (out : list str) :
  chunk_size < len text ->
  chunk_text text chunk_size overlap fuel = Some out ->
  Forall (fun c => c <> [] /\ trimmed c) out.
Proof.
  intros Hl. unfold chunk_text.
  replace (len text <=? chunk_size) with false by lia.
  apply chunk_loop_chunks. constructor.
Qed.

(** A text of at most [chunk_size] characters is returned whole. *)
Lemma chunk_text_short_whole (fuel : nat) :
  len text <= chunk_size ->
  chunk_text text chunk_size overlap fuel = Some [text].
Proof.
  intros Hl. unfold chunk_text.
  now replace (len text <=? chunk_size) with true by lia.
Qed.

(** With [overlap < chunk_size] and [overlap <= chunk_size / 2 + 1] the
    chunker returns, after at most [len(text)] iterations. *)
Lemma chunk_text_terminates :
  overlap < chunk_size -> overlap <= chunk_size / 2 + 1 ->
  exists out,
    chunk_text text chunk_size overlap (S (List.length text)) = Some out.
Proof.
  intros H1 H2. unfold chunk_text.
  destruct (len text <=? chunk_size); [now eexists |].
  apply chunk_loop_terminates; [exact H1 | exact H2 |].
  unfold len. lia.
Qed.

End ChunkerLoopChunks.

Lemma snap_text_loop (fuel : nat) :
  forall chunks,
    TextProcessor.chunk_loop snap_text 10 8 fuel 0 chunks = None.
Proof.
  induction fuel as [|fuel IH]; intros chunks; [reflexivity |].
  rewrite chunk_loop_unfold.
  assert (Ew : TextProcessor.window_end snap_text 10 0 = 8)
    by (vm_compute; reflexivity).
  rewrite Ew.
  change (0 <? Py.len snap_text) with true.
  change (Py.len snap_text <=? 8 - 8) with false.
  change (8 - 8) with 0.
  apply IH.
Qed.

(** C3.  The configuration [chunk_size = 10], [overlap = 8] satisfies
    [0 <= overlap < chunk_size], yet on a 20-character text whose only
    period is at position 7 the window end is snapped to 8, the next window
    starts again at [8 - 8 = 0], and the loop of [chunk_text] never
    terminates: it returns for no amount of fuel. *)
Theorem chunk_text_snap_never_returns :
  0 <= 8 < 10
  /\ TextProcessor.window_end snap_text 10 0 - 8 = 0
  /\ forall fuel, TextProcessor.chunk_text snap_text 10 8 fuel = None.
Proof.
  split; [lia |]. split; [vm_compute; reflexivity |].
  intros fuel. unfold TextProcessor.chunk_text.
  change (Py.len snap_text <=? 10) with false.
  apply snap_text_loop.
Qed.

(** C4, as the code has it.  Neither [chunk_text] nor its call site in the
    index builder compares [overlap] with [chunk_size]: with
    [overlap >= chunk_size] a text of at most [chunk_size] characters is
    returned as the single chunk, and on a longer text (with
    [chunk_size >= 1]) the loop never terminates. *)
Theorem chunk_text_overlap_not_validated
  (text : Py.str) (chunk_size overlap : Z) (H : chunk_size <= overlap) :
  (Py.len text <= chunk_size ->
   forall fuel,
     BuildFaissIndex.chunk_text text chunk_size overlap fuel = Some [text])
  /\ (1 <= chunk_size < Py.len text ->
      forall fuel,
        BuildFaissIndex.chunk_text text chunk_size overlap fuel = None).
Proof.
  unfold BuildFaissIndex.chunk_text. split.
  - intros Hl fuel. now apply chunk_text_short_whole.
  - intros Hl fuel. unfold TextProcessor.chunk_text.
    replace (Py.len text <=? chunk_size) with false by lia.
    apply chunk_loop_stuck; lia.
Qed.

Lemma chunk_text_overlap_not_validated_witness :
  2 <= 2
  /\ (forall fuel,
        BuildFaissIndex.chunk_text (Py.lit "ab") 2 2 fuel = Some [Py.lit "ab"])
  /\ (forall fuel,
        BuildFaissIndex.chunk_text (Py.lit "abc") 2 2 fuel = None).
Proof.
  split; [lia |]. split.
  - apply (chunk_text_overlap_not_validated (Py.lit "ab") 2 2); vm_compute;
      discriminate.
  - apply (chunk_text_overlap_not_validated (Py.lit "abc") 2 2);
      vm_compute; [discriminate | split; [discriminate | reflexivity]].
Defined.

(** C4 as stated fails: with [overlap = 7 >= chunk_size = 5] the call
    returns its text as one chunk; no error is raised. *)
Lemma chunk_text_overlap_accepted :
  5 <= 7
  /\ BuildFaissIndex.chunk_text (Py.lit "ab") 5 7 1 = Some [Py.lit "ab"].
Proof. split; [lia | reflexivity]. Qed.

(** C5.  A text of at most [chunk_size] characters is returned as it is:
    the document without title and content gives the text of one newline,
    and [chunk_text] returns that whitespace as a chunk although trimming
    it leaves nothing; a padded short text comes back untrimmed. *)
Theorem chunk_text_short_untrimmed :
  (forall fuel,
     TextProcessor.chunk_text [10%N] BuildFaissIndex.CHUNK_SIZE
       BuildFaissIndex.CHUNK_OVERLAP fuel = Some [[10%N]])
  /\ Py.strip [10%N] = []
  /\ (forall fuel,
        TextProcessor.chunk_text (Py.lit " EMI ") 1000 200 fuel
        = Some [Py.lit " EMI "])
  /\ Py.strip (Py.lit " EMI ") <> Py.lit " EMI ".
Proof.
  repeat split; try reflexivity. vm_compute. discriminate.
Qed.

(** ** The response cache *)

Section DictFacts.
Import Py Cache.

Lemma contains_in {A} (key : str) (d : dict A) :
  contains key d = true <-> In key (keys d).
Proof.
  induction d as [|[k a] d IH]; cbn [contains keys List.map fst In].
  - split; [discriminate | tauto].
  - destruct (decide (k = key)) as [-> | Hne].
    + split; [now left | reflexivity].
    + rewrite IH. unfold keys. split; [now right | intros [? | ?]; tauto].
Qed.

Lemma getitem_in {A} (key : str) (d : dict A) :
  In key (keys d) -> exists a, getitem d key = Ok a.
Proof.
  induction d as [|[k a] d IH]; cbn [getitem keys List.map fst In]; [tauto |].
  destruct (decide (k = key)); [now eexists |].
  intros [? | H]; [tauto | now apply IH].
Qed.

Lemma getitem_setitem_eq {A} (key : str) (a : A) (d : dict A) :
  getitem (setitem key a d) key = Ok a.
Proof.
  induction d as [|[k b] d IH]; cbn [setitem getitem].
  - now destruct (decide (key = key)).
  - destruct (decide (k = key)) as [E | Hne]; cbn [getitem].
    + now rewrite decide_True by exact E.
    + now rewrite decide_False by exact Hne.
Qed.

Lemma getitem_setitem_ne {A} (key key' : str) (a : A) (d : dict A) :
  key <> key' -> getitem (setitem key a d) key' = getitem d key'.
Proof.
  intros Hne. induction d as [|[k b] d IH]; cbn [setitem getitem].
  - now rewrite decide_False by exact Hne.
  - destruct (decide (k = key)) as [-> | Hk]; cbn [getitem].
    + now rewrite !decide_False by exact Hne.
    + destruct (decide (k = key')); [reflexivity | exact IH].
Qed.

(** What [d[key] = a] does to the keys depends on the keys alone. *)
Lemma keys_setitem {A} (key : str) (a : A) (d : dict A) :
  keys (setitem key a d)
  = if contains key d then keys d else keys d ++ [key].
Proof.
  induction d as [|[k b] d IH]; cbn [setitem contains keys List.map fst];
    [reflexivity |].
  destruct (decide (k = key)); cbn [List.map fst]; [reflexivity |].
  fold (keys (setitem key a d)). rewrite IH.
  now destruct (contains key d).
Qed.

Lemma contains_keys {A B} (key : str) (d1 : dict A) (d2 : dict B) :
  keys d1 = keys d2 -> contains key d1 = contains key d2.
Proof.
  revert d2. induction d1 as [|[k a] d1 IH]; intros [|[k' b] d2];
    cbn [keys List.map fst contains]; try discriminate; [reflexivity |].
  intros H. injection H as -> H.
  destruct (decide (k' = key)); [reflexivity | now apply IH].
Qed.

Lemma length_setitem {A} (key : str) (a : A) (d : dict A) :
  len (setitem key a d) = if contains key d then len d else len d + 1.
Proof.
  unfold len. rewrite <- (length_map fst (setitem key a d)).
  fold (keys (setitem key a d)). rewrite keys_setitem.
  destruct (contains key d); unfold keys;
    rewrite ?length_app, length_map; cbn [List.length]; lia.
Qed.

Lemma NoDup_setitem {A} (key : str) (a : A) (d : dict A) :
  NoDup (keys d) -> NoDup (keys (setitem key a d)).
Proof.
  intros Hd. rewrite keys_setitem.
  destruct (contains key d) eqn:E; [exact Hd |].
  apply NoDup_app. split; [exact Hd |]. split.
  - intros x Hx Hin. apply list_elem_of_In in Hx, Hin.
    destruct Hin as [<- | []].
    apply contains_in in Hx. congruence.
  - apply NoDup_singleton.
Qed.

(** [del d[key]] succeeds on a present key and removes exactly that key. *)
Lemma delitem_in {A} (key : str) (d : dict A) :
  In key (keys d) ->
  exists d', delitem key d = Ok d'
    /\ len d = len d' + 1
    /\ (NoDup (keys d) ->
        NoDup (keys d') /\
        forall k, In k (keys d') <-> In k (keys d) /\ k <> key).
Proof.
  induction d as [|[k b] d IH]; cbn [delitem keys List.map fst In]; [tauto |].
  fold (keys d).
  destruct (decide (k = key)) as [-> | Hne].
  - intros _. exists d. split; [reflexivity |]. split.
    + unfold len. cbn [List.length]. lia.
    + intros Hd. apply NoDup_cons in Hd as [Hk Hd]. split; [exact Hd |].
      intros k. split.
      * intros Hin. split; [now right |]. intros ->.
        apply Hk. now apply list_elem_of_In.
      * intros [[? | ?] ?]; [congruence | assumption].
  - intros [? | Hin]; [tauto |].
    destruct (IH Hin) as (d' & -> & Hl & Hd'). cbn [bind].
    exists ((k, b) :: d'). split; [reflexivity |]. split.
    + unfold len in *. cbn [List.length]. lia.
    + intros Hd. apply NoDup_cons in Hd as [Hk Hd].
      destruct (Hd' Hd) as [Hnd Hiff].
      cbn [keys List.map fst]. fold (keys d'). split.
      * apply NoDup_cons. split; [| exact Hnd].
        intros Hin'. apply list_elem_of_In, Hiff in Hin' as [Hin' _].
        apply Hk. now apply list_elem_of_In.
      * intros k0. cbn [In]. rewrite Hiff. split.
        -- intros [<- | [? ?]]; [split; [now left | exact Hne] |].
           split; [now right | assumption].
        -- intros [[? | ?] ?]; [now left | right; now split].
Qed.

(** Deleting the same key of two dictionaries with the same keys leaves
    them with the same keys. *)
Lemma keys_delitem {A B} (key : str) (d1 : dict A) :
  forall (d2 : dict B) d1' d2',
    keys d1 = keys d2 ->
    delitem key d1 = Ok d1' -> delitem key d2 = Ok d2' ->
    keys d1' = keys d2'.
Proof.
  induction d1 as [|[k a] d1 IH]; intros [|[k' b] d2] d1' d2';
    cbn [keys List.map fst delitem]; try discriminate.
  intros H. injection H as -> H.
  destruct (decide (k' = key)).
  - intros E1 E2. injection E1 as <-. injection E2 as <-. exact H.
  - destruct (delitem key d1) as [r1 |] eqn:E1; [| discriminate].
    destruct (delitem key d2) as [r2 |] eqn:E2; [| discriminate].
    cbn [bind]. intros G1 G2. injection G1 as <-. injection G2 as <-.
    cbn [keys List.map fst]. f_equal. exact (IH d2 r1 r2 H eq_refl E2).
Qed.

(** [min] returns a key of the sequence whose value is the least. *)
Lemma min_loop_least (f : str -> result Z) (l : list str) :
  (forall k, In k l -> exists v, f k = Ok v) ->
  forall best best_key,
    f best = Ok best_key ->
    exists r v,
      min_loop f best best_key l = Ok r /\ f r = Ok v
      /\ (r = best \/ In r l) /\ v <= best_key
      /\ forall k w, In k l -> f k = Ok w -> v <= w.
Proof.
  induction l as [|k l IH]; intros Hf best best_key Hb; cbn [min_loop].
  - exists best, best_key. repeat split; [exact Hb | now left | lia |].
    intros k w [].
  - destruct (Hf k (or_introl eq_refl)) as [v Hv]. rewrite Hv. cbn [bind].
    assert (Hf' : forall k', In k' l -> exists v', f k' = Ok v')
      by (intros k' Hk'; apply Hf; now right).
    destruct (v <? best_key) eqn:E.
    + destruct (IH Hf' k v Hv) as (r & u & Hr & Hu & Hin & Hle & Hall).
      exists r, u. repeat split; try assumption.
      * destruct Hin as [-> | Hin]; right; [now left | now right].
      * lia.
      * intros k' w [<- | Hk'] Hw; [| now apply (Hall k')].
        rewrite Hv in Hw. injection Hw as <-. exact Hle.
    + destruct (IH Hf' best best_key Hb) as (r & u & Hr & Hu & Hin & Hle & Hall).
      exists r, u. repeat split; try assumption.
      * destruct Hin as [-> | Hin]; [now left | right; now right].
      * intros k' w [<- | Hk'] Hw; [| now apply (Hall k')].
        rewrite Hv in Hw. injection Hw as <-. lia.
Qed.

Lemma py_min_least (f : str -> result Z) (l : list str) :
  l <> [] ->
  (forall k, In k l -> exists v, f k = Ok v) ->
  exists r v,
    py_min l f = Ok r /\ f r = Ok v /\ In r l
    /\ forall k w, In k l -> f k = Ok w -> v <= w.
Proof.
  destruct l as [|k l]; [congruence |]. intros _ Hf. cbn [py_min].
  destruct (Hf k (or_introl eq_refl)) as [v Hv]. rewrite Hv. cbn [bind].
  assert (Hf' : forall k', In k' l -> exists v', f k' = Ok v')
    by (intros k' Hk'; apply Hf; now right).
  destruct (min_loop_least f l Hf' k v Hv) as (r & u & Hr & Hu & Hin & Hle & Hall).
  exists r, u. repeat split; try assumption.
  - destruct Hin as [-> | Hin]; [now left | now right].
  - intros k' w [<- | Hk'] Hw; [| now apply (Hall k')].
    rewrite Hv in Hw. injection Hw as <-. exact Hle.
Qed.

End DictFacts.

Section CacheFacts.
Import Py Cache.

Variable V : Type.

Lemma len_keys {A} (d : dict A) : len (keys d) = len d.
Proof. unfold len, keys. now rewrite length_map. Qed.

(** On a non-empty cache the eviction step succeeds; it removes the key
    with the least access time, and only that key. *)
Lemma evict_spec (c : Cache.t V) :
  cache_inv c -> 1 <= len (cache c) ->
  exists c' oldest_key t,
    evict V c = Ok c'
    /\ max_size c' = max_size c
    /\ getitem (access_times c) oldest_key = Ok t
    /\ (forall k w, getitem (access_times c) k = Ok w ->
        In k (keys (access_times c)) -> t <= w)
    /\ keys (cache c') = keys (access_times c')
    /\ NoDup (keys (cache c'))
    /\ len (cache c) = len (cache c') + 1
    /\ forall k, In k (keys (cache c'))
                 <-> In k (keys (cache c)) /\ k <> oldest_key.
Proof.
  intros (Hk & Hnd & Hle) Hne. unfold evict.
  assert (Hl : keys (access_times c) <> []).
  { intros E. rewrite <- Hk in E.
    pose proof (len_keys (cache c)) as L. rewrite E in L.
    unfold len in L at 1. cbn in L. lia. }
  destruct (py_min_least (getitem (access_times c)) (keys (access_times c)) Hl
              (fun k Hin => getitem_in k (access_times c) Hin))
    as (r & t & -> & Ht & Hin & Hall).
  cbn [bind].
  assert (Hin' : In r (keys (cache c))) by now rewrite Hk.
  destruct (delitem_in r (cache c) Hin') as (d1 & E1 & L1 & D1).
  destruct (delitem_in r (access_times c) Hin) as (d2 & E2 & L2 & D2).
  rewrite E1, E2. cbn [bind].
  exists (Build V (max_size c) d1 d2), r, t. cbn [cache access_times max_size].
  destruct (D1 Hnd) as [Hnd1 Hiff1].
  repeat split; try assumption; try reflexivity.
  - intros k w Hw Hkin. now apply (Hall k).
  - exact (keys_delitem r (cache c) (access_times c) d1 d2 Hk E1 E2).
  - now apply Hiff1.
  - now apply Hiff1.
  - intros [? ?]. now apply Hiff1.
Qed.

Lemma get_inv (now : Z) (key : str) (c : Cache.t V) :
  cache_inv c ->
  cache_inv (fst (get V now key c))
  /\ max_size (fst (get V now key c)) = max_size c
  /\ keys (cache (fst (get V now key c))) = keys (cache c).
Proof.
  intros (Hk & Hnd & Hle). unfold get.
  destruct (contains key (cache c)) eqn:E; cbn [fst];
    [| now repeat split].
  unfold cache_inv. cbn [cache access_times max_size].
  repeat split; try assumption.
  rewrite keys_setitem, <- (contains_keys key (cache c) (access_times c) Hk), E.
  exact Hk.
Qed.

Lemma set_inv (now : Z) (key : str) (value : V) (c : Cache.t V) :
  cache_inv c -> 1 <= max_size c ->
  exists c', set V now key value c = Ok c'
    /\ cache_inv c' /\ max_size c' = max_size c.
Proof.
  intros Hinv Hm. unfold set.
  assert (H1 : exists c1,
             (if max_size c <=? len (cache c) then evict V c else Ok c) = Ok c1
             /\ max_size c1 = max_size c
             /\ keys (cache c1) = keys (access_times c1)
             /\ NoDup (keys (cache c1))
             /\ len (cache c1) + 1 <= max_size c).
  { destruct (max_size c <=? len (cache c)) eqn:E.
    - destruct (evict_spec c Hinv ltac:(lia))
        as (c' & k & t & -> & Hms & _ & _ & Hk' & Hnd' & Hl' & _).
      destruct Hinv as (_ & _ & Hle).
      exists c'. repeat split; try assumption. lia.
    - destruct Hinv as (Hk & Hnd & Hle).
      exists c. repeat split; try assumption. lia. }
  destruct H1 as (c1 & -> & Hms & Hk1 & Hnd1 & Hl1). cbn [bind].
  eexists. split; [reflexivity |].
  unfold cache_inv. cbn [cache access_times max_size].
  repeat split.
  - rewrite !keys_setitem,
      <- (contains_keys key (cache c1) (access_times c1) Hk1), Hk1.
    reflexivity.
  - now apply NoDup_setitem.
  - rewrite length_setitem. destruct (contains key (cache c1)); lia.
  - exact Hms.
Qed.

Lemma step_inv (c : Cache.t V) (o : op V) :
  cache_inv c -> 1 <= max_size c ->
  exists c', step V c o = Ok c' /\ cache_inv c' /\ max_size c' = max_size c.
Proof.
  intros Hinv Hm. destruct o as [now key | now key value |]; cbn [step].
  - destruct (get_inv now key c Hinv) as (Hi & Hms & _).
    eexists. split; [reflexivity | now split].
  - now apply set_inv.
  - eexists. split; [reflexivity |]. unfold cache_inv, clear.
    cbn [cache access_times max_size keys List.map].
    repeat split; [constructor | unfold len; cbn; lia].
Qed.

Lemma run_inv (ops : list (op V)) :
  forall c, cache_inv c -> 1 <= max_size c ->
    exists c', run V ops c = Ok c' /\ cache_inv c' /\ max_size c' = max_size c.
Proof.
  induction ops as [|o ops IH]; intros c Hinv Hm; cbn [run].
  - exists c. split; [reflexivity | split; [exact Hinv | reflexivity]].
  - destruct (step_inv c o Hinv Hm) as (c1 & -> & Hinv1 & Hms1). cbn [bind].
    destruct (IH c1 Hinv1 ltac:(lia)) as (c' & Hr & Hinv' & Hms').
    exists c'. split; [exact Hr | split; [exact Hinv' | lia]].
Qed.

(** Both [get] on a present key and [set] record the clock reading of the
    call as the key's access time. *)
Lemma get_refreshes (now : Z) (key : str) (c : Cache.t V) :
  contains key (cache c) = true ->
  getitem (access_times (fst (get V now key c))) key = Ok now.
Proof.
  intros E. unfold get. rewrite E. cbn [fst access_times].
  apply getitem_setitem_eq.
Qed.

Lemma set_refreshes (now : Z) (key : str) (value : V) (c c' : Cache.t V) :
  set V now key value c = Ok c' ->
  getitem (access_times c') key = Ok now
  /\ getitem (cache c') key = Ok value.
Proof.
  unfold set.
  destruct (if max_size c <=? len (cache c) then evict V c else Ok c);
    cbn [bind]; [| discriminate].
  intros H. injection H as <-. cbn [cache access_times].
  split; apply getitem_setitem_eq.
Qed.

(** Below capacity [set] evicts nothing. *)
Lemma set_below_capacity (now : Z) (key : str) (value : V) (c : Cache.t V) :
  len (cache c) < max_size c ->
  set V now key value c
  = Ok (Build V (max_size c) (setitem key value (cache c))
          (setitem key now (access_times c))).
Proof.
  intros H. unfold set.
  now replace (max_size c <=? len (cache c)) with false by lia.
Qed.

(** After a [get] on [key] at a clock reading later than every recorded
    access, an eviction removes another key as soon as there is one. *)
Lemma get_protects (now : Z) (key other : str) (c c' : Cache.t V) :
  cache_inv c ->
  In key (keys (cache c)) -> In other (keys (cache c)) -> other <> key ->
  (forall k w, getitem (access_times c) k = Ok w -> w < now) ->
  evict V (fst (get V now key c)) = Ok c' ->
  In key (keys (cache c')).
Proof.
  intros Hinv Hkey Hother Hne Hclock Hev.
  destruct (get_inv now key c Hinv) as (Hinv1 & Hms1 & Hkeys1).
  set (c1 := fst (get V now key c)) in *.
  assert (Hl : 1 <= len (cache c1)).
  { rewrite <- len_keys, Hkeys1. destruct (keys (cache c)); [destruct Hkey |].
    unfold len. cbn [List.length]. lia. }
  destruct (evict_spec c1 Hinv1 Hl)
    as (c2 & k & t & E & _ & Ht & Hall & _ & _ & _ & Hiff).
  rewrite E in Hev. injection Hev as <-.
  apply Hiff. split; [now rewrite Hkeys1 |].
  intros ->.
  assert (Hc : contains k (cache c) = true) by now apply contains_in.
  assert (Hat : access_times c1 = setitem k now (access_times c)).
  { unfold c1, get. now rewrite Hc. }
  rewrite Hat, getitem_setitem_eq in Ht. injection Ht as <-.
  destruct Hinv as (Hk & _ & _).
  assert (Ho : In other (keys (access_times c))) by now rewrite <- Hk.
  destruct (getitem_in other (access_times c) Ho) as [w Hw].
  pose proof (Hclock other w Hw).
  assert (now <= w).
  { apply (Hall other).
    - rewrite Hat, getitem_setitem_ne by congruence. exact Hw.
    - destruct Hinv1 as (Hk1 & _ & _). rewrite <- Hk1, Hkeys1. exact Hother. }
  lia.
Qed.

End CacheFacts.

Section CacheEviction.
Import Py Cache.

Variable V : Type.

(** A [set] of a key on a cache that holds [max_size] entries removes the
    entry with the least access time and no other, then stores the key. *)
Lemma set_full_evicts_oldest
  (now : Z) (key : str) (value : V) (c : Cache.t V) :
  cache_inv c -> 1 <= max_size c -> len (cache c) = max_size c ->
  exists c' oldest_key t,
    set V now key value c = Ok c'
    /\ getitem (access_times c) oldest_key = Ok t
    /\ (forall k w, getitem (access_times c) k = Ok w ->
        In k (keys (access_times c)) -> t <= w)
    /\ forall k, In k (keys (cache c'))
                 <-> (In k (keys (cache c)) /\ k <> oldest_key) \/ k = key.
Proof.
  intros Hinv Hm Hfull.
  destruct (evict_spec V c Hinv ltac:(lia))
    as (c1 & k0 & t & E & _ & Ht & Hall & _ & _ & _ & Hiff).
  exists (Build V (max_size c1) (setitem key value (cache c1))
            (setitem key now (access_times c1))), k0, t.
  split.
  { unfold set. replace (max_size c <=? len (cache c)) with true by lia.
    now rewrite E. }
  split; [exact Ht |]. split; [exact Hall |].
  intros k. cbn [cache]. rewrite keys_setitem.
  destruct (contains key (cache c1)) eqn:Ec.
  - apply contains_in in Ec. rewrite Hiff. split; [now left |].
    intros [H | ->]; [exact H | now apply Hiff].
  - rewrite in_app_iff, Hiff. cbn [In]. split.
    + intros [H | [<- | []]]; [now left | now right].
    + intros [H | ->]; [now left | right; now left].
Qed.

End CacheEviction.

(** C10.  Starting from [Cache(max_size)] with [max_size >= 1], every
    sequence of [get], [set] and [clear] calls runs without raising, and in
    the state it reaches the cache dictionary and the access-time
    dictionary have exactly the same keys and the cache holds at most
    [max_size] entries. *)
Theorem cache_keys_agree_and_bounded
  (V : Type) (max_size : Z) (ops : list (Cache.op V)) :
  1 <= max_size ->
  exists c,
    Cache.run V ops (Cache.init V max_size) = Py.Ok c
    /\ (forall k, In k (Cache.keys (Cache.cache c))
                  <-> In k (Cache.keys (Cache.access_times c)))
    /\ Cache.size V c <= max_size.
Proof.
  intros Hm.
  assert (Hinit : cache_inv (Cache.init V max_size)).
  { unfold cache_inv, Cache.init.
    cbn [Cache.cache Cache.access_times Cache.max_size Cache.keys List.map].
    split; [reflexivity |]. split; [apply NoDup_nil_2 |].
    unfold Py.len. cbn [List.length]. lia. }
  destruct (run_inv V ops (Cache.init V max_size) Hinit Hm)
    as (c & Hr & (Hk & _ & Hle) & Hms).
  exists c. split; [exact Hr |]. split.
  - intros k. now rewrite Hk.
  - unfold Cache.size. cbn [Cache.max_size Cache.init] in Hms. lia.
Qed.

Lemma cache_keys_agree_and_bounded_witness :
  1 <= 2
  /\ exists c,
       Cache.run nat
         [Cache.Set_ 1 (Py.lit "a") 10%nat; Cache.Set_ 2 (Py.lit "b") 20%nat;
          Cache.Get_ 3 (Py.lit "a"); Cache.Set_ 4 (Py.lit "c") 30%nat;
          Cache.Clear_; Cache.Set_ 5 (Py.lit "d") 40%nat]
         (Cache.init nat 2) = Py.Ok c
       /\ (forall k, In k (Cache.keys (Cache.cache c))
                     <-> In k (Cache.keys (Cache.access_times c)))
       /\ Cache.size nat c <= 2.
Proof.
  split; [lia |].
  apply (cache_keys_agree_and_bounded nat 2). lia.
Defined.

(** C2.  A [set] that overwrites a key already in a full cache still
    evicts: with capacity 2, after [set a], [set b], the call [set b] again
    removes [a], the least recently accessed entry, although no new key is
    inserted; the cache is left with the single key [b]. *)
Theorem cache_set_overwrite_evicts :
  exists c,
    Cache.run nat
      [Cache.Set_ 1 (Py.lit "a") 10%nat; Cache.Set_ 2 (Py.lit "b") 20%nat;
       Cache.Set_ 3 (Py.lit "b") 21%nat]
      (Cache.init nat 2) = Py.Ok c
    /\ Cache.keys (Cache.cache c) = [Py.lit "b"]
    /\ Cache.contains (Py.lit "a") (Cache.cache c) = false
    /\ Cache.size nat c = 1.
Proof. eexists. vm_compute. repeat split. Qed.

(** Inserting three distinct keys into a cache of capacity 2 evicts the
    first one; a [get] on it before the third insertion saves it and the
    second key goes instead. *)
Example cache_lru_insert_three :
  exists c,
    Cache.run nat
      [Cache.Set_ 1 (Py.lit "a") 10%nat; Cache.Set_ 2 (Py.lit "b") 20%nat;
       Cache.Set_ 3 (Py.lit "c") 30%nat]
      (Cache.init nat 2) = Py.Ok c
    /\ Cache.keys (Cache.cache c) = [Py.lit "b"; Py.lit "c"].
Proof. eexists. vm_compute. repeat split. Qed.

(** ** The index builder *)

Section JsonFacts.
Import Py Json.

Lemma hex_digit_no_lf (d : N) : hex_digit d <> 10%N.
Proof. unfold hex_digit. destruct (d <? 10)%N; lia. Qed.

(** No escaped character contains a raw line feed. *)
Lemma escape_char_no_lf (c : N) : Forall (fun b => b <> 10%N) (escape_char c).
Proof.
  assert (Hu : forall n, Forall (fun b => b <> 10%N) (u_escape n)).
  { intros n. unfold u_escape, hex4.
    repeat (constructor; [first [apply hex_digit_no_lf | discriminate] |]).
    constructor. }
  unfold escape_char.
  repeat match goal with
  | |- context [if (c =? ?k)%N then _ else _] =>
      destruct (c =? k)%N eqn:?;
        [repeat (constructor; [discriminate |]); constructor |]
  end.
  destruct ((32 <=? c) && (c <=? 126))%N eqn:E.
  - constructor; [| constructor].
    apply andb_true_iff in E as [E _]. apply N.leb_le in E. lia.
  - destruct (c <? 65536)%N; [apply Hu |].
    apply Forall_app. split; apply Hu.
Qed.

Lemma dumps_str_no_lf (s : str) : Forall (fun b => b <> 10%N) (dumps_str s).
Proof.
  unfold dumps_str.
  apply Forall_app. split; [constructor; [discriminate | constructor] |].
  apply Forall_app. split; [| constructor; [discriminate | constructor]].
  induction s as [|c s IH]; cbn [flat_map]; [constructor |].
  apply Forall_app. split; [apply escape_char_no_lf | exact IH].
Qed.

Lemma dumps_text_no_lf (chunk : str) :
  Forall (fun b => b <> 10%N) (dumps_text chunk).
Proof.
  assert (Hl : forall l : list N,
             forallb (fun b => negb (b =? 10)%N) l = true ->
             Forall (fun b => b <> 10%N) l).
  { intros l H. apply List.Forall_forall. intros b Hb.
    rewrite forallb_forall in H. specialize (H b Hb).
    apply negb_true_iff, N.eqb_neq in H. exact H. }
  unfold dumps_text.
  apply Forall_app. split; [now apply Hl |].
  apply Forall_app. split; [apply dumps_str_no_lf |].
  apply Forall_app. split; [now apply Hl |].
  apply Forall_app. split; [apply dumps_str_no_lf | now apply Hl].
Qed.

Lemma lines_from_line (l rest : list N) :
  Forall (fun b => b <> 10%N) l ->
  forall cur,
    lines_from cur (l ++ 10%N :: rest) = (rev cur ++ l) :: lines_from [] rest.
Proof.
  induction 1 as [|x l Hx Hl IH]; intros cur; cbn [app lines_from].
  - now rewrite app_nil_r.
  - replace (x =? 10)%N with false by (symmetry; now apply N.eqb_neq).
    rewrite IH. cbn [rev]. now rewrite <- app_assoc.
Qed.

(** Line [i] of [chunks.jsonl] is the JSON object of chunk [i]: as many
    lines as chunks, in the order of the chunks. *)
Lemma chunks_jsonl_lines (chunks : list str) :
  file_lines (BuildFaissIndex.chunks_jsonl chunks) = List.map dumps_text chunks.
Proof.
  unfold file_lines, BuildFaissIndex.chunks_jsonl.
  induction chunks as [|c chunks IH]; cbn [flat_map List.map]; [reflexivity |].
  rewrite <- app_assoc. cbn [app].
  rewrite lines_from_line by apply dumps_text_no_lf.
  cbn [rev app]. now rewrite IH.
Qed.

End JsonFacts.

Example chunks_jsonl_two :
  BuildFaissIndex.chunks_jsonl [Py.lit "EMI"; [233%N; 10%N]]
  = Py.lit "{" ++ [34%N] ++ Py.lit "text" ++ [34%N] ++ Py.lit ": " ++ [34%N]
    ++ Py.lit "EMI" ++ [34%N] ++ Py.lit "}" ++ [10%N]
    ++ Py.lit "{" ++ [34%N] ++ Py.lit "text" ++ [34%N] ++ Py.lit ": " ++ [34%N]
    ++ Py.lit "\u00e9\n" ++ [34%N] ++ Py.lit "}" ++ [10%N].
Proof. vm_compute. reflexivity. Qed.

Section BuildFacts.
Import Py BuildFaissIndex.

Variable F : Type.
Variable faiss_index : Type.
Variable IndexFlatL2 : Z -> result faiss_index.
Variable index_add : faiss_index -> list (list F) -> result faiss_index.

(** A successful build leaves the chunk store holding the chunks' lines. *)
Lemma build_index_ok
  (write_index : faiss_index -> list N)
  (chunks : list str) (embeddings : list (list F)) (s s1 : fs) :
  build_index F faiss_index IndexFlatL2 index_add write_index chunks
    embeddings s
  = (Ok tt, s1) ->
  files s1 !! chunks_path = Some (chunks_jsonl chunks)
  /\ exists e0 rest index,
       embeddings = e0 :: rest /\ chunks <> []
       /\ len chunks = len embeddings
       /\ make_index F faiss_index IndexFlatL2 index_add (len e0) embeddings
          = Ok index.
Proof.
  unfold build_index.
  destruct chunks as [|c chunks]; [destruct embeddings; discriminate |].
  destruct embeddings as [|e0 rest]; [discriminate |].
  destruct (len (c :: chunks) =? len (e0 :: rest)) eqn:El; cbn [negb];
    [| discriminate].
  destruct (make_index F faiss_index IndexFlatL2 index_add (len e0)
              (e0 :: rest))
    as [index |] eqn:Eb; [| discriminate].
  intros H. injection H as <-. split.
  - unfold write_file. cbn [files]. apply lookup_insert_eq.
  - exists e0, rest, index.
    split; [reflexivity |]. split; [discriminate |].
    split; [lia | exact Eb].
Qed.

End BuildFacts.

(** C6.  [build_index] called with no chunks, with no embeddings, or with
    different numbers of chunks and embeddings raises [ValueError] and
    leaves the storage exactly as it was: no directory, no index file and
    no chunk store is created or changed. *)
Theorem build_index_validation
  (F faiss_index : Type)
  (IndexFlatL2 : Z -> Py.result faiss_index)
  (index_add : faiss_index -> list (list F) -> Py.result faiss_index)
  (write_index : faiss_index -> list N)
  (chunks : list Py.str) (embeddings : list (list F))
  (s : BuildFaissIndex.fs) :
  chunks = [] \/ embeddings = []
  \/ List.length chunks <> List.length embeddings ->
  exists msg,
    BuildFaissIndex.build_index F faiss_index IndexFlatL2 index_add
      write_index
      chunks embeddings s
    = (Py.Raise (Py.Exn "ValueError" msg), s).
Proof.
  intros H. unfold BuildFaissIndex.build_index.
  destruct chunks as [|c chunks]; [destruct embeddings; now eexists |].
  destruct embeddings as [|e0 rest]; [now eexists |].
  destruct H as [H | [H | H]]; try discriminate.
  replace (Py.len (c :: chunks) =? Py.len (e0 :: rest)) with false
    by (unfold Py.len; lia).
  cbn [negb]. now eexists.
Qed.

Lemma build_index_validation_witness :
  ([Py.lit "EMI"; Py.lit "Savings"] = [] \/ [[1%nat; 2%nat]] = []
   \/ List.length [Py.lit "EMI"; Py.lit "Savings"]
      <> List.length [[1%nat; 2%nat]])
  /\ exists msg,
       BuildFaissIndex.build_index nat unit (fun _ => Py.Ok tt)
         (fun _ _ => Py.Ok tt)
         (fun _ => [])
         [Py.lit "EMI"; Py.lit "Savings"] [[1%nat; 2%nat]]
         (BuildFaissIndex.Fs ∅ ∅)
       = (Py.Raise (Py.Exn "ValueError" msg), BuildFaissIndex.Fs ∅ ∅).
Proof.
  assert (H : [Py.lit "EMI"; Py.lit "Savings"] = [] \/ [[1%nat; 2%nat]] = []
              \/ List.length [Py.lit "EMI"; Py.lit "Savings"]
                 <> List.length [[1%nat; 2%nat]])
    by (right; right; simpl; lia).
  split; [exact H |].
  exact (build_index_validation nat unit (fun _ => Py.Ok tt)
           (fun _ _ => Py.Ok tt) (fun _ => [])
           [Py.lit "EMI"; Py.lit "Savings"] [[1%nat; 2%nat]]
           (BuildFaissIndex.Fs ∅ ∅) H).
Defined.

(** C8.  When [build_index] succeeds on some chunks and embeddings, running
    it again on the same input (whatever bytes the index library writes the
    second time) succeeds too and leaves [chunks.jsonl] with the same
    bytes: the JSON lines of the chunks, one line per chunk in the order
    of the chunks. *)
Theorem build_index_idempotent
  (F faiss_index : Type)
  (IndexFlatL2 : Z -> Py.result faiss_index)
  (index_add : faiss_index -> list (list F) -> Py.result faiss_index)
  (write_index1 write_index2 : faiss_index -> list N)
  (chunks : list Py.str) (embeddings : list (list F))
  (s s1 : BuildFaissIndex.fs) :
  BuildFaissIndex.build_index F faiss_index IndexFlatL2 index_add
      write_index1
    chunks embeddings s = (Py.Ok tt, s1) ->
  exists s2,
    BuildFaissIndex.build_index F faiss_index IndexFlatL2 index_add
      write_index2
      chunks embeddings s1 = (Py.Ok tt, s2)
    /\ BuildFaissIndex.files s2 !! chunks_path
       = BuildFaissIndex.files s1 !! chunks_path
    /\ BuildFaissIndex.files s1 !! chunks_path
       = Some (BuildFaissIndex.chunks_jsonl chunks)
    /\ file_lines (BuildFaissIndex.chunks_jsonl chunks)
       = List.map Json.dumps_text chunks.
Proof.
  intros H1.
  destruct (build_index_ok F faiss_index IndexFlatL2 index_add
      write_index1
              chunks embeddings s s1 H1)
    as (Hf1 & e0 & rest & index & -> & Hc & Hl & Hb).
  destruct chunks as [|c chunks]; [congruence |].
  eexists. split.
  - unfold BuildFaissIndex.build_index.
    replace (Py.len (c :: chunks) =? Py.len (e0 :: rest)) with true by lia.
    cbn [negb]. rewrite Hb. reflexivity.
  - split; [| split; [exact Hf1 | apply chunks_jsonl_lines]].
    rewrite Hf1. unfold BuildFaissIndex.write_file. cbn [BuildFaissIndex.files].
    apply lookup_insert_eq.
Qed.

Lemma build_index_idempotent_witness :
  exists s1 s2,
    BuildFaissIndex.build_index nat unit (fun _ => Py.Ok tt)
         (fun _ _ => Py.Ok tt) (fun _ => [1%N])
      [Py.lit "EMI"] [[1%nat; 2%nat]] (BuildFaissIndex.Fs ∅ ∅) = (Py.Ok tt, s1)
    /\ BuildFaissIndex.build_index nat unit (fun _ => Py.Ok tt)
         (fun _ _ => Py.Ok tt)
         (fun _ => [2%N]) [Py.lit "EMI"] [[1%nat; 2%nat]] s1 = (Py.Ok tt, s2)
    /\ BuildFaissIndex.files s2 !! chunks_path
       = BuildFaissIndex.files s1 !! chunks_path.
Proof.
  eexists.
  destruct (build_index_idempotent nat unit (fun _ => Py.Ok tt)
              (fun _ _ => Py.Ok tt)
              (fun _ => [1%N]) (fun _ => [2%N]) [Py.lit "EMI"] [[1%nat; 2%nat]]
              (BuildFaissIndex.Fs ∅ ∅) _ eq_refl) as (s2 & H2 & Hsame & _).
  exists s2. split; [reflexivity |]. split; [exact H2 | exact Hsame].
Defined.

(** ** The retriever *)

Section RetrieveFacts.
Import Py RagUtils.

(** An index at or above the number of chunks is dropped. *)
Lemma select_drops_high (chunks : list str) (idx : Z) (rest : list Z) :
  len chunks <= idx ->
  select chunks (idx :: rest) = select chunks rest.
Proof.
  intros H. cbn [select].
  now replace (idx <? len chunks) with false by lia.
Qed.

(** A negative index down to [-len(chunks)] passes the filter and selects
    a chunk, counted from the end. *)
Lemma select_negative (chunks : list str) (idx : Z) :
  - len chunks <= idx < 0 ->
  exists c, select chunks [idx] = Ok [c]
            /\ nth_error chunks (Z.to_nat (idx + len chunks)) = Some c.
Proof.
  intros H. cbn [select].
  replace (idx <? len chunks) with true by lia.
  unfold Py.getitem.
  replace (idx <? 0) with true by lia.
  replace ((idx + len chunks <? 0) || (len chunks <=? idx + len chunks))
    with false by lia.
  destruct (nth_error chunks (Z.to_nat (idx + len chunks))) as [c |] eqn:E.
  - exists c. now split.
  - apply nth_error_None in E. unfold len in *. lia.
Qed.

Variable env : gmap string string.
Variable client vector faiss_index : Type.
Variable AzureOpenAI : result client.
Variable embeddings_create : client -> str -> result vector.
Variable search : faiss_index -> vector -> Z -> result (list Z).

Lemma retrieve_cases (g : globals faiss_index) (query : str) (top_k : Z) :
  exists results,
    retrieve_similar_documents env client vector faiss_index AzureOpenAI
      embeddings_create search g query top_k = Ok results
    /\ results <> [].
Proof.
  unfold retrieve_similar_documents.
  destruct (index g) as [i |]; [| now eexists].
  destruct (chunks g) as [cs |]; [| now eexists].
  destruct (embed_query env client vector AzureOpenAI embeddings_create query)
    as [v | e]; cbn [bind try_except]; [| now eexists].
  destruct (search i v top_k) as [indices | e]; cbn [bind try_except];
    [| now eexists].
  destruct (select cs indices) as [[|r rs] | e]; cbn [bind try_except];
    now eexists.
Qed.

End RetrieveFacts.

(** C1.  The filter of [retrieve_similar_documents] is [idx < len(chunks)]
    alone, so the padding label [-1] is kept and, as a list index, selects
    the last chunk: over two chunks the search result [0, 1, -1] yields
    [alpha, beta, beta]. *)
Theorem retrieve_negative_index_selects_chunk :
  RagUtils.retrieve_similar_documents full_env unit unit unit (Py.Ok tt)
    (fun _ _ => Py.Ok tt) padded_search two_chunks (Py.lit "What is EMI?") 3
  = Py.Ok [Py.lit "alpha"; Py.lit "beta"; Py.lit "beta"]
  /\ RagUtils.select [Py.lit "alpha"; Py.lit "beta"] [-1]
     = Py.Ok [Py.lit "beta"].
Proof. split; vm_compute; reflexivity. Qed.

(** C7.  [retrieve_similar_documents] never raises and returns a non-empty
    list: the single not-loaded placeholder when the index or the chunk
    list is [None]; a single ["Error retrieving documents: ..."] string
    when embedding the query or searching raises; the single
    ["No relevant documents found."] string when the selection is empty. *)
Theorem retrieve_never_raises_nonempty
  (env : gmap string string) (client vector faiss_index : Type)
  (AzureOpenAI : Py.result client)
  (embeddings_create : client -> Py.str -> Py.result vector)
  (search : faiss_index -> vector -> Z -> Py.result (list Z))
  (g : RagUtils.globals faiss_index) (query : Py.str) (top_k : Z) :
  let retrieve :=
    RagUtils.retrieve_similar_documents env client vector faiss_index
      AzureOpenAI embeddings_create search g query top_k in
  let embed :=
    RagUtils.embed_query env client vector AzureOpenAI embeddings_create
      query in
  (exists results, retrieve = Py.Ok results /\ results <> [])
  /\ (RagUtils.index g = None \/ RagUtils.chunks g = None ->
      retrieve = Py.Ok [RagUtils.not_loaded])
  /\ (forall i cs e,
        RagUtils.index g = Some i -> RagUtils.chunks g = Some cs ->
        embed = Py.Raise e ->
        retrieve
        = Py.Ok [Py.lit "Error retrieving documents: " ++ Py.exn_msg e])
  /\ (forall i cs v e,
        RagUtils.index g = Some i -> RagUtils.chunks g = Some cs ->
        embed = Py.Ok v -> search i v top_k = Py.Raise e ->
        retrieve
        = Py.Ok [Py.lit "Error retrieving documents: " ++ Py.exn_msg e])
  /\ (forall i cs v indices,
        RagUtils.index g = Some i -> RagUtils.chunks g = Some cs ->
        embed = Py.Ok v -> search i v top_k = Py.Ok indices ->
        RagUtils.select cs indices = Py.Ok [] ->
        retrieve = Py.Ok [RagUtils.no_documents]).
Proof.
  cbv zeta. split; [apply retrieve_cases |].
  unfold RagUtils.retrieve_similar_documents.
  split; [| split; [| split]].
  - intros [-> | ->]; [reflexivity |]. now destruct (RagUtils.index g).
  - intros i cs e -> -> ->. reflexivity.
  - intros i cs v e -> -> -> Hs. cbn [Py.bind]. rewrite Hs. reflexivity.
  - intros i cs v indices -> -> -> Hs Hsel. cbn [Py.bind].
    rewrite Hs. cbn [Py.bind]. rewrite Hsel. reflexivity.
Qed.

(** ** The completion boundary *)

(** C9.  [generate_llm] never raises: it returns the invalid-configuration
    message when no client can be built, and ["Error from LLM: ..."] with
    the exception's text when the completion call raises; in every case
    the outcome is a string. *)
Theorem generate_llm_never_raises
  (env : gmap string string) (client : Type)
  (AzureOpenAI : Py.result client)
  (create : client -> Py.str -> Py.str -> bool -> Py.result Llm.response)
  (prompt mode : Py.str) (stream : bool) :
  let generate :=
    Llm.generate_llm env client AzureOpenAI create prompt mode stream in
  (exists answer, generate = Py.Ok answer)
  /\ (Llm.get_azure_client env client AzureOpenAI = None ->
      generate = Py.Ok Llm.invalid_configuration)
  /\ (forall c e,
        Llm.get_azure_client env client AzureOpenAI = Some c ->
        create c (if decide (mode = Py.lit "concise")
                  then Llm.concise_prompt else Llm.detailed_prompt)
          prompt stream = Py.Raise e ->
        generate = Py.Ok (Py.lit "Error from LLM: " ++ Py.exn_msg e)).
Proof.
  cbv zeta. unfold Llm.generate_llm.
  split; [| split].
  - destruct (Llm.get_azure_client env client AzureOpenAI) as [c |];
      [| now eexists].
    match goal with
    | |- exists a, Py.try_except ?body _ = _ => destruct body; now eexists
    end.
  - intros ->. reflexivity.
  - intros c e -> Hc. rewrite Hc. reflexivity.
Qed.

(** * Further properties of the code *)

(** ** The text chunker *)

Section ChunkerMore.
Import Py TextProcessor.

Lemma lstrip_suffix (s : str) : exists pre, s = pre ++ lstrip s.
Proof.
  induction s as [|c s [pre IH]]; cbn [lstrip]; [now exists [] |].
  destruct (isspace c); [| now exists []].
  exists (c :: pre). cbn [app]. now f_equal.
Qed.

Lemma rstrip_prefix (s : str) : exists post, s = rstrip s ++ post.
Proof.
  induction s as [|c s [post IH]]; cbn [rstrip]; [now exists [] |].
  destruct (rstrip s) as [|x t] eqn:E.
  - destruct (isspace c); [now exists (c :: s) |].
    exists s. reflexivity.
  - exists post. cbn [app]. now f_equal.
Qed.

Lemma strip_infix (s : str) : exists pre post, s = pre ++ strip s ++ post.
Proof.
  unfold strip. destruct (lstrip_suffix s) as [pre Hp].
  destruct (rstrip_prefix (lstrip s)) as [post Hq].
  exists pre, post. now rewrite <- Hq.
Qed.

Lemma strip_length (s : str) : len (strip s) <= len s.
Proof.
  destruct (strip_infix s) as (pre & post & H).
  unfold len. rewrite H at 2. rewrite !length_app. lia.
Qed.

Lemma slice_infix {A} (s : list A) (start stop : Z) :
  exists pre post, s = pre ++ slice s start stop ++ post.
Proof.
  unfold slice.
  set (a := Z.to_nat (adjust (len s) start)).
  set (k := Z.to_nat (adjust (len s) stop - adjust (len s) start)).
  exists (firstn a s), (skipn k (skipn a s)).
  now rewrite (firstn_skipn k (skipn a s)), (firstn_skipn a s).
Qed.

Lemma slice_length {A} (s : list A) (start stop : Z) :
  len (slice s start stop)
  <= Z.max 0 (adjust (len s) stop - adjust (len s) start).
Proof.
  unfold slice, len at 1.
  pose proof (firstn_le_length
                (Z.to_nat (adjust (len s) stop - adjust (len s) start))
                (skipn (Z.to_nat (adjust (len s) start)) s)).
  lia.
Qed.

Variable text : str.
Variable chunk_size overlap : Z.

(** The characters between a window start and its end are at most
    [chunk_size]: the snap only moves the end back. *)
Lemma window_length (start : Z) :
  0 <= chunk_size ->
  len (slice text start (window_end text chunk_size start)) <= chunk_size.
Proof.
  intros Hc.
  pose proof (slice_length text start (window_end text chunk_size start)) as L.
  pose proof (len_nonneg text) as Hn.
  assert (B : adjust (len text) (start + chunk_size)
              - adjust (len text) start <= chunk_size)
    by (unfold adjust;
        destruct (start + chunk_size <? 0) eqn:E1;
        destruct (start <? 0) eqn:E2; lia).
  destruct (window_end_cases text chunk_size start) as [E | [Hs E]];
    rewrite E in *; [lia |].
  destruct (rfind_range text period start (start + chunk_size)) as [R | R].
  - rewrite R in *. change (-1 + 1) with 0 in *.
    assert (adjust (len text) 0 = 0) by (unfold adjust; cbn; lia).
    destruct (adjust_range (len text) start Hn). lia.
  - assert (adjust (len text)
              (rfind text period start (start + chunk_size) + 1)
            <= rfind text period start (start + chunk_size) + 1).
    { destruct (adjust_range (len text) start Hn).
      unfold adjust at 1.
      destruct (rfind text period start (start + chunk_size) + 1 <? 0) eqn:E3;
        lia. }
    lia.
Qed.

(** What holds of every stripped non-empty window holds of every chunk
    the loop returns. *)
Lemma chunk_loop_Forall (P : str -> Prop) :
  (forall start,
     strip (slice text start (window_end text chunk_size start)) <> [] ->
     P (strip (slice text start (window_end text chunk_size start)))) ->
  forall fuel start chunks out,
    Forall P chunks ->
    chunk_loop text chunk_size overlap fuel start chunks = Some out ->
    Forall P out.
Proof.
  intros HP fuel.
  induction fuel as [|fuel IH]; intros start chunks out Hc; [discriminate |].
  rewrite chunk_loop_unfold.
  pose proof (HP start) as Hs.
  set (chunk := strip (slice text start (window_end text chunk_size start)))
    in *.
  assert (Hc' : Forall P
                  match chunk with [] => chunks | _ :: _ => chunks ++ [chunk] end).
  { destruct chunk as [|x chunk]; [exact Hc |].
    apply Forall_app. split; [exact Hc |].
    constructor; [now apply Hs | constructor]. }
  destruct (start <? len text).
  - destruct (len text <=? window_end text chunk_size start - overlap).
    + intros H. injection H as <-. exact Hc'.
    + apply IH. exact Hc'.
  - intros H. injection H as <-. exact Hc.
Qed.

Lemma chunk_loop_bounded (fuel : nat) (start : Z) (out : list str) :
  0 <= chunk_size ->
  chunk_loop text chunk_size overlap fuel start [] = Some out ->
  Forall (fun c => len c <= chunk_size) out.
Proof.
  intros Hc. apply chunk_loop_Forall; [| constructor].
  intros s _.
  pose proof (strip_length (slice text s (window_end text chunk_size s))).
  pose proof (window_length s Hc). lia.
Qed.

End ChunkerMore.

Lemma chunk_text_terminates_witness :
  4 < 24 /\ 4 <= 24 / 2 + 1
  /\ exists out,
       TextProcessor.chunk_text
         (Py.lit "Savings earn interest. EMI is fixed.") 24 4
         (S (List.length (Py.lit "Savings earn interest. EMI is fixed.")))
       = Some out.
Proof.
  assert (H1 : 4 < 24) by lia.
  assert (H2 : 4 <= 24 / 2 + 1) by (vm_compute; discriminate).
  split; [exact H1 |]. split; [exact H2 |].
  exact (chunk_text_terminates
           (Py.lit "Savings earn interest. EMI is fixed.") 24 4 H1 H2).
Defined.

Lemma chunk_text_long_chunks_witness :
  24 < Py.len (Py.lit "Savings earn interest. EMI is fixed.")
  /\ Forall (fun c => c <> [] /\ trimmed c)
       [Py.lit "Savings earn interest."; Py.lit "est. EMI is fixed."].
Proof.
  assert (H1 : 24 < Py.len (Py.lit "Savings earn interest. EMI is fixed."))
    by (vm_compute; reflexivity).
  assert (H2 : TextProcessor.chunk_text
      (Py.lit "Savings earn interest. EMI is fixed.") 24 4 10
    = Some [Py.lit "Savings earn interest.";
            Py.lit "est. EMI is fixed."]) by (vm_compute; reflexivity).
  split; [exact H1 |].
  exact (chunk_text_long_chunks
           (Py.lit "Savings earn interest. EMI is fixed.") 24 4 10 _ H1 H2).
Defined.

(** Every chunk [chunk_text] returns has at most [chunk_size] characters,
    for every text and overlap, as soon as [chunk_size >= 0]: moving the
    window end to a sentence boundary never lengthens a chunk. *)
Theorem chunk_text_chunk_length
  (text : Py.str) (chunk_size overlap : Z) (fuel : nat) (out : list Py.str) :
  0 <= chunk_size ->
  TextProcessor.chunk_text text chunk_size overlap fuel = Some out ->
  Forall (fun c => Py.len c <= chunk_size) out.
Proof.
  intros Hc. unfold TextProcessor.chunk_text.
  destruct (Py.len text <=? chunk_size) eqn:E.
  - intros H. injection H as <-. constructor; [lia | constructor].
  - now apply chunk_loop_bounded.
Qed.

Lemma chunk_text_chunk_length_witness :
  0 <= 24
  /\ Forall (fun c => Py.len c <= 24)
       [Py.lit "Savings earn interest."; Py.lit "est. EMI is fixed."].
Proof.
  assert (H1 : 0 <= 24) by lia.
  assert (H2 : TextProcessor.chunk_text
      (Py.lit "Savings earn interest. EMI is fixed.") 24 4 10
    = Some [Py.lit "Savings earn interest.";
            Py.lit "est. EMI is fixed."]) by (vm_compute; reflexivity).
  split; [exact H1 |].
  exact (chunk_text_chunk_length
           (Py.lit "Savings earn interest. EMI is fixed.") 24 4 10 _ H1 H2).
Defined.

(** Every chunk [chunk_text] returns is a contiguous piece of the text:
    the chunker cuts and trims, it never rewrites a character. *)
Theorem chunk_text_chunks_are_substrings
  (text : Py.str) (chunk_size overlap : Z) (fuel : nat) (out : list Py.str) :
  TextProcessor.chunk_text text chunk_size overlap fuel = Some out ->
  Forall (fun c => exists pre post, text = pre ++ c ++ post) out.
Proof.
  unfold TextProcessor.chunk_text.
  destruct (Py.len text <=? chunk_size).
  - intros H. injection H as <-.
    constructor; [| constructor]. exists [], []. now rewrite app_nil_r.
  - apply chunk_loop_Forall; [| constructor].
    intros start _.
    destruct (slice_infix text start
                (TextProcessor.window_end text chunk_size start))
      as (p1 & q1 & H1).
    destruct (strip_infix
                (Py.slice text start
                   (TextProcessor.window_end text chunk_size start)))
      as (p2 & q2 & H2).
    exists (p1 ++ p2), (q2 ++ q1).
    rewrite H1 at 1. rewrite H2 at 1.
    now rewrite <- !app_assoc.
Qed.

Lemma chunk_text_chunks_are_substrings_witness :
  Forall (fun c => exists pre post,
            Py.lit "Savings earn interest. EMI is fixed." = pre ++ c ++ post)
    [Py.lit "Savings earn interest."; Py.lit "est. EMI is fixed."].
Proof.
  assert (H2 : TextProcessor.chunk_text
      (Py.lit "Savings earn interest. EMI is fixed.") 24 4 10
    = Some [Py.lit "Savings earn interest.";
            Py.lit "est. EMI is fixed."]) by (vm_compute; reflexivity).
  exact (chunk_text_chunks_are_substrings
           (Py.lit "Savings earn interest. EMI is fixed.") 24 4 10 _ H2).
Defined.

(** With the settings of the index builder, [CHUNK_SIZE = 300] and
    [CHUNK_OVERLAP = 50], and with the defaults of [chunk_text], 1000 and
    200, chunking returns for every text, within [len(text) + 1]
    iterations, and no chunk is longer than the chunk size. *)
Theorem chunk_text_settings_return (text : Py.str) :
  (exists out,
     BuildFaissIndex.chunk_text text BuildFaissIndex.CHUNK_SIZE
       BuildFaissIndex.CHUNK_OVERLAP (S (List.length text)) = Some out
     /\ Forall (fun c => Py.len c <= 300) out)
  /\ (exists out,
        TextProcessor.chunk_text text 1000 200 (S (List.length text))
        = Some out
        /\ Forall (fun c => Py.len c <= 1000) out).
Proof.
  assert (G : forall cs ov, 0 <= cs -> ov < cs -> ov <= cs / 2 + 1 ->
              exists out,
                TextProcessor.chunk_text text cs ov (S (List.length text))
                = Some out /\ Forall (fun c => Py.len c <= cs) out).
  { intros cs ov H0 H1 H2. unfold TextProcessor.chunk_text.
    destruct (Py.len text <=? cs) eqn:E.
    - eexists. split; [reflexivity |]. constructor; [lia | constructor].
    - destruct (chunk_loop_terminates text cs ov H1 H2
                  (S (List.length text)) 0 [])
        as [out Ho]; [unfold Py.len; lia |].
      exists out. split; [exact Ho |].
      exact (chunk_loop_bounded text cs ov _ 0 out H0 Ho). }
  split.
  - apply (G 300 50); [lia | lia | vm_compute; discriminate].
  - apply (G 1000 200); [lia | lia | vm_compute; discriminate].
Qed.

(** ** The response cache *)

Section CacheMore.
Import Py Cache.

Lemma getitem_ok_in {A} (key : str) (d : dict A) (a : A) :
  getitem d key = Ok a -> In key (keys d).
Proof.
  induction d as [|[k b] d IH]; cbn [getitem keys List.map fst In];
    [discriminate |].
  destruct (decide (k = key)); [now left | right; now apply IH].
Qed.

Lemma keys_setitem_incl {A} (key k : str) (a : A) (d : dict A) :
  In k (keys d) -> In k (keys (setitem key a d)).
Proof.
  intros H. rewrite keys_setitem. destruct (contains key d); [exact H |].
  apply in_or_app. now left.
Qed.

Lemma getitem_bound (d : dict Z) (now : Z) :
  Forall (fun p => snd p < now) d ->
  forall k w, getitem d k = Ok w -> w < now.
Proof.
  induction 1 as [|[k0 w0] d H0 Hd IH]; intros k w; cbn [getitem];
    [discriminate |].
  destruct (decide (k0 = k)); [| apply IH].
  intros H. injection H as <-. exact H0.
Qed.

End CacheMore.

(** A value stored by [set] is what the next [get] of that key returns,
    and the [get] records its own clock reading as the access time. *)
Theorem cache_set_then_get
  (V : Type) (now now' : Z) (key : Py.str) (value : V) (c c' : Cache.t V) :
  Cache.set V now key value c = Py.Ok c' ->
  snd (Cache.get V now' key c') = Some value
  /\ Cache.getitem (Cache.access_times (fst (Cache.get V now' key c'))) key
     = Py.Ok now'
  /\ Cache.cache (fst (Cache.get V now' key c')) = Cache.cache c'.
Proof.
  intros H. destruct (set_refreshes V now key value c c' H) as [_ Hv].
  assert (Hc : Cache.contains key (Cache.cache c') = true)
    by (apply contains_in; exact (getitem_ok_in key _ value Hv)).
  unfold Cache.get. rewrite Hc, Hv. cbn [fst snd Cache.access_times Cache.cache].
  split; [reflexivity |]. split; [apply getitem_setitem_eq | reflexivity].
Qed.

Lemma cache_set_then_get_witness :
  exists c',
    Cache.set nat 1 (Py.lit "q") 7%nat (Cache.init nat 2) = Py.Ok c'
    /\ snd (Cache.get nat 2 (Py.lit "q") c') = Some 7%nat.
Proof.
  eexists. split; [reflexivity |].
  exact (proj1 (cache_set_then_get nat 1 2 (Py.lit "q") 7%nat
                  (Cache.init nat 2) _ eq_refl)).
Defined.

(** On a cache reached from [Cache(max_size)], [max_size >= 1], that holds
    [max_size] entries, [set] removes the entry whose access time is the
    least, and no other entry, before it stores its key. *)
Theorem cache_full_set_evicts_least_recent
  (V : Type) (max_size : Z) (ops : list (Cache.op V)) (c : Cache.t V)
  (now : Z) (key : Py.str) (value : V) :
  1 <= max_size ->
  Cache.run V ops (Cache.init V max_size) = Py.Ok c ->
  Cache.size V c = max_size ->
  exists c' oldest_key t,
    Cache.set V now key value c = Py.Ok c'
    /\ Cache.getitem (Cache.access_times c) oldest_key = Py.Ok t
    /\ (forall k w, Cache.getitem (Cache.access_times c) k = Py.Ok w -> t <= w)
    /\ forall k, In k (Cache.keys (Cache.cache c'))
                 <-> (In k (Cache.keys (Cache.cache c)) /\ k <> oldest_key)
                     \/ k = key.
Proof.
  intros Hm Hr Hfull.
  assert (Hinit : cache_inv (Cache.init V max_size)).
  { unfold cache_inv, Cache.init.
    cbn [Cache.cache Cache.access_times Cache.max_size Cache.keys List.map].
    split; [reflexivity |]. split; [apply NoDup_nil_2 |].
    unfold Py.len. cbn [List.length]. lia. }
  destruct (run_inv V ops _ Hinit Hm) as (c0 & Hr0 & Hinv & Hms).
  rewrite Hr in Hr0. injection Hr0 as <-.
  cbn [Cache.max_size Cache.init] in Hms.
  destruct (set_full_evicts_oldest V now key value c Hinv ltac:(lia)
              ltac:(unfold Cache.size in Hfull; lia))
    as (c' & k0 & t & Hs & Ht & Hall & Hiff).
  exists c', k0, t. split; [exact Hs |]. split; [exact Ht |].
  split; [| exact Hiff].
  intros k w Hw. apply (Hall k w Hw). exact (getitem_ok_in k _ w Hw).
Qed.

Lemma cache_full_set_evicts_least_recent_witness :
  exists c c',
    Cache.run nat
      [Cache.Set_ 1 (Py.lit "a") 10%nat; Cache.Set_ 2 (Py.lit "b") 20%nat;
       Cache.Get_ 3 (Py.lit "a")]
      (Cache.init nat 2) = Py.Ok c
    /\ Cache.set nat 4 (Py.lit "c") 30%nat c = Py.Ok c'
    /\ Cache.keys (Cache.cache c') = [Py.lit "a"; Py.lit "c"].
Proof.
  eexists.
  destruct (cache_full_set_evicts_least_recent nat 2
              [Cache.Set_ 1 (Py.lit "a") 10%nat;
               Cache.Set_ 2 (Py.lit "b") 20%nat; Cache.Get_ 3 (Py.lit "a")]
              _ 4 (Py.lit "c") 30%nat ltac:(lia) eq_refl eq_refl)
    as (c' & _ & _ & Hs & _).
  exists c'. split; [reflexivity |]. split; [exact Hs |].
  vm_compute in Hs. injection Hs as <-. reflexivity.
Defined.

(** On a cache reached from [Cache(max_size)], [max_size >= 1], a [get] of
    a present key at a clock reading later than every recorded access
    keeps that key in the cache through the next [set], whenever the cache
    holds another entry to evict. *)
Theorem cache_get_saves_from_next_set
  (V : Type) (max_size : Z) (ops : list (Cache.op V)) (c c' : Cache.t V)
  (now now' : Z) (key other key' : Py.str) (value : V) :
  1 <= max_size ->
  Cache.run V ops (Cache.init V max_size) = Py.Ok c ->
  In key (Cache.keys (Cache.cache c)) ->
  In other (Cache.keys (Cache.cache c)) -> other <> key ->
  (forall k w, Cache.getitem (Cache.access_times c) k = Py.Ok w -> w < now) ->
  Cache.set V now' key' value (fst (Cache.get V now key c)) = Py.Ok c' ->
  In key (Cache.keys (Cache.cache c')).
Proof.
  intros Hm Hr Hkey Hother Hne Hclock Hset.
  assert (Hinit : cache_inv (Cache.init V max_size)).
  { unfold cache_inv, Cache.init.
    cbn [Cache.cache Cache.access_times Cache.max_size Cache.keys List.map].
    split; [reflexivity |]. split; [apply NoDup_nil_2 |].
    unfold Py.len. cbn [List.length]. lia. }
  destruct (run_inv V ops _ Hinit Hm) as (c0 & Hr0 & Hinv & _).
  rewrite Hr in Hr0. injection Hr0 as <-.
  unfold Cache.set in Hset.
  set (c1 := fst (Cache.get V now key c)) in *.
  destruct (Cache.max_size c1 <=? Py.len (Cache.cache c1)).
  - destruct (Cache.evict V c1) as [c2 |] eqn:Ev; [| discriminate].
    cbn [Py.bind] in Hset. injection Hset as <-. cbn [Cache.cache].
    apply keys_setitem_incl.
    exact (get_protects V now key other c c2 Hinv Hkey Hother Hne Hclock Ev).
  - cbn [Py.bind] in Hset. injection Hset as <-. cbn [Cache.cache].
    apply keys_setitem_incl.
    destruct (get_inv V now key c Hinv) as (_ & _ & Hk). fold c1 in Hk.
    now rewrite Hk.
Qed.

Lemma cache_get_saves_from_next_set_witness :
  exists c c',
    Cache.run nat
      [Cache.Set_ 1 (Py.lit "a") 10%nat; Cache.Set_ 2 (Py.lit "b") 20%nat]
      (Cache.init nat 2) = Py.Ok c
    /\ Cache.set nat 4 (Py.lit "c") 30%nat
         (fst (Cache.get nat 3 (Py.lit "a") c)) = Py.Ok c'
    /\ In (Py.lit "a") (Cache.keys (Cache.cache c')).
Proof.
  eexists. eexists. split; [reflexivity |]. split; [reflexivity |].
  refine (cache_get_saves_from_next_set nat 2
            [Cache.Set_ 1 (Py.lit "a") 10%nat;
             Cache.Set_ 2 (Py.lit "b") 20%nat]
            _ _ 3 4 (Py.lit "a") (Py.lit "b") (Py.lit "c") 30%nat
            ltac:(lia) eq_refl _ _ _ _ eq_refl).
  - vm_compute. now left.
  - vm_compute. right. now left.
  - vm_compute. discriminate.
  - apply getitem_bound. vm_compute. repeat constructor.
Defined.

(** A cache built with [max_size <= 0] can store nothing: its first [set]
    raises [ValueError] from [min] over the empty access-time dictionary. *)
Theorem cache_nonpositive_capacity_set_raises
  (V : Type) (max_size now : Z) (key : Py.str) (value : V) :
  max_size <= 0 ->
  Cache.set V now key value (Cache.init V max_size)
  = Py.Raise (Py.Exn "ValueError" (Py.lit "min() arg is an empty sequence")).
Proof.
  intros H. unfold Cache.set, Cache.init. cbn [Cache.max_size Cache.cache].
  assert (E : (max_size <=? Py.len (@nil (Py.str * V))) = true)
    by (apply Z.leb_le; unfold Py.len; cbn [List.length]; lia).
  rewrite E. reflexivity.
Qed.

Lemma cache_nonpositive_capacity_set_raises_witness :
  0 <= 0
  /\ Cache.set nat 1 (Py.lit "q") 7%nat (Cache.init nat 0)
     = Py.Raise (Py.Exn "ValueError" (Py.lit "min() arg is an empty sequence")).
Proof.
  split; [lia |].
  apply (cache_nonpositive_capacity_set_raises nat 0 1 (Py.lit "q") 7%nat).
  lia.
Defined.

Section CacheFill.
Import Py Cache.

Variable V : Type.

Lemma keys_stored (entries : list (Z * str * V)) :
  keys (stored entries) = List.map (fun e => snd (fst e)) entries.
Proof. unfold keys, stored. rewrite List.map_map. reflexivity. Qed.

Lemma keys_stamped (entries : list (Z * str * V)) :
  keys (stamped entries) = List.map (fun e => snd (fst e)) entries.
Proof. unfold keys, stamped. rewrite List.map_map. reflexivity. Qed.

Lemma setitem_fresh {A} (key : str) (a : A) (d : dict A) :
  ~ In key (keys d) -> setitem key a d = d ++ [(key, a)].
Proof.
  induction d as [|[k b] d IH]; cbn [setitem keys List.map fst In app];
    [reflexivity |].
  intros H. destruct (decide (k = key)) as [E | _]; [tauto |].
  f_equal. apply IH. tauto.
Qed.

Lemma keys_app {A} (d1 d2 : dict A) : keys (d1 ++ d2) = keys d1 ++ keys d2.
Proof. unfold keys. apply List.map_app. Qed.

(** Below capacity, distinct new keys are appended in order. *)
Lemma run_sets_fill (ms : Z) (entries : list (Z * str * V)) :
  forall d1 d2,
    keys d1 = keys d2 ->
    NoDup (keys d1 ++ List.map (fun e => snd (fst e)) entries) ->
    len d1 + len entries <= ms ->
    run V (sets entries) (Build V ms d1 d2)
    = Ok (Build V ms (d1 ++ stored entries) (d2 ++ stamped entries)).
Proof.
  induction entries as [|[[now key] value] entries IH]; intros d1 d2 Hk Hnd Hl.
  - cbn. now rewrite !app_nil_r.
  - cbn [sets List.map run step fst snd].
    rewrite set_below_capacity
      by (cbn [cache max_size]; unfold len in *; cbn [List.length] in Hl; lia).
    cbn [bind cache access_times max_size].
    assert (Hfresh : ~ In key (keys d1)).
    { cbn [List.map fst snd] in Hnd. apply NoDup_app in Hnd as (_ & Hd & _).
      intros Hin. apply (Hd key); [now apply list_elem_of_In |].
      apply list_elem_of_In. now left. }
    rewrite (setitem_fresh key value d1 Hfresh).
    rewrite (setitem_fresh key now d2) by (now rewrite <- Hk).
    fold (sets entries).
    rewrite IH.
    + cbn [stored stamped List.map fst snd]. now rewrite <- !app_assoc.
    + now rewrite !keys_app, Hk.
    + rewrite keys_app. cbn [keys List.map fst]. rewrite <- app_assoc.
      exact Hnd.
    + unfold len in *. rewrite length_app. cbn [List.length] in *. lia.
Qed.

Lemma min_loop_keep (f : str -> result Z) (best : str) (best_key : Z)
  (l : list str) :
  (forall k, In k l -> exists v, f k = Ok v /\ best_key <= v) ->
  min_loop f best best_key l = Ok best.
Proof.
  induction l as [|k l IH]; intros H; cbn [min_loop]; [reflexivity |].
  destruct (H k (or_introl eq_refl)) as (v & -> & Hv). cbn [bind].
  replace (v <? best_key) with false by lia.
  apply IH. intros k' Hk'. apply H. now right.
Qed.

Lemma getitem_in_pair {A} (key : str) (d : dict A) :
  In key (keys d) -> exists a, getitem d key = Ok a /\ In (key, a) d.
Proof.
  induction d as [|[k a] d IH]; cbn [getitem keys List.map fst In]; [tauto |].
  destruct (decide (k = key)) as [-> | Hne].
  - intros _. exists a. split; [reflexivity | now left].
  - intros [? | H]; [tauto |]. destruct (IH H) as (b & Hb & Hin).
    exists b. split; [exact Hb | now right].
Qed.

(** When the first entry carries the least access time, it is the one
    [min] picks. *)
Lemma py_min_head (k0 : str) (t0 : Z) (d : dict Z) :
  ~ In k0 (keys d) ->
  Forall (fun p => t0 <= snd p) d ->
  py_min (keys ((k0, t0) :: d)) (getitem ((k0, t0) :: d)) = Ok k0.
Proof.
  intros Hk Hd. cbn [keys List.map fst py_min getitem].
  rewrite decide_True by reflexivity. cbn [bind].
  apply min_loop_keep. intros k Hin.
  assert (Hne : k0 <> k) by (intros ->; exact (Hk Hin)).
  cbn [getitem]. rewrite decide_False by exact Hne.
  destruct (getitem_in_pair k d Hin) as (v & Hv & Hp).
  exists v. split; [exact Hv |].
  rewrite List.Forall_forall in Hd. exact (Hd (k, v) Hp).
Qed.

End CacheFill.

(** Inserting [max_size + 1] distinct keys into a fresh cache, at strictly
    increasing clock readings, evicts the first key and no other: the
    cache ends with the remaining [max_size] keys, in insertion order. *)
Theorem cache_insert_distinct_evicts_first
  (V : Type) (max_size : Z) (entries : list (Z * Py.str * V)) :
  1 <= max_size ->
  Py.len entries = max_size + 1 ->
  NoDup (List.map (fun e => snd (fst e)) entries) ->
  StronglySorted Z.lt (List.map (fun e => fst (fst e)) entries) ->
  exists c,
    Cache.run V (sets entries) (Cache.init V max_size) = Py.Ok c
    /\ Cache.keys (Cache.cache c)
       = List.tl (List.map (fun e => snd (fst e)) entries)
    /\ Cache.size V c = max_size.
Proof.
  intros Hm Hlen Hnd Hs.
  destruct (exists_last (l := entries)) as (front & [[now key] value] & ->).
  { intros ->. unfold Py.len in Hlen. cbn in Hlen. lia. }
  assert (Hfl : Py.len front = max_size).
  { unfold Py.len in *. rewrite length_app in Hlen. cbn [List.length] in Hlen.
    lia. }
  unfold sets. rewrite List.map_app. fold (sets front).
  cbn [List.map fst snd].
  assert (Hrun : forall ops ops' (c : Cache.t V),
             Cache.run V (ops ++ ops') c
             = Py.bind (Cache.run V ops c) (Cache.run V ops')).
  { induction ops as [|o ops IH]; intros ops' c; cbn [app Cache.run];
      [reflexivity |].
    destruct (Cache.step V c o); cbn [Py.bind]; [apply IH | reflexivity]. }
  rewrite Hrun.
  rewrite List.map_app in Hnd, Hs. cbn [List.map fst snd] in Hnd, Hs.
  unfold Cache.init.
  rewrite (run_sets_fill V max_size front [] []);
    [| reflexivity
     | cbn [Cache.keys List.map app];
       apply NoDup_app in Hnd as (Hnd & _ & _); exact Hnd
     | unfold Py.len in *; cbn [List.length]; lia ].
  cbn [Py.bind app Cache.run Cache.step].
  destruct front as [|[[t0 k0] v0] front].
  { unfold Py.len in Hfl. cbn in Hfl. lia. }
  cbn [List.map fst snd app] in Hnd, Hs.
  apply NoDup_cons in Hnd as [Hk0 Hnd].
  apply StronglySorted_inv in Hs as [_ Hs0].
  assert (Hmin : Cache.py_min
                   (Cache.keys (stamped ((t0, k0, v0) :: front)))
                   (Cache.getitem (stamped ((t0, k0, v0) :: front)))
                 = Py.Ok k0).
  { cbn [stamped List.map fst snd]. fold (stamped front).
    apply py_min_head.
    - rewrite keys_stamped. intros Hin. apply Hk0.
      apply list_elem_of_In, in_or_app. now left.
    - unfold stamped. apply List.Forall_forall. intros p Hp.
      apply in_map_iff in Hp as (e & <- & He). cbn [snd].
      rewrite List.Forall_forall in Hs0.
      assert (t0 < fst (fst e)); [| lia].
      apply Hs0, in_or_app. left. apply in_map_iff. now exists e. }
  unfold Cache.set, Cache.evict.
  cbn [Cache.max_size Cache.cache Cache.access_times].
  replace (max_size <=? Py.len (stored ((t0, k0, v0) :: front)))
    with true
    by (unfold Py.len, stored in *; rewrite length_map; lia).
  rewrite Hmin. cbn [Py.bind stored stamped List.map fst snd Cache.delitem].
  rewrite !decide_True by reflexivity.
  cbn [Py.bind Cache.max_size Cache.cache Cache.access_times].
  fold (stored front). fold (stamped front).
  assert (Hfresh : ~ In key (List.map (fun e => snd (fst e)) front)).
  { apply NoDup_app in Hnd as (_ & Hd & _). intros Hin.
    apply (Hd key); apply list_elem_of_In; [exact Hin | now left]. }
  eexists. split; [reflexivity |].
  cbn [Cache.cache Cache.size].
  rewrite (setitem_fresh key value (stored front))
    by (now rewrite keys_stored).
  split.
  - rewrite keys_app, keys_stored. cbn [app List.map List.tl].
    rewrite List.map_app. reflexivity.
  - unfold Cache.size. cbn [Cache.cache].
    unfold Py.len, stored in *. rewrite length_app, length_map.
    cbn [List.length] in *. lia.
Qed.

Lemma cache_insert_distinct_evicts_first_witness :
  exists c,
    Cache.run nat
      (sets [(1, Py.lit "a", 10%nat); (2, Py.lit "b", 20%nat);
                 (3, Py.lit "c", 30%nat)])
      (Cache.init nat 2) = Py.Ok c
    /\ Cache.keys (Cache.cache c) = [Py.lit "b"; Py.lit "c"].
Proof.
  destruct (cache_insert_distinct_evicts_first nat 2
              [(1, Py.lit "a", 10%nat); (2, Py.lit "b", 20%nat);
               (3, Py.lit "c", 30%nat)]) as (c & Hr & Hk & _).
  - lia.
  - reflexivity.
  - repeat constructor; vm_compute; intros H;
      repeat (apply elem_of_cons in H as [H | H]; [discriminate |]);
      now apply elem_of_nil in H.
  - repeat constructor.
  - exists c. split; [exact Hr | exact Hk].
Defined.

(** ** The index builder *)

Lemma build_index_touches_only_artifacts_aux
  (F faiss_index : Type)
  (IndexFlatL2 : Z -> Py.result faiss_index)
  (index_add : faiss_index -> list (list F) -> Py.result faiss_index)
  (write_index : faiss_index -> list N)
  (chunks : list Py.str) (embeddings : list (list F))
  (s s' : BuildFaissIndex.fs) (e : Py.exn) :
  BuildFaissIndex.build_index F faiss_index IndexFlatL2 index_add
    write_index chunks embeddings s = (Py.Raise e, s') ->
  s' = s.
Proof.
  unfold BuildFaissIndex.build_index.
  destruct chunks as [|c chunks];
    [destruct embeddings; intros H; injection H as _ <-; reflexivity |].
  destruct embeddings as [|e0 rest];
    [intros H; injection H as _ <-; reflexivity |].
  destruct (negb (Py.len (c :: chunks) =? Py.len (e0 :: rest)));
    [intros H; injection H as _ <-; reflexivity |].
  destruct (BuildFaissIndex.make_index F faiss_index IndexFlatL2 index_add
              (Py.len e0) (e0 :: rest));
    intros H; [discriminate | injection H as _ <-; reflexivity].
Qed.



(** When two embeddings differ in length, [build_index] raises and writes
    nothing: [np.vstack] refuses the rows unless the index constructor has
    already refused the dimension. *)
Theorem build_index_dimension_mismatch
  (F faiss_index : Type)
  (IndexFlatL2 : Z -> Py.result faiss_index)
  (index_add : faiss_index -> list (list F) -> Py.result faiss_index)
  (write_index : faiss_index -> list N)
  (chunks : list Py.str) (e0 : list F) (rest : list (list F))
  (s : BuildFaissIndex.fs) :
  Exists (fun e => List.length e <> List.length e0) rest ->
  exists e,
    BuildFaissIndex.build_index F faiss_index IndexFlatL2 index_add
      write_index chunks (e0 :: rest) s = (Py.Raise e, s).
Proof.
  intros Hex. unfold BuildFaissIndex.build_index.
  destruct chunks as [|c chunks]; [now eexists |].
  destruct (negb (Py.len (c :: chunks) =? Py.len (e0 :: rest)));
    [now eexists |].
  unfold BuildFaissIndex.make_index.
  destruct (IndexFlatL2 (Py.len e0)) as [index | e]; cbn [Py.bind];
    [| now eexists].
  assert (Hv : forallb (fun e => Py.len e =? Py.len e0) rest = false).
  { apply not_true_is_false. intros Hall.
    rewrite forallb_forall in Hall.
    apply List.Exists_exists in Hex as (e & Hin & Hne).
    specialize (Hall e Hin). unfold Py.len in Hall. lia. }
  cbn [BuildFaissIndex.vstack]. rewrite Hv. cbn [Py.bind]. now eexists.
Qed.

Lemma build_index_dimension_mismatch_witness :
  exists e,
    BuildFaissIndex.build_index nat unit (fun _ => Py.Ok tt)
      (fun _ _ => Py.Ok tt) (fun _ => [1%N])
      [Py.lit "EMI"; Py.lit "KYC"] [[1%nat; 2%nat]; [3%nat]]
      (BuildFaissIndex.Fs ∅ ∅)
    = (Py.Raise e, BuildFaissIndex.Fs ∅ ∅).
Proof.
  apply (build_index_dimension_mismatch nat unit (fun _ => Py.Ok tt)
           (fun _ _ => Py.Ok tt) (fun _ => [1%N])
           [Py.lit "EMI"; Py.lit "KYC"] [1%nat; 2%nat] [[3%nat]]
           (BuildFaissIndex.Fs ∅ ∅)).
  constructor. cbn. lia.
Defined.

(** ** Embedding the chunks *)

Section EmbedFacts.
Import Py BuildPipeline.

Lemma slice_window {A} (l : list A) (off : nat) :
  (off <= List.length l)%nat ->
  slice l (Z.of_nat off) (Z.of_nat off + 10) = firstn 10 (skipn off l).
Proof.
  intros H. unfold slice, adjust, len.
  replace (Z.of_nat off <? 0) with false by lia.
  replace (Z.of_nat off + 10 <? 0) with false by lia.
  replace (Z.to_nat (Z.min (Z.of_nat off) (Z.of_nat (List.length l))))
    with off by lia.
  destruct (Z.le_gt_cases (Z.of_nat off + 10) (Z.of_nat (List.length l))).
  - f_equal. lia.
  - rewrite !firstn_all2; [reflexivity | |]; rewrite length_skipn; lia.
Qed.

Variable client : Type.
Variable F : Type.
Variable embeddings_create : client -> list str -> result (list (list F)).

(** The loop sends the chunks from [off] on in consecutive batches of one
    to ten, and returns the responses appended in that order. *)
Lemma embed_batches_spec (c : client) (chunks : list str) (count : nat) :
  forall off acc embeddings,
    ((0 < count)%nat ->
     Z.of_nat off + 10 * (Z.of_nat count - 1) < len chunks) ->
    len chunks <= Z.of_nat off + 10 * Z.of_nat count ->
    embed_batches client F embeddings_create c chunks
      (PyLib.range_from count (Z.of_nat off) 10) acc = Ok embeddings ->
    exists batches responses,
      concat batches = skipn off chunks
      /\ Forall (fun b => (1 <= List.length b <= 10)%nat) batches
      /\ Forall2 (fun b r => embeddings_create c b = Ok r) batches responses
      /\ embeddings = acc ++ concat responses.
Proof.
  induction count as [|count IH]; intros off acc embeddings Hlo Hhi.
  - cbn [PyLib.range_from embed_batches]. intros H. injection H as <-.
    exists [], []. cbn [concat]. rewrite app_nil_r.
    repeat split; try constructor.
    symmetry. apply skipn_all2. unfold len in Hhi. lia.
  - cbn [PyLib.range_from embed_batches].
    assert (Hoff : (off < List.length chunks)%nat)
      by (unfold len in Hlo; lia).
    rewrite slice_window by lia.
    destruct (embeddings_create c (firstn 10 (skipn off chunks)))
      as [r | e] eqn:Er; cbn [try_except bind]; [| discriminate].
    replace (Z.of_nat off + 10) with (Z.of_nat (off + 10)) by lia.
    intros H.
    destruct (IH (off + 10)%nat (acc ++ r) embeddings) as
      (batches & responses & Hc & Hb & Hr & He); [lia | lia | exact H |].
    exists (firstn 10 (skipn off chunks) :: batches), (r :: responses).
    split; [| split; [| split]].
    + cbn [concat]. rewrite Hc.
      rewrite <- (firstn_skipn 10 (skipn off chunks)) at 2.
      f_equal. rewrite skipn_skipn. f_equal. lia.
    + constructor; [| exact Hb].
      rewrite length_firstn, length_skipn. lia.
    + constructor; [exact Er | exact Hr].
    + rewrite He. cbn [concat]. now rewrite <- app_assoc.
Qed.

Lemma range_count (n : Z) :
  0 < n ->
  ((0 < Z.to_nat ((n - 0 + 10 - 1) / 10))%nat ->
   Z.of_nat 0 + 10 * (Z.of_nat (Z.to_nat ((n - 0 + 10 - 1) / 10)) - 1) < n)
  /\ n <= Z.of_nat 0 + 10 * Z.of_nat (Z.to_nat ((n - 0 + 10 - 1) / 10)).
Proof.
  intros Hn.
  pose proof (Z.div_mod (n - 0 + 10 - 1) 10 ltac:(lia)).
  pose proof (Z.mod_pos_bound (n - 0 + 10 - 1) 10 ltac:(lia)).
  assert (0 <= (n - 0 + 10 - 1) / 10) by (apply Z.div_pos; lia).
  split; [intros _ |]; lia.
Qed.

Variable env : gmap string string.
Variable AzureOpenAI : result client.

Lemma embed_chunks_spec (chunks : list str) (embeddings : list (list F)) :
  embed_chunks env client AzureOpenAI F embeddings_create chunks
  = Ok embeddings ->
  exists c batches responses,
    get_azure_client env client AzureOpenAI = Some c
    /\ chunks <> []
    /\ concat batches = chunks
    /\ Forall (fun b => (1 <= List.length b <= 10)%nat) batches
    /\ Forall2 (fun b r => embeddings_create c b = Ok r) batches responses
    /\ embeddings = concat responses.
Proof.
  unfold embed_chunks.
  destruct chunks as [|x chunks]; [discriminate |].
  destruct (get_azure_client env client AzureOpenAI) as [c |];
    [| discriminate].
  unfold PyLib.range. intros H.
  assert (Hn : 0 < len (x :: chunks))
    by (unfold len; cbn [List.length]; lia).
  destruct (range_count (len (x :: chunks)) Hn) as [Hlo Hhi].
  destruct (embed_batches_spec c (x :: chunks) _ 0%nat [] embeddings Hlo Hhi H)
    as (batches & responses & Hc & Hb & Hr & He).
  exists c, batches, responses.
  split; [reflexivity |]. split; [discriminate |].
  split; [exact Hc |]. split; [exact Hb |]. split; [exact Hr | exact He].
Qed.

Lemma Forall2_concat_length {A B} (P : list A -> list B -> Prop)
  (xs : list (list A)) (ys : list (list B)) :
  (forall x y, P x y -> List.length y = List.length x) ->
  Forall2 P xs ys ->
  List.length (concat ys) = List.length (concat xs).
Proof.
  intros HP. induction 1 as [|x y xs ys Hxy _ IH]; cbn [concat];
    [reflexivity |].
  rewrite !length_app, IH, (HP x y Hxy). reflexivity.
Qed.

End EmbedFacts.

(** When [embed_chunks] succeeds, the chunks were sent to the embedding
    service in consecutive batches of one to ten texts, in order and each
    chunk once, and the result is the responses appended in the order of
    the batches. *)
Theorem embed_chunks_batches_in_order
  (env : gmap string string) (client : Type) (AzureOpenAI : Py.result client)
  (F : Type)
  (embeddings_create : client -> list Py.str -> Py.result (list (list F)))
  (chunks : list Py.str) (embeddings : list (list F)) :
  BuildPipeline.embed_chunks env client AzureOpenAI F embeddings_create chunks
  = Py.Ok embeddings ->
  exists c batches responses,
    BuildPipeline.get_azure_client env client AzureOpenAI = Some c
    /\ concat batches = chunks
    /\ Forall (fun b => (1 <= List.length b <= 10)%nat) batches
    /\ Forall2 (fun b r => embeddings_create c b = Py.Ok r) batches responses
    /\ embeddings = concat responses.
Proof.
  intros H.
  destruct (embed_chunks_spec client F embeddings_create env AzureOpenAI
              chunks embeddings H)
    as (c & batches & responses & Hc & _ & Hb & Hl & Hr & He).
  exists c, batches, responses. repeat split; assumption.
Qed.

Lemma embed_chunks_batches_in_order_witness :
  exists c batches responses,
    BuildPipeline.get_azure_client full_env unit (Py.Ok tt) = Some c
    /\ concat batches = List.repeat (Py.lit "EMI") 12
    /\ Forall (fun b => (1 <= List.length b <= 10)%nat) batches
    /\ Forall2 (fun b r => List.map (fun _ => [1%nat]) b = r) batches responses
    /\ List.repeat [1%nat] 12 = concat responses.
Proof.
  destruct (embed_chunks_batches_in_order full_env unit (Py.Ok tt) nat
              (fun _ b => Py.Ok (List.map (fun _ => [1%nat]) b))
              (List.repeat (Py.lit "EMI") 12) (List.repeat [1%nat] 12))
    as (c & batches & responses & Hc & Hb & Hl & Hr & He).
  - vm_compute. reflexivity.
  - exists c, batches, responses.
    split; [exact Hc |]. split; [exact Hb |]. split; [exact Hl |].
    split; [| exact He].
    clear - Hr. induction Hr as [|b r bs rs Hbr _ IH];
      [constructor 1 | constructor 2; [| exact IH]].
    now injection Hbr.
Defined.

(** When the embedding service returns one vector for every text of a
    request, a successful [embed_chunks] returns exactly as many
    embeddings as there are chunks. *)
Theorem embed_chunks_one_vector_per_chunk
  (env : gmap string string) (client : Type) (AzureOpenAI : Py.result client)
  (F : Type)
  (embeddings_create : client -> list Py.str -> Py.result (list (list F)))
  (chunks : list Py.str) (embeddings : list (list F)) :
  (forall c batch vectors,
     embeddings_create c batch = Py.Ok vectors ->
     List.length vectors = List.length batch) ->
  BuildPipeline.embed_chunks env client AzureOpenAI F embeddings_create chunks
  = Py.Ok embeddings ->
  List.length embeddings = List.length chunks.
Proof.
  intros Hlaw H.
  destruct (embed_chunks_spec client F embeddings_create env AzureOpenAI
              chunks embeddings H)
    as (c & batches & responses & _ & _ & <- & _ & Hr & ->).
  apply (Forall2_concat_length
           (fun b r => embeddings_create c b = Py.Ok r)); [| exact Hr].
  intros x y. apply Hlaw.
Qed.

Lemma embed_chunks_one_vector_per_chunk_witness :
  List.length (List.repeat [1%nat] 12)
  = List.length (List.repeat (Py.lit "EMI") 12).
Proof.
  apply (embed_chunks_one_vector_per_chunk full_env unit (Py.Ok tt) nat
           (fun _ b => Py.Ok (List.map (fun _ => [1%nat]) b))).
  - intros c batch vectors H. injection H as <-. apply length_map.
  - vm_compute. reflexivity.
Defined.



(** ** Loading the index and retrieving *)

Section StoreLines.
Import Py Json.

Lemma forallb_Forall {A} (f : A -> bool) (P : A -> Prop) (l : list A) :
  (forall x, f x = true -> P x) -> forallb f l = true -> Forall P l.
Proof.
  intros HP H. apply List.Forall_forall. intros x Hx.
  rewrite forallb_forall in H. exact (HP x (H x Hx)).
Qed.

Lemma printable_check (l : list N) :
  forallb (fun b => (32 <=? b) && (b <=? 126))%N l = true ->
  Forall printable l.
Proof.
  apply forallb_Forall. intros x H. unfold printable.
  apply andb_true_iff in H as [H1 H2].
  apply N.leb_le in H1, H2. lia.
Qed.

Lemma hex_digit_printable (d : N) : (d < 16)%N -> printable (hex_digit d).
Proof.
  intros H. unfold printable, hex_digit. destruct (d <? 10)%N eqn:E; lia.
Qed.

(** [json.dumps] with [ensure_ascii] writes printable ASCII only. *)
Lemma escape_char_printable (c : N) : Forall printable (escape_char c).
Proof.
  assert (Hm : forall n, (n mod 16 < 16)%N)
    by (intros n; apply N.mod_upper_bound; lia).
  assert (Hu : forall n, Forall printable (u_escape n)).
  { intros n. unfold u_escape, hex4.
    apply Forall_app. split; [now apply printable_check |].
    repeat (constructor; [apply hex_digit_printable, Hm |]). constructor. }
  unfold escape_char.
  repeat match goal with
  | |- context [if (c =? ?k)%N then _ else _] =>
      destruct (c =? k)%N eqn:?; [now apply printable_check |]
  end.
  destruct ((32 <=? c) && (c <=? 126))%N eqn:E.
  - constructor; [| constructor].
    apply andb_true_iff in E as [E1 E2]. apply N.leb_le in E1, E2.
    unfold printable. lia.
  - destruct (c <? 65536)%N; [apply Hu |].
    apply Forall_app. split; apply Hu.
Qed.

Lemma dumps_str_printable (s : str) : Forall printable (dumps_str s).
Proof.
  unfold dumps_str.
  apply Forall_app. split; [now apply printable_check |].
  apply Forall_app. split; [| now apply printable_check].
  induction s as [|c s IH]; cbn [flat_map]; [constructor |].
  apply Forall_app. split; [apply escape_char_printable | exact IH].
Qed.

Lemma dumps_text_printable (chunk : str) : Forall printable (dumps_text chunk).
Proof.
  unfold dumps_text.
  apply Forall_app. split; [now apply printable_check |].
  apply Forall_app. split; [apply dumps_str_printable |].
  apply Forall_app. split; [now apply printable_check |].
  apply Forall_app. split; [apply dumps_str_printable |].
  now apply printable_check.
Qed.

Lemma translate_newlines_id (s : str) :
  Forall (fun b => b <> 13%N) s -> PyLib.translate_newlines s = s.
Proof.
  induction 1 as [|c s Hc _ IH]; cbn [PyLib.translate_newlines];
    [reflexivity |].
  replace (c =? 13)%N with false by (symmetry; now apply N.eqb_neq).
  now rewrite IH.
Qed.

Lemma lines_keepends_line (l rest : str) :
  Forall (fun b => b <> 10%N) l ->
  forall cur,
    PyLib.lines_keepends cur (l ++ 10%N :: rest)
    = (rev cur ++ l ++ [10%N]) :: PyLib.lines_keepends [] rest.
Proof.
  induction 1 as [|x l Hx _ IH]; intros cur; cbn [app PyLib.lines_keepends].
  - cbn [rev]. reflexivity.
  - replace (x =? 10)%N with false by (symmetry; now apply N.eqb_neq).
    rewrite IH. cbn [rev]. now rewrite <- app_assoc.
Qed.

(** Read back line by line, the chunk store gives the JSON object of each
    chunk followed by its line feed, in the order of the chunks. *)
Lemma readlines_chunks_jsonl (chunks : list str) :
  PyLib.readlines (BuildFaissIndex.chunks_jsonl chunks)
  = List.map (fun c => dumps_text c ++ [10%N]) chunks.
Proof.
  unfold PyLib.readlines.
  rewrite translate_newlines_id.
  - unfold BuildFaissIndex.chunks_jsonl.
    induction chunks as [|c chunks IH]; cbn [flat_map List.map];
      [reflexivity |].
    rewrite <- app_assoc. cbn [app].
    rewrite lines_keepends_line.
    + cbn [rev app]. now rewrite IH.
    + eapply Forall_impl; [apply dumps_text_printable |].
      unfold printable. intros b Hb. cbv beta in Hb. lia.
  - unfold BuildFaissIndex.chunks_jsonl.
    induction chunks as [|c chunks IH]; cbn [flat_map]; [constructor |].
    apply Forall_app. split; [| exact IH].
    apply Forall_app. split; [| constructor; [discriminate | constructor]].
    eapply Forall_impl; [apply dumps_text_printable |].
    unfold printable. intros b Hb. cbv beta in Hb. lia.
Qed.

End StoreLines.

Section LoadFacts.
Import Py.

(** An index inside the bounds selects the chunk at its position. *)
Lemma select_valid (chunks : list str) (indices : list Z) :
  Forall (fun idx => 0 <= idx < len chunks) indices ->
  RagUtils.select chunks indices
  = Ok (List.map (fun idx => nth (Z.to_nat idx) chunks []) indices).
Proof.
  induction 1 as [|idx indices Hi _ IH]; cbn [RagUtils.select List.map];
    [reflexivity |].
  replace (idx <? len chunks) with true by lia.
  unfold Py.getitem.
  replace (idx <? 0) with false by lia.
  replace ((idx <? 0) || (len chunks <=? idx)) with false by lia.
  destruct (nth_error chunks (Z.to_nat idx)) as [c |] eqn:E.
  - cbn [bind]. rewrite IH. cbn [bind].
    now rewrite (nth_error_nth _ _ _ E).
  - apply nth_error_None in E. unfold len in Hi. lia.
Qed.

Lemma select_from_store (chunks : list str) (indices : list Z) :
  forall results,
    RagUtils.select chunks indices = Ok results ->
    Forall (fun r => In r chunks) results
    /\ (List.length results <= List.length indices)%nat.
Proof.
  induction indices as [|idx indices IH]; intros results;
    cbn [RagUtils.select].
  - intros H. injection H as <-. split; [constructor | cbn; lia].
  - destruct (idx <? len chunks).
    + unfold Py.getitem.
      destruct ((_ <? 0) || _); cbn [bind]; [discriminate |].
      destruct (nth_error chunks _) as [c |] eqn:E; cbn [bind];
        [| discriminate].
      destruct (RagUtils.select chunks indices) as [rs |]; cbn [bind];
        [| discriminate].
      intros H. injection H as <-.
      destruct (IH rs eq_refl) as [Hf Hl].
      split; [| cbn [List.length]; lia].
      constructor; [| exact Hf]. exact (nth_error_In _ _ E).
    + intros H. destruct (IH results H) as [Hf Hl].
      split; [exact Hf | cbn [List.length]; lia].
Qed.

Variable faiss_index : Type.
Variable read_index : option (list N) -> result faiss_index.
Variable loads_text : str -> result str.

Lemma load_texts_round_trip (chunks : list str) :
  Forall (fun c => loads_text (Json.dumps_text c ++ [10%N]) = Ok c) chunks ->
  RagLoad.load_texts loads_text
    (List.map (fun c => Json.dumps_text c ++ [10%N]) chunks) = Ok chunks.
Proof.
  induction 1 as [|c chunks Hc _ IH]; cbn [List.map RagLoad.load_texts];
    [reflexivity |].
  rewrite Hc. cbn [bind]. rewrite IH. reflexivity.
Qed.

(** What [load_index_and_chunks] returns on a storage that holds the
    index bytes and the chunk store of [chunks]. *)
Lemma load_written (chunks : list str) (bytes : list N)
  (s : BuildFaissIndex.fs) :
  BuildFaissIndex.files s !! RagLoad.INDEX_FILE = Some bytes ->
  BuildFaissIndex.files s !! RagLoad.CHUNKS_FILE
  = Some (BuildFaissIndex.chunks_jsonl chunks) ->
  Forall (fun c => loads_text (Json.dumps_text c ++ [10%N]) = Ok c) chunks ->
  RagLoad.load_index_and_chunks faiss_index read_index loads_text s
  = bind (read_index (Some bytes)) (fun index => Ok (index, chunks)).
Proof.
  intros Hi Hc Hl. unfold RagLoad.load_index_and_chunks.
  assert (E1 : DataProcessor.path_exists RagLoad.INDEX_FILE s = true).
  { unfold DataProcessor.path_exists. rewrite Hi.
    rewrite bool_decide_eq_true_2 by (now eexists). reflexivity. }
  assert (E2 : DataProcessor.path_exists RagLoad.CHUNKS_FILE s = true).
  { unfold DataProcessor.path_exists. rewrite Hc.
    rewrite bool_decide_eq_true_2 by (now eexists). reflexivity. }
  assert (E3 : DataProcessor.read_text RagLoad.CHUNKS_FILE s
               = Ok (BuildFaissIndex.chunks_jsonl chunks))
    by (unfold DataProcessor.read_text, str; now rewrite Hc).
  rewrite E1, E2, E3, Hi. cbn [orb negb].
  destruct (read_index (Some bytes)) as [index | e]; cbn [bind try_except];
    [| reflexivity].
  rewrite readlines_chunks_jsonl, (load_texts_round_trip chunks Hl).
  reflexivity.
Qed.

Lemma build_index_files
  (F : Type)
  (IndexFlatL2 : Z -> result faiss_index)
  (index_add : faiss_index -> list (list F) -> result faiss_index)
  (write_index : faiss_index -> list N)
  (chunks : list str) (embeddings : list (list F))
  (s s1 : BuildFaissIndex.fs) :
  BuildFaissIndex.build_index F faiss_index IndexFlatL2 index_add
    write_index chunks embeddings s = (Ok tt, s1) ->
  exists index,
    BuildFaissIndex.files s1 !! RagLoad.INDEX_FILE = Some (write_index index)
    /\ BuildFaissIndex.files s1 !! RagLoad.CHUNKS_FILE
       = Some (BuildFaissIndex.chunks_jsonl chunks).
Proof.
  unfold BuildFaissIndex.build_index.
  destruct chunks as [|c chunks]; [destruct embeddings; discriminate |].
  destruct embeddings as [|e0 rest]; [discriminate |].
  destruct (negb (len (c :: chunks) =? len (e0 :: rest))); [discriminate |].
  destruct (BuildFaissIndex.make_index F faiss_index IndexFlatL2 index_add
              (len e0) (e0 :: rest)) as [index |]; [| discriminate].
  intros H. injection H as <-. exists index.
  unfold BuildFaissIndex.write_file. cbn [BuildFaissIndex.files].
  split; [| apply lookup_insert_eq].
  rewrite lookup_insert_ne by discriminate. apply lookup_insert_eq.
Qed.

End LoadFacts.

(** Build, then load: on the storage a successful [build_index] leaves,
    [load_index_and_chunks] returns the chunks that were built, in their
    order, together with the index read from the written bytes, provided
    the JSON decoder gives back the text of every line the builder
    wrote. *)
Theorem load_after_build_returns_chunks
  (F faiss_index : Type)
  (IndexFlatL2 : Z -> Py.result faiss_index)
  (index_add : faiss_index -> list (list F) -> Py.result faiss_index)
  (write_index : faiss_index -> list N)
  (read_index : option (list N) -> Py.result faiss_index)
  (loads_text : Py.str -> Py.result Py.str)
  (chunks : list Py.str) (embeddings : list (list F))
  (s s1 : BuildFaissIndex.fs) :
  BuildFaissIndex.build_index F faiss_index IndexFlatL2 index_add
    write_index chunks embeddings s = (Py.Ok tt, s1) ->
  Forall (fun c => loads_text (Json.dumps_text c ++ [10%N]) = Py.Ok c)
    chunks ->
  exists index,
    BuildFaissIndex.files s1 !! RagLoad.INDEX_FILE = Some (write_index index)
    /\ RagLoad.load_index_and_chunks faiss_index read_index loads_text s1
       = Py.bind (read_index (Some (write_index index)))
           (fun loaded => Py.Ok (loaded, chunks)).
Proof.
  intros Hb Hl.
  destruct (build_index_files faiss_index F IndexFlatL2 index_add write_index
              chunks embeddings s s1 Hb) as (index & Hi & Hc).
  exists index. split; [exact Hi |].
  exact (load_written faiss_index read_index loads_text chunks _ s1 Hi Hc Hl).
Qed.

Lemma load_after_build_returns_chunks_witness :
  exists s1,
    BuildFaissIndex.build_index nat unit (fun _ => Py.Ok tt)
      (fun _ _ => Py.Ok tt) (fun _ => [1%N])
      [Py.lit "EMI"] [[1%nat; 2%nat]] (BuildFaissIndex.Fs ∅ ∅)
    = (Py.Ok tt, s1)
    /\ RagLoad.load_index_and_chunks unit (fun _ => Py.Ok tt)
         (fun line =>
            if decide (line = Json.dumps_text (Py.lit "EMI") ++ [10%N])
            then Py.Ok (Py.lit "EMI") else Py.Raise Py.index_error) s1
       = Py.Ok (tt, [Py.lit "EMI"]).
Proof.
  eexists. split; [reflexivity |].
  destruct (load_after_build_returns_chunks nat unit (fun _ => Py.Ok tt)
              (fun _ _ => Py.Ok tt) (fun _ => [1%N]) (fun _ => Py.Ok tt)
              (fun line =>
                 if decide (line = Json.dumps_text (Py.lit "EMI") ++ [10%N])
                 then Py.Ok (Py.lit "EMI") else Py.Raise Py.index_error)
              [Py.lit "EMI"] [[1%nat; 2%nat]] (BuildFaissIndex.Fs ∅ ∅)
              _ eq_refl) as (index & _ & H).
  - constructor; [| constructor]. now rewrite decide_True.
  - exact H.
Defined.

(** When the index file or the chunk store is missing at import time,
    [load_index_and_chunks] raises [FileNotFoundError], the module keeps
    no index, and every query returns the single not-loaded placeholder. *)
Theorem missing_artifacts_degrade
  (env : gmap string string) (client vector faiss_index : Type)
  (AzureOpenAI : Py.result client)
  (embeddings_create : client -> Py.str -> Py.result vector)
  (search : faiss_index -> vector -> Z -> Py.result (list Z))
  (read_index : option (list N) -> Py.result faiss_index)
  (loads_text : Py.str -> Py.result Py.str)
  (s : BuildFaissIndex.fs) (query : Py.str) (top_k : Z) :
  DataProcessor.path_exists RagLoad.INDEX_FILE s = false
  \/ DataProcessor.path_exists RagLoad.CHUNKS_FILE s = false ->
  (exists msg,
     RagLoad.load_index_and_chunks faiss_index read_index loads_text s
     = Py.Raise (Py.Exn "FileNotFoundError" msg))
  /\ RagUtils.retrieve_similar_documents env client vector faiss_index
       AzureOpenAI embeddings_create search
       (RagLoad.module_globals faiss_index read_index loads_text s)
       query top_k
     = Py.Ok [RagUtils.not_loaded].
Proof.
  intros H.
  assert (E : negb (DataProcessor.path_exists RagLoad.INDEX_FILE s)
              || negb (DataProcessor.path_exists RagLoad.CHUNKS_FILE s)
              = true).
  { destruct H as [-> | ->]; [reflexivity |]. apply orb_true_r. }
  unfold RagLoad.module_globals, RagLoad.load_index_and_chunks.
  rewrite E. split; [now eexists | reflexivity].
Qed.

Lemma missing_artifacts_degrade_witness :
  RagUtils.retrieve_similar_documents full_env unit unit unit (Py.Ok tt)
    (fun _ _ => Py.Ok tt) padded_search
    (RagLoad.module_globals unit (fun _ => Py.Ok tt) (fun l => Py.Ok l)
       (BuildFaissIndex.Fs ∅ ∅))
    (Py.lit "What is EMI?") 5
  = Py.Ok [RagUtils.not_loaded].
Proof.
  apply (missing_artifacts_degrade full_env unit unit unit (Py.Ok tt)
           (fun _ _ => Py.Ok tt) padded_search (fun _ => Py.Ok tt)
           (fun l => Py.Ok l) (BuildFaissIndex.Fs ∅ ∅)).
  left. reflexivity.
Defined.

(** Whatever the search returns, a successful selection only contains
    texts of the chunk store, and at most one per returned index. *)
Theorem retrieve_results_come_from_store
  (chunks : list Py.str) (indices : list Z) (results : list Py.str) :
  RagUtils.select chunks indices = Py.Ok results ->
  Forall (fun r => In r chunks) results
  /\ (List.length results <= List.length indices)%nat.
Proof. apply select_from_store. Qed.

Lemma retrieve_results_come_from_store_witness :
  Forall (fun r => In r [Py.lit "alpha"; Py.lit "beta"])
    [Py.lit "beta"; Py.lit "alpha"]
  /\ (List.length [Py.lit "beta"; Py.lit "alpha"] <= List.length [1; 7; 0])%nat.
Proof.
  apply (retrieve_results_come_from_store [Py.lit "alpha"; Py.lit "beta"]
           [1; 7; 0]).
  reflexivity.
Defined.

(** When the index is loaded, the query embeds, and the search returns
    row indices that all lie in [0, len(chunks)), the call returns the
    chunks at exactly those rows, in the order of the search. *)
Theorem retrieve_returns_searched_rows
  (env : gmap string string) (client vector faiss_index : Type)
  (AzureOpenAI : Py.result client)
  (embeddings_create : client -> Py.str -> Py.result vector)
  (search : faiss_index -> vector -> Z -> Py.result (list Z))
  (index : faiss_index) (chunks : list Py.str) (query : Py.str) (top_k : Z)
  (v : vector) (idx : Z) (indices : list Z) :
  RagUtils.embed_query env client vector AzureOpenAI embeddings_create query
  = Py.Ok v ->
  search index v top_k = Py.Ok (idx :: indices) ->
  Forall (fun i => 0 <= i < Py.len chunks) (idx :: indices) ->
  RagUtils.retrieve_similar_documents env client vector faiss_index
    AzureOpenAI embeddings_create search
    (RagUtils.Globals (Some index) (Some chunks)) query top_k
  = Py.Ok (List.map (fun i => nth (Z.to_nat i) chunks []) (idx :: indices)).
Proof.
  intros He Hs Hv. unfold RagUtils.retrieve_similar_documents.
  cbn [RagUtils.index RagUtils.chunks].
  rewrite He. cbn [Py.bind]. rewrite Hs. cbn [Py.bind].
  rewrite (select_valid chunks (idx :: indices) Hv).
  reflexivity.
Qed.

Lemma retrieve_returns_searched_rows_witness :
  RagUtils.retrieve_similar_documents full_env unit unit unit (Py.Ok tt)
    (fun _ _ => Py.Ok tt) (fun _ _ _ => Py.Ok [1; 0])
    (RagUtils.Globals (Some tt) (Some [Py.lit "alpha"; Py.lit "beta"]))
    (Py.lit "What is EMI?") 2
  = Py.Ok [Py.lit "beta"; Py.lit "alpha"].
Proof.
  apply (retrieve_returns_searched_rows full_env unit unit unit (Py.Ok tt)
           (fun _ _ => Py.Ok tt) (fun _ _ _ => Py.Ok [1; 0]) tt
           [Py.lit "alpha"; Py.lit "beta"] (Py.lit "What is EMI?") 2 tt 1 [0]).
  - vm_compute. reflexivity.
  - reflexivity.
  - repeat constructor; vm_compute; discriminate.
Defined.



(** ** Loading the documents and the main program *)

Section PipelineFacts.
Import Py Value BuildPipeline.

Variable loads : str -> result value.
Variable str_other : value -> str.

(** The fuel [chunk_document] gives the chunker always suffices. *)
Lemma chunk_document_returns (full_text : str) :
  TextProcessor.chunk_text full_text BuildFaissIndex.CHUNK_SIZE
    BuildFaissIndex.CHUNK_OVERLAP (S (List.length full_text))
  = Some (chunk_document full_text).
Proof.
  unfold chunk_document, TextProcessor.chunk_text.
  destruct (len full_text <=? BuildFaissIndex.CHUNK_SIZE); [reflexivity |].
  destruct (chunk_loop_terminates full_text BuildFaissIndex.CHUNK_SIZE
              BuildFaissIndex.CHUNK_OVERLAP
              ltac:(unfold BuildFaissIndex.CHUNK_SIZE,
                      BuildFaissIndex.CHUNK_OVERLAP; lia)
              ltac:(vm_compute; discriminate)
              (S (List.length full_text)) 0 []) as [out ->];
    [unfold len; lia | reflexivity].
Qed.

Lemma chunk_document_bounded (full_text : str) :
  Forall (fun c => len c <= 300) (chunk_document full_text).
Proof.
  pose proof (chunk_document_returns full_text) as H.
  unfold TextProcessor.chunk_text in H.
  destruct (len full_text <=? BuildFaissIndex.CHUNK_SIZE) eqn:E.
  - injection H as <-. constructor; [| constructor].
    unfold BuildFaissIndex.CHUNK_SIZE in E. lia.
  - exact (chunk_loop_bounded full_text 300 BuildFaissIndex.CHUNK_OVERLAP
             _ 0 _ ltac:(lia) H).
Qed.

Lemma chunk_documents_Forall (P : str -> Prop) :
  (forall t, Forall P (chunk_document t)) ->
  forall documents all_chunks chunks,
    Forall P all_chunks ->
    chunk_documents str_other documents all_chunks = Ok chunks ->
    Forall P chunks.
Proof.
  intros HP documents.
  induction documents as [|doc documents IH]; intros all_chunks chunks Ha;
    cbn [chunk_documents].
  - intros H. injection H as <-. exact Ha.
  - destruct (Value.get doc (lit "title") (VStr [])) as [title |];
      cbn [bind]; [| discriminate].
    destruct (Value.get doc (lit "content") (VStr [])) as [content |];
      cbn [bind]; [| discriminate].
    apply IH. apply Forall_app. split; [exact Ha | apply HP].
Qed.

End PipelineFacts.

(** Every chunk [load_documents] returns, and so every text the builder
    sends to the embedding service, has at most 300 characters. *)
Theorem load_documents_chunk_length
  (loads : Py.str -> Py.result Value.value)
  (str_other : Value.value -> Py.str)
  (jsonl_path : string) (s : BuildFaissIndex.fs) (chunks : list Py.str) :
  BuildPipeline.load_documents loads str_other jsonl_path s = Py.Ok chunks ->
  Forall (fun c => Py.len c <= 300) chunks.
Proof.
  unfold BuildPipeline.load_documents.
  destruct (DataProcessor.load_jsonl loads jsonl_path s) as [documents |];
    cbn [Py.bind]; [| discriminate].
  apply chunk_documents_Forall; [apply chunk_document_bounded | constructor].
Qed.

Lemma load_documents_chunk_length_witness :
  Forall (fun c => Py.len c <= 300) [Py.lit "EMI" ++ [10%N] ++ Py.lit "A loan."].
Proof.
  apply (load_documents_chunk_length
           (fun _ => Py.Ok (Value.VDict
                              [(Py.lit "title", Value.VStr (Py.lit "EMI"));
                               (Py.lit "content", Value.VStr (Py.lit "A loan."))]))
           (fun _ => []) "data/banking_documents.jsonl"
           (BuildFaissIndex.Fs ∅
              {[ "data/banking_documents.jsonl"%string := Py.lit "{}" ]})).
  vm_compute. reflexivity.
Defined.


(** ** Configuration and the completion boundary *)

Section ConfigFacts.
Import Py.

Lemma missing_vars_nil (env : gmap string string) (names : list string) :
  List.filter (fun var => negb (bool_decide (is_Some (env !! var)))) names = []
  <-> Forall (fun var => is_Some (env !! var)) names.
Proof.
  induction names as [|n names IH]; cbn [List.filter].
  - split; [constructor | reflexivity].
  - destruct (bool_decide (is_Some (env !! n))) eqn:E; cbn [negb].
    + apply bool_decide_eq_true_1 in E. rewrite IH. split.
      * intros H. now constructor.
      * intros H. now apply Forall_cons in H as [_ H].
    + apply bool_decide_eq_false_1 in E. split; [discriminate |].
      intros H. apply Forall_cons in H as [H _]. contradiction.
Qed.

Lemma validate_config_ok (env : gmap string string) :
  Config.validate_config env = Ok tt
  <-> Forall (fun var => is_Some (env !! var)) Config.required_var_names.
Proof.
  rewrite <- missing_vars_nil. unfold Config.validate_config.
  destruct (List.filter _ Config.required_var_names);
    split; intros H; try reflexivity; discriminate.
Qed.

Lemma validate_config_unset (env : gmap string string) (var : string) :
  In var Config.required_var_names -> env !! var = None ->
  exists e, Config.validate_config env = Raise e.
Proof.
  intros Hin Hv.
  destruct (Config.validate_config env) as [[] | e] eqn:E; [| now eexists].
  apply validate_config_ok in E. rewrite List.Forall_forall in E.
  specialize (E var Hin). rewrite Hv in E. now destruct E.
Qed.

End ConfigFacts.

(** [validate_config] accepts an environment exactly when each of the
    eight required variables is set in it. *)
Theorem validate_config_accepts_iff_all_set (env : gmap string string) :
  Config.validate_config env = Py.Ok tt
  <-> Forall (fun var => is_Some (env !! var)) Config.required_var_names.
Proof. apply validate_config_ok. Qed.

(** One required environment variable left unset disables every client:
    [generate_llm] returns the invalid-configuration message, a query on a
    loaded index returns the single client-not-available error string,
    and [embed_chunks] raises [ValueError]. *)
Theorem unset_variable_disables_clients
  (env : gmap string string) (var : string)
  (client vector faiss_index F : Type)
  (AzureOpenAI : Py.result client)
  (create : client -> Py.str -> Py.str -> bool -> Py.result Llm.response)
  (embed_one : client -> Py.str -> Py.result vector)
  (embed_many : client -> list Py.str -> Py.result (list (list F)))
  (search : faiss_index -> vector -> Z -> Py.result (list Z))
  (index : faiss_index) (chunks : list Py.str)
  (prompt mode query : Py.str) (stream : bool) (top_k : Z)
  (text : Py.str) (texts : list Py.str) :
  In var Config.required_var_names -> env !! var = None ->
  Llm.generate_llm env client AzureOpenAI create prompt mode stream
  = Py.Ok Llm.invalid_configuration
  /\ RagUtils.retrieve_similar_documents env client vector faiss_index
       AzureOpenAI embed_one search
       (RagUtils.Globals (Some index) (Some chunks)) query top_k
     = Py.Ok [Py.lit "Error retrieving documents: "
              ++ Py.lit "Azure OpenAI client not available. Please check your configuration."]
  /\ BuildPipeline.embed_chunks env client AzureOpenAI F embed_many
       (text :: texts)
     = Py.Raise (Py.Exn "ValueError"
         (Py.lit "Azure OpenAI client not available. Please check your configuration.")).
Proof.
  intros Hin Hv.
  destruct (validate_config_unset env var Hin Hv) as [e He].
  split; [| split].
  - unfold Llm.generate_llm, Llm.get_azure_client. now rewrite He.
  - unfold RagUtils.retrieve_similar_documents, RagUtils.embed_query,
      RagUtils.get_azure_client.
    cbn [RagUtils.index RagUtils.chunks]. now rewrite He.
  - unfold BuildPipeline.embed_chunks, BuildPipeline.get_azure_client.
    now rewrite He.
Qed.

Lemma unset_variable_disables_clients_witness :
  Llm.generate_llm (delete "AZURE_EMBEDDING"%string full_env) unit (Py.Ok tt)
    (fun _ _ _ _ => Py.Ok (Llm.ChatCompletion [Some (Py.lit "ok")]))
    (Py.lit "p") (Py.lit "concise") false
  = Py.Ok Llm.invalid_configuration.
Proof.
  apply (unset_variable_disables_clients
           (delete "AZURE_EMBEDDING"%string full_env) "AZURE_EMBEDDING"
           unit unit unit nat (Py.Ok tt)
           (fun _ _ _ _ => Py.Ok (Llm.ChatCompletion [Some (Py.lit "ok")]))
           (fun _ _ => Py.Ok tt) (fun _ _ => Py.Ok []) (fun _ _ _ => Py.Ok [])
           tt [] (Py.lit "p") (Py.lit "concise") (Py.lit "q") false 5
           (Py.lit "t") []).
  - vm_compute. tauto.
  - apply lookup_delete_eq.
Defined.

Section StreamFacts.
Import Py Llm.

Lemma getitem_head {A} (x : A) (l : list A) : Py.getitem (x :: l) 0 = Ok x.
Proof. unfold Py.getitem, len. cbn. reflexivity. Qed.

Lemma consume_all (events : list (result (list (option str)))) :
  Forall has_choice events ->
  forall full_response,
    consume events full_response
    = Ok (full_response ++ concat (List.map first_delta events)).
Proof.
  induction 1 as [|event events (delta & rest & ->) _ IH];
    intros full_response; cbn [consume List.map concat].
  - now rewrite app_nil_r.
  - rewrite getitem_head. cbn [bind]. rewrite IH.
    destruct delta as [[|c d] |]; cbn [first_delta app];
      now rewrite <- ?app_assoc.
Qed.

Lemma consume_no_choice
  (before after : list (result (list (option str)))) :
  Forall has_choice before ->
  forall full_response,
    consume (before ++ Ok [] :: after) full_response = Raise index_error.
Proof.
  induction 1 as [|event events (delta & rest & ->) _ IH];
    intros full_response; cbn [app consume]; [reflexivity |].
  rewrite getitem_head. cbn [bind]. apply IH.
Qed.

End StreamFacts.

(** With [stream=True], when every streamed event arrives with at least
    one choice, the answer is the concatenation, in order, of the
    [delta.content] of the first choice of each event, those that are
    [None] or empty left out, trimmed of surrounding whitespace. *)
Theorem generate_llm_stream_concatenates
  (env : gmap string string) (client : Type)
  (AzureOpenAI : Py.result client)
  (create : client -> Py.str -> Py.str -> bool -> Py.result Llm.response)
  (prompt mode : Py.str) (c : client)
  (events : list (Py.result (list (option Py.str)))) :
  Llm.get_azure_client env client AzureOpenAI = Some c ->
  create c (if decide (mode = Py.lit "concise")
            then Llm.concise_prompt else Llm.detailed_prompt) prompt true
  = Py.Ok (Llm.ChatStream events) ->
  Forall has_choice events ->
  Llm.generate_llm env client AzureOpenAI create prompt mode true
  = Py.Ok (Py.strip (concat (List.map first_delta events))).
Proof.
  intros Hc Hs He. unfold Llm.generate_llm. rewrite Hc, Hs.
  cbn [Py.bind]. rewrite (consume_all events He []). reflexivity.
Qed.

Lemma generate_llm_stream_concatenates_witness :
  Llm.generate_llm full_env unit (Py.Ok tt)
    (fun _ _ _ _ =>
       Py.Ok (Llm.ChatStream
                [Py.Ok [Some (Py.lit " EMI ")]; Py.Ok [None];
                 Py.Ok [Some (Py.lit "is a loan. "); Some (Py.lit "x")]]))
    (Py.lit "What is EMI?") (Py.lit "concise") true
  = Py.Ok (Py.lit "EMI is a loan.").
Proof.
  etransitivity;
    [apply (generate_llm_stream_concatenates full_env unit (Py.Ok tt)
              (fun _ _ _ _ =>
                 Py.Ok (Llm.ChatStream
                          [Py.Ok [Some (Py.lit " EMI ")]; Py.Ok [None];
                           Py.Ok [Some (Py.lit "is a loan. ");
                                  Some (Py.lit "x")]]))
              (Py.lit "What is EMI?") (Py.lit "concise") tt
              [Py.Ok [Some (Py.lit " EMI ")]; Py.Ok [None];
               Py.Ok [Some (Py.lit "is a loan. "); Some (Py.lit "x")]])
    | vm_compute; reflexivity].
  - vm_compute. reflexivity.
  - reflexivity.
  - repeat constructor; unfold has_choice; eauto.
Defined.

(** With [stream=True], the first streamed event that has no choice at all
    turns the whole answer into the error string
    ["Error from LLM: list index out of range"], whatever text the earlier
    events carried. *)
Theorem generate_llm_stream_event_without_choice
  (env : gmap string string) (client : Type)
  (AzureOpenAI : Py.result client)
  (create : client -> Py.str -> Py.str -> bool -> Py.result Llm.response)
  (prompt mode : Py.str) (c : client)
  (before after : list (Py.result (list (option Py.str)))) :
  Llm.get_azure_client env client AzureOpenAI = Some c ->
  create c (if decide (mode = Py.lit "concise")
            then Llm.concise_prompt else Llm.detailed_prompt) prompt true
  = Py.Ok (Llm.ChatStream (before ++ Py.Ok [] :: after)) ->
  Forall has_choice before ->
  Llm.generate_llm env client AzureOpenAI create prompt mode true
  = Py.Ok (Py.lit "Error from LLM: " ++ Py.lit "list index out of range").
Proof.
  intros Hc Hs Hb. unfold Llm.generate_llm. rewrite Hc, Hs.
  cbn [Py.bind]. rewrite (consume_no_choice before after Hb []). reflexivity.
Qed.

Lemma generate_llm_stream_event_without_choice_witness :
  Llm.generate_llm full_env unit (Py.Ok tt)
    (fun _ _ _ _ =>
       Py.Ok (Llm.ChatStream
                [Py.Ok [Some (Py.lit "EMI")]; Py.Ok [];
                 Py.Ok [Some (Py.lit " is a loan.")]]))
    (Py.lit "What is EMI?") (Py.lit "detailed") true
  = Py.Ok (Py.lit "Error from LLM: " ++ Py.lit "list index out of range").
Proof.
  apply (generate_llm_stream_event_without_choice full_env unit (Py.Ok tt)
           (fun _ _ _ _ =>
              Py.Ok (Llm.ChatStream
                       [Py.Ok [Some (Py.lit "EMI")]; Py.Ok [];
                        Py.Ok [Some (Py.lit " is a loan.")]]))
           (Py.lit "What is EMI?") (Py.lit "detailed") tt
           [Py.Ok [Some (Py.lit "EMI")]] [Py.Ok [Some (Py.lit " is a loan.")]]).
  - vm_compute. reflexivity.
  - reflexivity.
  - repeat constructor; unfold has_choice; eauto.
Defined.

(** ** Validating, saving and loading documents *)

Section ValidateFacts.
Import Py Value DataProcessor.

Ltac report_step :=
  intros H; injection H as <-;
  cbn [total_documents valid_documents invalid_documents missing_title
       missing_content empty_content errors];
  split; [reflexivity |]; unfold problems;
  cbn [total_documents valid_documents invalid_documents missing_title
       missing_content empty_content errors];
  first
    [ exists []; split; [symmetry; apply app_nil_r |];
      split; [unfold len; cbn [List.length]; lia |];
      left; split; [lia | reflexivity]
    | eexists; split; [rewrite <- ?app_assoc; reflexivity |];
      split; [unfold len; cbn [List.length app]; lia |];
      right; split; [lia | discriminate] ].

(** One document either counts as valid and adds no error, or adds at
    least one error and as many as it adds to the failure counters. *)
Lemma validate_document_step (i : Z) (doc : value) (r r' : report) :
  validate_document i doc r = Ok r' ->
  total_documents r' = total_documents r
  /\ exists k,
       errors r' = errors r ++ k
       /\ len k = problems r' - problems r
       /\ ((valid_documents r' = valid_documents r + 1 /\ k = [])
           \/ (valid_documents r' = valid_documents r /\ k <> [])).
Proof.
  unfold validate_document.
  destruct doc as [| b | n | f | t | l | members]; try report_step.
  destruct (Cache.contains (lit "title") members);
    destruct (Cache.contains (lit "content") members); cbn [andb bind];
    try report_step;
    (destruct (Cache.getitem members (lit "content")) as [content |];
       cbn [bind]; [| discriminate];
     destruct (Value.strip content) as [[|x stripped] |];
       cbn [bind]; [| | discriminate]; report_step).
Qed.

Lemma validate_loop_spec (data : list value) :
  forall i r r',
    validate_loop i data r = Ok r' ->
    total_documents r' = total_documents r
    /\ exists k,
         errors r' = errors r ++ k
         /\ len k = problems r' - problems r
         /\ valid_documents r <= valid_documents r'
         /\ valid_documents r' - valid_documents r <= len data
         /\ (valid_documents r' - valid_documents r = len data <-> k = []).
Proof.
  induction data as [|doc data IH]; intros i r r'; cbn [validate_loop].
  - intros H. injection H as <-. split; [reflexivity |].
    exists []. rewrite app_nil_r. unfold len. cbn [List.length].
    repeat split; lia.
  - destruct (validate_document i doc r) as [r1 |] eqn:E1; cbn [bind];
      [| discriminate].
    intros H.
    destruct (validate_document_step i doc r r1 E1)
      as (Ht1 & k1 & He1 & Hl1 & Hv1).
    destruct (IH (i + 1) r1 r' H)
      as (Ht2 & k2 & He2 & Hl2 & Hlo & Hhi & Hiff).
    split; [congruence |].
    exists (k1 ++ k2). split; [now rewrite He2, He1, app_assoc |].
    assert (Hlen : len (doc :: data) = len data + 1)
      by (unfold len; cbn [List.length]; lia).
    assert (Hk : len (k1 ++ k2) = len k1 + len k2)
      by (unfold len; rewrite length_app; lia).
    rewrite Hlen, Hk.
    destruct Hv1 as [[Hv1 ->] | [Hv1 Hk1]].
    + cbn [app]. split; [lia |]. split; [lia |]. split; [lia |].
      rewrite <- Hiff. lia.
    + split; [lia |]. split; [lia |]. split; [lia |].
      split; [lia |]. intros Hnil. apply app_eq_nil in Hnil as [? _].
      contradiction.
Qed.

Lemma contains_of_getitem {A} (key : str) (d : Cache.dict A) (a : A) :
  Cache.getitem d key = Ok a -> Cache.contains key d = true.
Proof.
  intros H. apply contains_in. exact (getitem_ok_in key d a H).
Qed.

Lemma validate_document_typed (i : Z) (doc : value) (r : report) :
  if content_is_text doc
  then exists r', validate_document i doc r = Ok r'
  else exists msg,
         validate_document i doc r = Raise (Exn "AttributeError" msg).
Proof.
  unfold content_is_text, validate_document.
  destruct doc as [| b | n | f | t | l | members]; try (now eexists).
  destruct (Cache.getitem members (lit "content")) as [content | e] eqn:E.
  - rewrite (contains_of_getitem _ _ _ E).
    destruct content; cbn [bind Value.strip]; try (now eexists).
    destruct (Cache.contains (lit "title") members); cbn [andb bind];
      destruct (Py.strip s); now eexists.
  - assert (Hc : Cache.contains (lit "content") members = false).
    { destruct (Cache.contains (lit "content") members) eqn:Hc;
        [| reflexivity].
      apply contains_in, getitem_in in Hc as [a Ha]. congruence. }
    rewrite Hc, andb_false_r. cbn [bind]. now eexists.
Qed.

Lemma validate_loop_typed (data : list value) :
  forall i r,
    if forallb content_is_text data
    then exists r', validate_loop i data r = Ok r'
    else exists msg,
           validate_loop i data r = Raise (Exn "AttributeError" msg).
Proof.
  induction data as [|doc data IH]; intros i r;
    cbn [forallb validate_loop]; [now eexists |].
  pose proof (validate_document_typed i doc r) as Hd.
  destruct (content_is_text doc); cbn [andb].
  - destruct Hd as [r1 ->]. cbn [bind]. apply IH.
  - destruct Hd as [msg ->]. cbn [bind]. now eexists.
Qed.

End ValidateFacts.

(** In the report of [validate_banking_data] the total is the number of
    documents, the error list has one entry per unit of the four failure
    counters, and the valid count equals the total exactly when the error
    list is empty. *)
Theorem validate_banking_data_report_consistent
  (data : list Value.value) (r : DataProcessor.report) :
  DataProcessor.validate_banking_data data = Py.Ok r ->
  DataProcessor.total_documents r = Py.len data
  /\ Py.len (DataProcessor.errors r)
     = DataProcessor.invalid_documents r + DataProcessor.missing_title r
       + DataProcessor.missing_content r + DataProcessor.empty_content r
  /\ 0 <= DataProcessor.valid_documents r <= DataProcessor.total_documents r
  /\ (DataProcessor.valid_documents r = DataProcessor.total_documents r
      <-> DataProcessor.errors r = []).
Proof.
  unfold DataProcessor.validate_banking_data. intros H.
  destruct (validate_loop_spec data 0 _ r H)
    as (Ht & k & He & Hl & Hlo & Hhi & Hiff).
  cbn [DataProcessor.total_documents DataProcessor.valid_documents
       DataProcessor.errors app] in *.
  unfold problems in Hl.
  cbn [DataProcessor.invalid_documents DataProcessor.missing_title
       DataProcessor.missing_content DataProcessor.empty_content] in Hl.
  rewrite He, Ht. split; [reflexivity |]. split; [lia |]. split; [lia |].
  rewrite <- Hiff. lia.
Qed.

Lemma validate_banking_data_report_consistent_witness :
  DataProcessor.total_documents
    (DataProcessor.Report 2 0 1 0 0 1
       [DataProcessor.document 0 ": Empty content";
        DataProcessor.document 1 ": Not a dictionary"]) = 2
  /\ (0 = 2 <->
      [DataProcessor.document 0 ": Empty content";
       DataProcessor.document 1 ": Not a dictionary"] = []).
Proof.
  assert (H : DataProcessor.validate_banking_data
                [Value.VDict [(Py.lit "title", Value.VStr (Py.lit "EMI"));
                              (Py.lit "content", Value.VStr (Py.lit " "))];
                 Value.VInt 3]
              = Py.Ok (DataProcessor.Report 2 0 1 0 0 1
                         [DataProcessor.document 0 ": Empty content";
                          DataProcessor.document 1 ": Not a dictionary"]))
    by (vm_compute; reflexivity).
  destruct (validate_banking_data_report_consistent _ _ H)
    as (Ht & _ & _ & Hiff).
  split; [exact Ht | exact Hiff].
Defined.

(** [validate_banking_data] returns a report exactly when the ["content"]
    of every dictionary that has one is a string; otherwise the call
    raises [AttributeError] from [strip] and no report is returned. *)
Theorem validate_banking_data_raises_on_non_text (data : list Value.value) :
  (forallb content_is_text data = true ->
   exists r, DataProcessor.validate_banking_data data = Py.Ok r)
  /\ (forallb content_is_text data = false ->
      exists msg,
        DataProcessor.validate_banking_data data
        = Py.Raise (Py.Exn "AttributeError" msg)).
Proof.
  unfold DataProcessor.validate_banking_data.
  pose proof (validate_loop_typed data 0
                (DataProcessor.Report (Py.len data) 0 0 0 0 0 [])) as H.
  destruct (forallb content_is_text data);
    split; intros E; try discriminate; exact H.
Qed.


Section JsonlFacts.
Import Py Value DataProcessor.

Lemma rstrip_app_space (s : str) (c : N) :
  isspace c = true -> rstrip (s ++ [c]) = rstrip s.
Proof.
  intros Hc. induction s as [|x s IH]; cbn [app rstrip].
  - now rewrite Hc.
  - now rewrite IH.
Qed.

Lemma lstrip_app_space (s : str) (c : N) :
  isspace c = true ->
  lstrip (s ++ [c])
  = match lstrip s with [] => [] | _ :: _ => lstrip s ++ [c] end.
Proof.
  intros Hc. induction s as [|x s IH]; cbn [app lstrip].
  - now rewrite Hc.
  - destruct (isspace x); [exact IH | reflexivity].
Qed.

(** The line feed that ends a line does not survive [Py.strip]. *)
Lemma strip_line_feed (s : str) : Py.strip (s ++ [10%N]) = Py.strip s.
Proof.
  unfold Py.strip. rewrite lstrip_app_space by reflexivity.
  destruct (lstrip s) as [|x t] eqn:E; [reflexivity |].
  now rewrite rstrip_app_space.
Qed.

Lemma readlines_lines (lines : list str) :
  Forall (Forall (fun b => b <> 10%N /\ b <> 13%N)) lines ->
  PyLib.readlines (flat_map (fun l => l ++ [10%N]) lines)
  = List.map (fun l => l ++ [10%N]) lines.
Proof.
  intros H. unfold PyLib.readlines. rewrite translate_newlines_id.
  - induction H as [|l lines Hl _ IH]; cbn [flat_map List.map];
      [reflexivity |].
    rewrite <- app_assoc. cbn [app]. rewrite lines_keepends_line.
    + cbn [rev app]. now rewrite IH.
    + eapply Forall_impl; [exact Hl |]. now intros b [? _].
  - induction H as [|l lines Hl _ IH]; cbn [flat_map]; [constructor |].
    apply Forall_app. split; [| exact IH].
    apply Forall_app. split; [| constructor; [discriminate | constructor]].
    eapply Forall_impl; [exact Hl |]. now intros b [_ ?].
Qed.

Variable loads : str -> result value.
Variable dumps : value -> result str.

Lemma write_items_lines (data : list value) :
  Forall (one_line_json loads dumps) data ->
  forall written,
  exists lines,
    write_items dumps data written
    = (Ok tt, written ++ flat_map (fun l => l ++ [10%N]) lines)
    /\ Forall (Forall (fun b => b <> 10%N /\ b <> 13%N)) lines
    /\ Forall2 (fun l item => Py.strip l <> [] /\ loads (Py.strip l) = Ok item)
         lines data.
Proof.
  induction 1 as [|item data (line & Hd & Hf & Hs & Hl) _ IH];
    intros written; cbn [write_items].
  - exists []. cbn [flat_map]. rewrite app_nil_r.
    split; [reflexivity |]. split; constructor.
  - rewrite Hd.
    assert (Hsur : existsb PyLib.is_surrogate line = false).
    { apply not_true_is_false. intros Hex.
      apply existsb_exists in Hex as (b & Hb & Hbs).
      rewrite List.Forall_forall in Hf. destruct (Hf b Hb) as (_ & _ & Hn).
      congruence. }
    rewrite Hsur.
    destruct (IH (written ++ line ++ [10%N])) as (lines & Hw & Hfl & Hfr).
    exists (line :: lines). cbn [flat_map]. split; [| split].
    + rewrite Hw. now rewrite <- !app_assoc.
    + constructor; [| exact Hfl].
      eapply Forall_impl; [exact Hf |]. now intros b (? & ? & _).
    + constructor 2; [now split | exact Hfr].
Qed.

Lemma load_lines_round_trip (lines : list str) (data : list value) :
  Forall2 (fun l item => Py.strip l <> [] /\ loads (Py.strip l) = Ok item)
    lines data ->
  forall acc,
    load_lines loads (List.map (fun l => l ++ [10%N]) lines) acc
    = Ok (acc ++ data).
Proof.
  induction 1 as [|l item lines data [Hs Hl] _ IH]; intros acc;
    cbn [List.map load_lines].
  - now rewrite app_nil_r.
  - rewrite strip_line_feed.
    destruct (Py.strip l) as [|x t] eqn:E; [congruence |].
    rewrite Hl, IH. now rewrite <- app_assoc.
Qed.

Lemma load_lines_total (lines : list str) :
  (forall line e, loads line = Raise e ->
                  exn_class e = "JSONDecodeError"%string) ->
  forall acc,
  exists data,
    load_lines loads lines acc = Ok data
    /\ (List.length data <= List.length acc + List.length lines)%nat.
Proof.
  intros Hj. induction lines as [|line lines IH]; intros acc;
    cbn [load_lines].
  - exists acc. split; [reflexivity | lia].
  - destruct (Py.strip line) as [|x t].
    + destruct (IH acc) as (data & -> & Hl). exists data.
      split; [reflexivity | cbn [List.length]; lia].
    + destruct (loads (x :: t)) as [v | e] eqn:E.
      * destruct (IH (acc ++ [v])) as (data & -> & Hl). exists data.
        split; [reflexivity |].
        rewrite length_app in Hl. cbn [List.length] in *. lia.
      * rewrite (Hj _ _ E). cbn.
        destruct (IH acc) as (data & -> & Hl). exists data.
        split; [reflexivity | cbn [List.length]; lia].
Qed.

Lemma head_with_sep_none (p : string) :
  Forall (fun c => c <> "/"%char) (list_ascii_of_string p) ->
  PyLib.head_with_sep p = None.
Proof.
  induction p as [|c p IH]; cbn [list_ascii_of_string PyLib.head_with_sep];
    [reflexivity |].
  intros H. apply Forall_cons in H as [Hc Hp]. rewrite (IH Hp).
  now apply Ascii.eqb_neq in Hc as ->.
Qed.

End JsonlFacts.



(** [save_jsonl] on a path without any ['/'] fails before it opens the
    file: the directory name is empty, [os.makedirs] refuses it with
    [FileNotFoundError], and nothing is written. *)
Theorem save_jsonl_bare_file_name_raises
  (dumps : Value.value -> Py.result Py.str)
  (data : list Value.value) (file_path : string) (s : BuildFaissIndex.fs) :
  Forall (fun c => c <> "/"%char) (list_ascii_of_string file_path) ->
  DataProcessor.save_jsonl dumps data file_path s
  = (Py.Raise (Py.Exn "FileNotFoundError"
                 (Py.lit "[Errno 2] No such file or directory: ''")), s).
Proof.
  intros H. unfold DataProcessor.save_jsonl, PyLib.dirname.
  rewrite (head_with_sep_none file_path H). reflexivity.
Qed.

Lemma save_jsonl_bare_file_name_raises_witness :
  DataProcessor.save_jsonl (fun _ => Py.Ok (Py.lit "{}")) [Value.VDict []]
    "scraped.jsonl" (BuildFaissIndex.Fs ∅ ∅)
  = (Py.Raise (Py.Exn "FileNotFoundError"
                 (Py.lit "[Errno 2] No such file or directory: ''")),
     BuildFaissIndex.Fs ∅ ∅).
Proof.
  apply (save_jsonl_bare_file_name_raises (fun _ => Py.Ok (Py.lit "{}"))
           [Value.VDict []] "scraped.jsonl" (BuildFaissIndex.Fs ∅ ∅)).
  repeat constructor; discriminate.
Defined.

(** On an existing file, when the decoder raises nothing but
    [JSONDecodeError], [load_jsonl] never raises: undecodable and blank
    lines are skipped, and at most one document per line is returned. *)
Theorem load_jsonl_skips_bad_lines
  (loads : Py.str -> Py.result Value.value)
  (file_path : string) (content : list N) (s : BuildFaissIndex.fs) :
  BuildFaissIndex.files s !! file_path = Some content ->
  (forall line e, loads line = Py.Raise e ->
                  Py.exn_class e = "JSONDecodeError"%string) ->
  exists data,
    DataProcessor.load_jsonl loads file_path s = Py.Ok data
    /\ (List.length data <= List.length (PyLib.readlines content))%nat.
Proof.
  intros Hf Hj.
  unfold DataProcessor.load_jsonl, DataProcessor.path_exists,
    DataProcessor.read_text, Py.str.
  rewrite Hf. rewrite bool_decide_eq_true_2 by (now eexists).
  cbn [orb negb Py.bind].
  destruct (load_lines_total loads (PyLib.readlines content) Hj [])
    as (data & Hd & Hl).
  exists data. split; [exact Hd | exact Hl].
Qed.

Lemma load_jsonl_skips_bad_lines_witness :
  exists data,
    DataProcessor.load_jsonl
      (fun line =>
         if decide (line = Py.lit "{}") then Py.Ok (Value.VDict [])
         else Py.Raise (Py.Exn "JSONDecodeError" (Py.lit "Expecting value")))
      "data/banking_documents.jsonl"
      (BuildFaissIndex.Fs ∅
         {[ "data/banking_documents.jsonl"%string
            := Py.lit "{}" ++ [10%N; 10%N] ++ Py.lit "{oops" ++ [10%N] ]})
    = Py.Ok data
    /\ (List.length data
        <= List.length
             (PyLib.readlines
                (Py.lit "{}" ++ [10%N; 10%N] ++ Py.lit "{oops" ++ [10%N])))%nat.
Proof.
  apply (load_jsonl_skips_bad_lines _ "data/banking_documents.jsonl"
           (Py.lit "{}" ++ [10%N; 10%N] ++ Py.lit "{oops" ++ [10%N])).
  - apply lookup_singleton_eq.
  - intros line e. destruct (decide (line = Py.lit "{}")); [discriminate |].
    intros H. injection H as <-. reflexivity.
Defined.

(** ** Cleaning text *)

Section CleanFacts.
Import Py TextCleaning.

Variable is_word : N -> bool.

Lemma collapse_spaces_chars (in_run : bool) (s : str) :
  Forall (fun c => c = 32%N \/ isspace c = false)
    (collapse_spaces in_run s).
Proof.
  revert in_run. induction s as [|c s IH]; intros in_run;
    cbn [collapse_spaces]; [constructor |].
  destruct (isspace c) eqn:E.
  - destruct in_run; [apply IH |]. constructor; [now left | apply IH].
  - constructor; [now right | apply IH].
Qed.

Lemma collapse_spaces_length (in_run : bool) (s : str) :
  (List.length (collapse_spaces in_run s) <= List.length s)%nat.
Proof.
  revert in_run. induction s as [|c s IH]; intros in_run;
    cbn [collapse_spaces List.length]; [lia |].
  pose proof (IH true). pose proof (IH false).
  destruct (isspace c); [destruct in_run |]; cbn [List.length]; lia.
Qed.

End CleanFacts.


Example clean_text_sample :
  TextCleaning.clean_text (fun c => (97 <=? c) && (c <=? 122))%N
    (Py.lit "  rbi @ repo" ++ [9%N; 10%N] ++ Py.lit "rate: 6.5#  ")
  = Py.lit "rbi  repo rate: .".
Proof. vm_compute. reflexivity. Qed.

(** ** Merging scraped documents *)

Section MergeFacts.
Import Py Value.

Variable loads : str -> result value.
Variable dumps : value -> result str.
Variable K : Type.
Context `{EqDecision K}.
Variable key_of : value -> result K.
Variable key : value -> K.

Lemma titles_spec (data : list value) :
  (forall item, In item data ->
                MetScraper.title_of K key_of item = Ok (key item)) ->
  MetScraper.titles K key_of data = Ok (List.map key data).
Proof.
  induction data as [|item data IH]; intros Hk;
    cbn [MetScraper.titles List.map]; [reflexivity |].
  rewrite (Hk item (or_introl eq_refl)). cbn [bind].
  rewrite IH by (intros i Hi; apply Hk; now right). reflexivity.
Qed.

Lemma unique_new_spec (known new_data : list value) :
  (forall item, In item new_data ->
                MetScraper.title_of K key_of item = Ok (key item)) ->
  MetScraper.unique_new K key_of (List.map key known) new_data
  = Ok (unknown_titles key known new_data).
Proof.
  unfold unknown_titles.
  induction new_data as [|item new_data IH]; intros Hk;
    cbn [MetScraper.unique_new List.filter]; [reflexivity |].
  rewrite (Hk item (or_introl eq_refl)). cbn [bind].
  rewrite IH by (intros i Hi; apply Hk; now right). cbn [bind].
  destruct (decide (key item ∈ List.map key known)) as [Hin | Hnin].
  - now rewrite bool_decide_eq_true_2.
  - now rewrite bool_decide_eq_false_2.
Qed.

Lemma unknown_titles_none (known new_data : list value) :
  (forall item, In item new_data -> In (key item) (List.map key known)) ->
  unknown_titles key known new_data = [].
Proof.
  unfold unknown_titles. induction new_data as [|item new_data IH];
    intros Hk; cbn [List.filter]; [reflexivity |].
  rewrite bool_decide_eq_true_2
    by (apply list_elem_of_In, Hk; now left).
  cbn [negb]. apply IH. intros i Hi. apply Hk. now right.
Qed.

Lemma unknown_titles_incl (known new_data : list value) (item : value) :
  In item (unknown_titles key known new_data) -> In item new_data.
Proof. unfold unknown_titles. intros H. now apply filter_In in H. Qed.

(** Every new document has its title among those of the merged list. *)
Lemma merged_titles_cover (known new_data : list value) (item : value) :
  In item new_data ->
  In (key item) (List.map key (known ++ unknown_titles key known new_data)).
Proof.
  intros Hin. rewrite List.map_app. apply in_or_app.
  destruct (decide (key item ∈ List.map key known)) as [Hk | Hk].
  - left. now apply list_elem_of_In.
  - right. apply in_map. unfold unknown_titles. apply filter_In.
    split; [exact Hin |]. now rewrite bool_decide_eq_false_2.
Qed.

Lemma makedirs_exist_ok_inv (d : string) (s s1 : BuildFaissIndex.fs) :
  DataProcessor.makedirs_exist_ok d s = Ok s1 ->
  d <> EmptyString
  /\ BuildFaissIndex.files s !! d = None
  /\ s1 = BuildFaissIndex.makedirs d s.
Proof.
  unfold DataProcessor.makedirs_exist_ok.
  destruct d as [|c d]; [discriminate |].
  destruct (BuildFaissIndex.files s !! String c d) eqn:E; [discriminate |].
  intros H. injection H as <-. now repeat split.
Qed.

(** What a successful [save_jsonl] leaves, and what [load_jsonl] reads
    from it. *)
Lemma save_jsonl_written (data : list value) (path : string)
  (s s1 : BuildFaissIndex.fs) :
  DataProcessor.makedirs_exist_ok (PyLib.dirname path) s = Ok s1 ->
  path ∉ BuildFaissIndex.dirs s1 ->
  Forall (one_line_json loads dumps) data ->
  exists content,
    DataProcessor.write_items dumps data [] = (Ok tt, content)
    /\ DataProcessor.save_jsonl dumps data path s
       = (Ok tt, BuildFaissIndex.write_file path content s1)
    /\ forall s',
         BuildFaissIndex.files s' !! path = Some content ->
         DataProcessor.load_jsonl loads path s' = Ok data.
Proof.
  intros Hm Hd Hj.
  destruct (write_items_lines loads dumps data Hj [])
    as (lines & Hw & Hfl & Hfr).
  cbn [app] in Hw. eexists. split; [exact Hw |]. split.
  - unfold DataProcessor.save_jsonl. rewrite Hm.
    rewrite bool_decide_eq_false_2 by exact Hd. now rewrite Hw.
  - intros s' Hf.
    unfold DataProcessor.load_jsonl, DataProcessor.path_exists,
      DataProcessor.read_text, Py.str in *.
    rewrite Hf. rewrite bool_decide_eq_true_2 by (now eexists).
    cbn [orb negb bind]. rewrite (readlines_lines lines Hfl).
    exact (load_lines_round_trip loads lines data Hfr []).
Qed.

Variable new_data : list value.
Variable existing_file : string.
Variable s s1 : BuildFaissIndex.fs.
Variable existing : list value.

Local Abbreviation path := (BuildFaissIndex.path_join "data" existing_file).

Hypothesis Hload :
  (if DataProcessor.path_exists path s
   then DataProcessor.load_jsonl loads path s else Ok []) = Ok existing.
Hypothesis Hkey :
  forall item, In item (existing ++ new_data) ->
               MetScraper.title_of K key_of item = Ok (key item).
Hypothesis Hmk :
  DataProcessor.makedirs_exist_ok (PyLib.dirname path) s = Ok s1.
Hypothesis Hdir : path ∉ BuildFaissIndex.dirs s1.
Hypothesis Hjson : Forall (one_line_json loads dumps) (existing ++ new_data).

Lemma merged_one_line :
  Forall (one_line_json loads dumps)
    (existing ++ unknown_titles key existing new_data).
Proof.
  apply Forall_app in Hjson as [He Hn].
  apply Forall_app. split; [exact He |].
  apply List.Forall_forall. intros item Hi.
  rewrite List.Forall_forall in Hn.
  apply Hn. exact (unknown_titles_incl existing new_data item Hi).
Qed.

(** The first merge: what it saves and leaves. *)
Lemma merge_first :
  exists content,
    DataProcessor.write_items dumps
      (existing ++ unknown_titles key existing new_data) [] = (Ok tt, content)
    /\ MetScraper.merge_with_existing_data loads dumps K key_of new_data
         existing_file s
       = BuildFaissIndex.write_file path content s1
    /\ forall s',
         BuildFaissIndex.files s' !! path = Some content ->
         DataProcessor.load_jsonl loads path s'
         = Ok (existing ++ unknown_titles key existing new_data).
Proof.
  destruct (save_jsonl_written _ path s s1 Hmk Hdir merged_one_line)
    as (content & Hw & Hs & Hl).
  exists content. split; [exact Hw |]. split; [| exact Hl].
  unfold MetScraper.merge_with_existing_data, MetScraper.merge_body.
  rewrite Hload.
  rewrite (titles_spec existing)
    by (intros i Hi; apply Hkey, in_or_app; now left).
  rewrite (unique_new_spec existing new_data)
    by (intros i Hi; apply Hkey, in_or_app; now right).
  now rewrite Hs.
Qed.

(** Merging the same new documents again changes nothing. *)
Lemma merge_second :
  MetScraper.merge_with_existing_data loads dumps K key_of new_data
    existing_file
    (MetScraper.merge_with_existing_data loads dumps K key_of new_data
       existing_file s)
  = MetScraper.merge_with_existing_data loads dumps K key_of new_data
      existing_file s.
Proof.
  destruct merge_first as (content & Hw & -> & Hl).
  destruct (makedirs_exist_ok_inv _ s s1 Hmk) as (Hne & Hnone & ->).
  set (merged := existing ++ unknown_titles key existing new_data) in *.
  set (s' := BuildFaissIndex.write_file path content
               (BuildFaissIndex.makedirs (PyLib.dirname path) s)).
  assert (Hf : BuildFaissIndex.files s' !! path = Some content)
    by apply lookup_insert_eq.
  assert (Hnp : PyLib.dirname path <> path).
  { intros E. apply Hdir. cbn [BuildFaissIndex.makedirs BuildFaissIndex.dirs].
    rewrite E. apply elem_of_union_l, elem_of_singleton. reflexivity. }
  unfold MetScraper.merge_with_existing_data at 1, MetScraper.merge_body.
  assert (He : DataProcessor.path_exists path s' = true).
  { unfold DataProcessor.path_exists. unfold Py.str in Hf. rewrite Hf.
    rewrite bool_decide_eq_true_2 by (now eexists). reflexivity. }
  rewrite He, (Hl s' Hf).
  assert (Hkm : forall item, In item merged ->
                  MetScraper.title_of K key_of item = Ok (key item)).
  { intros i Hi. apply Hkey. apply in_app_or in Hi as [Hi | Hi];
      apply in_or_app; [now left | right].
    exact (unknown_titles_incl existing new_data i Hi). }
  rewrite (titles_spec merged Hkm).
  rewrite (unique_new_spec merged new_data)
    by (intros i Hi; apply Hkey, in_or_app; now right).
  rewrite (unknown_titles_none merged new_data)
    by (intros i Hi; exact (merged_titles_cover existing new_data i Hi)).
  rewrite app_nil_r.
  unfold DataProcessor.save_jsonl, DataProcessor.makedirs_exist_ok.
  destruct (PyLib.dirname path) as [|c d] eqn:Ed; [congruence |].
  assert (Hn' : BuildFaissIndex.files s' !! String c d = None).
  { unfold s'. cbn [BuildFaissIndex.write_file BuildFaissIndex.files
                    BuildFaissIndex.makedirs].
    rewrite lookup_insert_ne by (intros E; apply Hnp; now symmetry).
    exact Hnone. }
  rewrite Hn'.
  rewrite bool_decide_eq_false_2.
  - rewrite Hw. cbn [snd]. unfold s'.
    unfold BuildFaissIndex.write_file, BuildFaissIndex.makedirs.
    cbn [BuildFaissIndex.dirs BuildFaissIndex.files].
    f_equal; [| apply insert_insert_eq].
    rewrite (assoc_L (∪)), (union_idemp_L {[ String c d ]}). reflexivity.
  - cbn [BuildFaissIndex.makedirs BuildFaissIndex.dirs
         BuildFaissIndex.write_file] in *.
    intros Hin. apply Hdir.
    apply elem_of_union in Hin as [Hin | Hin]; [| exact Hin].
    now apply elem_of_union_l.
Qed.

End MergeFacts.


Lemma two_documents_one_line :
  Forall (one_line_json two_loads two_dumps) [untitled; titled; titled].
Proof.
  assert (Hu : one_line_json two_loads two_dumps untitled).
  { exists (Py.lit "{}"). split; [reflexivity |].
    split; [| split; [vm_compute; discriminate | reflexivity]].
    repeat constructor; vm_compute; discriminate. }
  assert (Ht : one_line_json two_loads two_dumps titled).
  { exists (Py.lit "{EMI}"). split; [reflexivity |].
    split; [| split; [vm_compute; discriminate | reflexivity]].
    repeat constructor; vm_compute; discriminate. }
  repeat constructor; assumption.
Qed.

Lemma two_documents_keys (item : Value.value) :
  In item [untitled; titled; titled] ->
  MetScraper.title_of Py.str text_key_of item = Py.Ok (text_key item).
Proof.
  intros [<- | [<- | [<- | []]]]; reflexivity.
Qed.

Lemma one_document_directory :
  BuildFaissIndex.path_join "data" "banking_documents.jsonl"
  ∉ BuildFaissIndex.dirs (BuildFaissIndex.makedirs "data" one_document).
Proof.
  cbn. intros H. apply elem_of_union in H as [H | H];
    apply elem_of_singleton in H; discriminate.
Qed.




(** The documents of the sample merge: the title that is new is added
    once for each of its two occurrences. *)
Example merge_sample :
  [untitled] ++ unknown_titles text_key [untitled] [titled; titled]
  = [untitled; titled; titled].
Proof. vm_compute. reflexivity. Qed.
